(** * wx-open-project: credential and session-token lifecycle

    A shallow embedding of the parts of [app/models/__init__.py] that issue
    and validate admin session tokens, cache platform credentials, rotate
    refresh tokens, synchronise authorizer profiles and sign card requests.

    Python values are embedded as the inductive [pyval]; model instances as
    records holding a field dictionary and peewee's dirty set; the database,
    the key-value cache, the two clocks and the log of outgoing calls are an
    explicit [state] threaded through a small state-and-exception monad. *)

From Stdlib Require Import ZArith QArith String Ascii List.
From Stdlib Require Import DecimalString DecimalPos DecimalZ.
From Stdlib Require Import Sorting.Sorted Sorting.Permutation Lia.
From stdpp Require Import gmap strings list fin_maps.

Local Open Scope string_scope.
Local Open Scope Z_scope.
Local Set Warnings "-register-all".

(** ** Python values *)

(** The values the modelled code handles: JSON documents decoded by
    [requests], column values of model instances and [datetime] stamps (as
    an integer count of microseconds).  A dict is an association list; the
    JSON decoder never produces a repeated key. *)
Inductive pyval : Type :=
  | PNone
  | PBool (b : bool)
  | PInt (z : Z)
  | PStr (s : string)
  | PTime (t : Z)
  | PList (l : list pyval)
  | PDict (d : list (string * pyval)).

(** The exceptions the modelled code can meet. *)
Inductive exn : Type :=
  | AssertionError
  | ValueError
  | TypeError
  | AttributeError
  | DoesNotExist
  | DatabaseError
  | RequestException
  | DecodeError.

(** Result of a computation that may raise. *)
Inductive outcome (A : Type) : Type :=
  | Ret (a : A)
  | Raise (e : exn).
Arguments Ret {A} a.
Arguments Raise {A} e.

(** Python truth value: [bool(v)]. *)
Definition truthy (v : pyval) : bool :=
  match v with
  | PNone => false
  | PBool b => b
  | PInt z => negb (z =? 0)
  | PStr s => negb (String.eqb s "")
  | PTime _ => true
  | PList l => match l with [] => false | _ => true end
  | PDict d => match d with [] => false | _ => true end
  end.

(** [all(vs)] *)
Definition py_all (vs : list pyval) : bool := forallb truthy vs.

(** [d.get(k)] on an association list: the first binding, if any. *)
Fixpoint assoc (k : string) (d : list (string * pyval)) : option pyval :=
  match d with
  | [] => None
  | (k', v) :: d' => if String.eqb k k' then Some v else assoc k d'
  end.

(** Python [==].  Booleans are integers ([True == 1]); dicts are equal when
    they have as many items and every item of the left one is found, with an
    equal value, in the right one. *)
Fixpoint py_eqb (a b : pyval) {struct a} : bool :=
  match a, b with
  | PNone, PNone => true
  | PBool x, PBool y => Bool.eqb x y
  | PBool x, PInt y => Z.b2z x =? y
  | PInt x, PBool y => x =? Z.b2z y
  | PInt x, PInt y => x =? y
  | PStr x, PStr y => String.eqb x y
  | PTime x, PTime y => x =? y
  | PList l1, PList l2 =>
      (fix go (l1 l2 : list pyval) {struct l1} : bool :=
         match l1, l2 with
         | [], [] => true
         | x :: xs, y :: ys => py_eqb x y && go xs ys
         | _, _ => false
         end) l1 l2
  | PDict d1, PDict d2 =>
      (length d1 =? length d2)%nat &&
      (fix go (d : list (string * pyval)) {struct d} : bool :=
         match d with
         | [] => true
         | (k, v) :: d' =>
             match assoc k d2 with
             | Some v' => py_eqb v v'
             | None => false
             end && go d'
         end) d1
  | _, _ => false
  end.

(** Python [!=]. *)
Definition py_ne (a b : pyval) : bool := negb (py_eqb a b).

(** [v.get(k)]: a method of dicts only; a missing key gives [None]. *)
Definition py_get (v : pyval) (k : string) : outcome pyval :=
  match v with
  | PDict d => Ret (default PNone (assoc k d))
  | _ => Raise AttributeError
  end.

(** ** Strings *)

(** [s.split(sep)] for a one-character separator. *)
Fixpoint split (sep : ascii) (s : string) : list string :=
  match s with
  | EmptyString => [EmptyString]
  | String c r =>
      if Ascii.eqb c sep then EmptyString :: split sep r
      else match split sep r with
           | h :: t => String c h :: t
           | [] => [String c EmptyString]
           end
  end.

(** The characters [str.strip()] removes: space, tab, newline, vertical tab,
    form feed and carriage return. *)
Definition is_space (c : ascii) : bool :=
  let n := nat_of_ascii c in
  (n =? 32)%nat || ((9 <=? n)%nat && (n <=? 13)%nat).

Fixpoint lstrip (s : string) : string :=
  match s with
  | EmptyString => EmptyString
  | String c r => if is_space c then lstrip r else s
  end.

Fixpoint rstrip (s : string) : string :=
  match s with
  | EmptyString => EmptyString
  | String c r =>
      match rstrip r with
      | EmptyString => if is_space c then EmptyString else String c EmptyString
      | r' => String c r'
      end
  end.

(** [s.strip()] *)
Definition strip (s : string) : string := rstrip (lstrip s).

(** ['%s' % n] for an integer: its decimal numeral. *)
Definition str_of_int (z : Z) : string := NilZero.string_of_int (Z.to_int z).

(** [int(s)] for a string: surrounding whitespace is ignored, one sign is
    allowed, at least one decimal digit must follow. *)
Definition int_of_str (s : string) : outcome Z :=
  let t := strip s in
  let r := match t with
           | String "+" u => option_map Decimal.Pos (NilZero.uint_of_string u)
           | _ => NilZero.int_of_string t
           end in
  match r with
  | Some d => Ret (Z.of_int d)
  | None => Raise ValueError
  end.

(** [int(v)] *)
Definition py_int (v : pyval) : outcome Z :=
  match v with
  | PInt z => Ret z
  | PBool b => Ret (Z.b2z b)
  | PStr s => int_of_str s
  | _ => Raise TypeError
  end.

(** [''.join(items)] *)
Definition join (items : list string) : string :=
  fold_right String.append EmptyString items.

(** [_nullable_strip = (lambda s: s.strip() or None if s else None)]:
    the conditional binds weaker than [or]; [strip] is a method of strings. *)
Definition _nullable_strip (s : pyval) : outcome pyval :=
  if truthy s then
    match s with
    | PStr x => let y := strip x in
                Ret (if String.eqb y "" then PNone else PStr y)
    | _ => Raise AttributeError
    end
  else Ret PNone.

(** [int(x)] for a float [x], here a rational: truncation towards zero. *)
Definition int_of_float (x : Q) : Z := Z.quot (Qnum x) (Z.pos (Qden x)).

(** [n > x] for an integer [n] and a float [x]; Python compares the two
    exactly. *)
Definition int_gt_float (n : Z) (x : Q) : bool := negb (Qle_bool (inject_Z n) x).

(** ** Model classes and instances *)

(** What the code uses of a peewee model class: its table and
    [_meta.sorted_field_names] (the primary key first, then the fields in
    declaration order, those of the base class before those of the class). *)
Record model_class : Type := {
  db_table : string;
  sorted_field_names : list string
}.

Definition BaseModel_fields : list string :=
  ["id"; "uuid"; "create_time"; "update_time"; "show"; "weight"].

Definition Admin : model_class := {|
  db_table := "admin";
  sorted_field_names :=
    BaseModel_fields ++
    ["name"; "password"; "mobile"; "last_login_time"; "last_login_ip";
     "authority"]
|}.

Definition WXAuthorizer : model_class := {|
  db_table := "wx_authorizer";
  sorted_field_names :=
    BaseModel_fields ++
    ["authorized"; "appid"; "refresh_token"; "func_info"; "authorizer_info";
     "service_type"; "verify_type"; "nick_name"; "signature"; "head_img";
     "qrcode_url"; "principal_name"; "user_name"; "alias"; "business_info";
     "mini_program_info"]
|}.

(** A persisted model instance: its class, its primary key, the values of
    its other fields ([_data]) and the names assigned since it was loaded or
    saved ([_dirty]). *)
Record instance : Type := {
  inst_cls : model_class;
  inst_id : Z;
  inst_data : gmap string pyval;
  inst_dirty : gset string
}.

(** [getattr(o, f)] for a field name [f]; an unset field reads [None]. *)
Definition getattr (o : instance) (f : string) : pyval :=
  if String.eqb f "id" then PInt (inst_id o)
  else default PNone (inst_data o !! f).

(** [o.f = v]: peewee's field descriptor stores the value and marks the
    field dirty, whether or not the value changed. *)
Definition setattr (o : instance) (f : string) (v : pyval) : instance :=
  {| inst_cls := inst_cls o;
     inst_id := inst_id o;
     inst_data := <[f := v]> (inst_data o);
     inst_dirty := {[f]} ∪ inst_dirty o |}.

(** ** Outgoing calls and the program state *)

Inductive http_method : Type := GET | POST.

(** A call of [requests.get] or [requests.post]: the query parameters and,
    for a POST, the dict handed to [json.dumps]. *)
Record request : Type := {
  req_method : http_method;
  req_url : string;
  req_params : list (string * pyval);
  req_data : list (string * pyval)
}.

(** What the program does to its collaborators, in order of occurrence. *)
Inductive event : Type :=
  | EvComponentToken
  | EvRequest (r : request)
  | EvRedisSet (key value : string) (ex : Z)
  | EvDbUpdate (table : string) (pk : Z) (fields : gmap string pyval)
  | EvLogError (e : exn).

(** The state a method runs in.  [self_] is the receiver, which methods
    mutate in place; [db] maps a table and a primary key to the stored row;
    [db_ok] tells whether the database answers; [redis] holds, for a key, the
    cached string and the seconds it still has to live; [time_time] is the
    reading of [time.time()], [datetime_now] that of
    [datetime.datetime.now()]; [trace] lists the events so far, the latest
    first. *)
Record state : Type := {
  self_ : instance;
  db : gmap (string * Z) (gmap string pyval);
  db_ok : bool;
  redis : gmap string (string * Z);
  time_time : Q;
  datetime_now : Z;
  trace : list event
}.

Definition set_self (o : instance) (s : state) : state :=
  {| self_ := o; db := db s; db_ok := db_ok s; redis := redis s;
     time_time := time_time s; datetime_now := datetime_now s;
     trace := trace s |}.

Definition set_db (d : gmap (string * Z) (gmap string pyval)) (s : state) : state :=
  {| self_ := self_ s; db := d; db_ok := db_ok s; redis := redis s;
     time_time := time_time s; datetime_now := datetime_now s;
     trace := trace s |}.

Definition set_redis (r : gmap string (string * Z)) (s : state) : state :=
  {| self_ := self_ s; db := db s; db_ok := db_ok s; redis := r;
     time_time := time_time s; datetime_now := datetime_now s;
     trace := trace s |}.

Definition add_event (e : event) (s : state) : state :=
  {| self_ := self_ s; db := db s; db_ok := db_ok s; redis := redis s;
     time_time := time_time s; datetime_now := datetime_now s;
     trace := e :: trace s |}.

(** ** The monad of methods: state and exceptions *)

Definition M (A : Type) : Type := state -> outcome A * state.

Definition ret {A} (a : A) : M A := fun s => (Ret a, s).

Definition raise {A} (e : exn) : M A := fun s => (Raise e, s).

Definition bind {A B} (m : M A) (k : A -> M B) : M B :=
  fun s => match m s with
           | (Ret a, s') => k a s'
           | (Raise e, s') => (Raise e, s')
           end.

Notation "'let*' x ':=' m 'in' k" := (bind m (fun x => k))
  (at level 10, x name, m at level 100, k at level 200).
Notation "m ';;' k" := (bind m (fun _ => k))
  (at level 100, k at level 200, right associativity).

(** A pure computation that may raise, run as a step of a method. *)
Definition lift {A} (o : outcome A) : M A := fun s => (o, s).

Definition get_state : M state := fun s => (Ret s, s).

Definition modify (f : state -> state) : M unit := fun s => (Ret tt, f s).

Definition emit (e : event) : M unit := modify (add_event e).

(** [try: m except Exception, e: h e] *)
Definition try_except {A} (m : M A) (h : exn -> M A) : M A :=
  fun s => match m s with
           | (Ret a, s') => (Ret a, s')
           | (Raise e, s') => h e s'
           end.

(** [current_app.logger.error(e)] *)
Definition logger_error (e : exn) : M unit := emit (EvLogError e).

(** The result of a method that ends in [return self] and falls off its end,
    returning [None], once an exception was logged. *)
Inductive self_or_none : Type := Self | NoneRet.

(** [self.f = v] on the receiver. *)
Definition assign (f : string) (v : pyval) : M unit :=
  modify (fun s => set_self (setattr (self_ s) f v) s).

(** [self.f] on the receiver. *)
Definition self_attr (f : string) : M pyval :=
  fun s => (Ret (getattr (self_ s) f), s).

(** ** BaseModel *)

(** [cls.get(cls.id == _id)]: the field converts the operand with [int], the
    query raises [DoesNotExist] when no row has that key; the instance
    returned has nothing dirty. *)
Definition cls_get_by_id (cls : model_class) (_id : pyval) : M instance :=
  let* n := lift (py_int _id) in
  let* s := get_state in
  if db_ok s then
    match db s !! (db_table cls, n) with
    | Some row =>
        ret {| inst_cls := cls; inst_id := n; inst_data := row;
               inst_dirty := ∅ |}
    | None => raise DoesNotExist
    end
  else raise DatabaseError.

(** [query_by_id]: the [return] of the [finally] clause discards whatever
    the [try] block raised. *)
Definition query_by_id (cls : model_class) (_id : pyval) : M (option instance) :=
  fun s => match cls_get_by_id cls _id s with
           | (Ret o, s') => (Ret (Some o), s')
           | (Raise _, s') => (Ret None, s')
           end.

(** [getattr(db_obj, f)] where [db_obj] may be [None]. *)
Definition getattr_opt (o : option instance) (f : string) : outcome pyval :=
  match o with
  | Some i => Ret (getattr i f)
  | None => Raise AttributeError
  end.

(** Python 2's eager [filter] with a predicate that may raise. *)
Fixpoint filter_raising (p : string -> outcome bool) (l : list string)
  : outcome (list string) :=
  match l with
  | [] => Ret []
  | f :: l' =>
      match p f with
      | Raise e => Raise e
      | Ret b =>
          match filter_raising p l' with
          | Raise e => Raise e
          | Ret r => Ret (if b then f :: r else r)
          end
      end
  end.

(** [modified_fields]: the names of the fields whose value differs from the
    stored row; [None] once an exception was logged.  [exclude] is a list of
    names to leave out. *)
Definition modified_fields (exclude : list string) : M (option (list string)) :=
  try_except
    (let* s := get_state in
     let self := self_ s in
     let* db_obj := query_by_id (inst_cls self) (PInt (inst_id self)) in
     let* r := lift (filter_raising
                 (fun f =>
                    match getattr_opt db_obj f with
                    | Raise e => Raise e
                    | Ret v =>
                        Ret (py_ne (getattr self f) v &&
                             negb (existsb (String.eqb f) exclude))
                    end)
                 (sorted_field_names (inst_cls self))) in
     ret (Some r))
    (fun e => logger_error e ;; ret None).

(** The [field_dict] of [save] under [only_save_dirty]: the dirty fields
    with their values. *)
Definition field_dict (o : instance) : gmap string pyval :=
  filter (fun kv => kv.1 ∈ inst_dirty o) (inst_data o).

(** The instance once [_dirty.clear()] has run. *)
Definition clean (o : instance) : instance :=
  {| inst_cls := inst_cls o; inst_id := inst_id o;
     inst_data := inst_data o; inst_dirty := ∅ |}.

(** [UPDATE table SET field_dict WHERE id = o.id]: the named columns of the
    row with that key are overwritten; no row, no change. *)
Definition update_row (o : instance)
    (d : gmap (string * Z) (gmap string pyval))
  : gmap (string * Z) (gmap string pyval) :=
  let key := (db_table (inst_cls o), inst_id o) in
  match d !! key with
  | Some row => <[key := field_dict o ∪ row]> d
  | None => d
  end.

(** [self.save()] with [only_save_dirty]: nothing is sent when no field is
    dirty; otherwise one UPDATE of the dirty fields of the row whose key is
    the instance's, after which nothing is dirty.  The UPDATE is logged when
    it is sent and raises when the database does not answer. *)
Definition save : M unit :=
  let* s := get_state in
  let self := self_ s in
  if decide (field_dict self = ∅) then modify (set_self (clean self))
  else
    emit (EvDbUpdate (db_table (inst_cls self)) (inst_id self)
            (field_dict self)) ;;
    if db_ok s then
      modify (fun s' =>
        set_self (clean self) (set_db (update_row self (db s')) s'))
    else raise DatabaseError.

(** [datetime.datetime.now()] *)
Definition now : M pyval := fun s => (Ret (PTime (datetime_now s)), s).

(** [save_if_modified]: bump the update time and save when
    [modified_fields] is a non-empty list. *)
Definition save_if_modified : M self_or_none :=
  try_except
    (let* m := modified_fields [] in
     match m with
     | Some (_ :: _) =>
         let* t := now in
         assign "update_time" t ;;
         save ;;
         ret Self
     | _ => ret Self
     end)
    (fun e => logger_error e ;; ret NoneRet).

(** ** Admin: session tokens *)

(** [constants.ADMIN_TOKEN_TAG] *)
Definition ADMIN_TOKEN_TAG : string := "admin".

Section SessionToken.

(** [utils.aes_util] is outside the source tree: [encrypt] and [decrypt]
    are parameters; a [decrypt] that raises is [Raise]. *)
Variable encrypt : string -> string.
Variable decrypt : string -> outcome string.

(** [constants.py] does not define the [ADMIN_TOKEN_VALID_DAYS] the module
    imports; its value is a parameter. *)
Variable ADMIN_TOKEN_VALID_DAYS : Z.

(** [generate_token]:
    [encrypt('%s:%s:%s' % (ADMIN_TOKEN_TAG, self.id,
                           int(time.time()) + 86400 * ADMIN_TOKEN_VALID_DAYS))] *)
Definition generate_token : M string :=
  let* s := get_state in
  ret (encrypt
         (ADMIN_TOKEN_TAG ++ ":" ++ str_of_int (inst_id (self_ s)) ++ ":" ++
          str_of_int (int_of_float (time_time s)
                      + 86400 * ADMIN_TOKEN_VALID_DAYS))).

(** [query_by_token]: unpacking the split plaintext into three names
    raises [ValueError] for any other number of fields; each [assert]
    raises [AssertionError]; every exception is logged and the method
    returns [None]. *)
Definition query_by_token (cls : model_class) (token : string)
  : M (option instance) :=
  try_except
    (let* plain := lift (decrypt token) in
     match split ":" plain with
     | [tag; _id; expires] =>
         if String.eqb tag ADMIN_TOKEN_TAG then
           let* e := lift (int_of_str expires) in
           let* s := get_state in
           if int_gt_float e (time_time s)
           then query_by_id cls (PStr _id)
           else raise AssertionError
         else raise AssertionError
     | _ => raise ValueError
     end)
    (fun e => logger_error e ;; ret None).

End SessionToken.

(** ** The key-value cache *)

(** Modelled from the spec: [utils.redis_util.redis_client] is outside the
    source tree.  The cache gives the value stored under a key, or absent
    once its time to live has run out; an entry with no time left is absent
    at once. *)
Definition cached (s : state) (key : string) : option string :=
  match redis s !! key with
  | Some (v, ttl) => if 0 <? ttl then Some v else None
  | None => None
  end.

(** Modelled from the spec: [redis_client.get(key)]. *)
Definition redis_get (key : string) : M (option string) :=
  fun s => (Ret (cached s key), s).

(** Modelled from the spec: [set(key, value, ex=seconds)] stores the value
    with that time to live, replacing what the key held. *)
Definition redis_set (key value : string) (ex : Z) : M unit :=
  emit (EvRedisSet key value ex) ;;
  modify (fun s => set_redis (<[key := (value, ex)]> (redis s)) s).

(** ** Sorting strings *)

(** [items.sort()] on a list of byte strings orders them by [String.leb],
    the byte-wise lexicographic order; a sorted insertion gives the same
    list as any other sorting method, the order being total and
    antisymmetric. *)
Fixpoint insert_sorted (x : string) (l : list string) : list string :=
  match l with
  | [] => [x]
  | y :: l' => if String.leb x y then x :: l else y :: insert_sorted x l'
  end.

Definition sort (l : list string) : list string :=
  fold_right insert_sorted [] l.

(** [data.values()]: the values of the dict, in the order the dict lists
    them. *)
Definition values (data : gmap string string) : list string :=
  (map_to_list data).*2.

(** ** WXAuthorizer *)

Section Authorizer.

(** The builtin [repr] and [hashlib.sha1(s).hexdigest()]. *)
Variable repr : pyval -> string.
Variable sha1_hexdigest : string -> string.

(** [current_app.config['WEIXIN']['app_id']] *)
Variable app_id : pyval.

(** What [get_component_access_token(wx)] returns. *)
Variable component_access_token : pyval.

(** What the platform answers to a request, decoded by [.json()]; a
    failure of the transport or of the decoding is [Raise]. *)
Variable platform : request -> outcome pyval.

(** ['%s' % v] *)
Definition py_str (v : pyval) : string :=
  match v with
  | PStr s => s
  | PInt z => str_of_int z
  | PBool true => "True"
  | PBool false => "False"
  | PNone => "None"
  | _ => repr v
  end.

(** Modelled from the spec: [utils.weixin_util.get_component_access_token]
    is outside the source tree.  It yields the component-level token, or
    an absent value on any failure, and does not raise. *)
Definition get_component_access_token : M pyval :=
  emit EvComponentToken ;; ret component_access_token.

(** [requests.get(url, params=params, verify=VERIFY).json()] *)
Definition requests_get (url : string) (params : list (string * pyval))
  : M pyval :=
  let r := {| req_method := GET; req_url := url; req_params := params;
              req_data := [] |} in
  emit (EvRequest r) ;; lift (platform r).

(** [requests.post(url, params=params, data=json.dumps(data), verify=VERIFY).json()] *)
Definition requests_post (url : string) (params data : list (string * pyval))
  : M pyval :=
  let r := {| req_method := POST; req_url := url; req_params := params;
              req_data := data |} in
  emit (EvRequest r) ;; lift (platform r).

(** [unauthorized] *)
Definition unauthorized : M self_or_none :=
  try_except
    (let* authorized := self_attr "authorized" in
     (if truthy authorized then
        assign "authorized" (PBool false) ;;
        (let* t := now in assign "update_time" t) ;;
        save
      else ret tt) ;;
     ret Self)
    (fun e => logger_error e ;; ret NoneRet).

(** [update_refresh_token] *)
Definition update_refresh_token (refresh_token : pyval) : M self_or_none :=
  try_except
    (let* stored := self_attr "refresh_token" in
     (if py_ne stored refresh_token then
        assign "refresh_token" refresh_token ;;
        (let* t := now in assign "update_time" t) ;;
        save
      else ret tt) ;;
     ret Self)
    (fun e => logger_error e ;; ret NoneRet).

(** [d.get(k) if d else None] *)
Definition get_if (d : pyval) (k : string) : outcome pyval :=
  if truthy d then py_get d k else Ret PNone.

(** [repr(v) if v else None] *)
Definition repr_if (v : pyval) : pyval :=
  if truthy v then PStr (repr v) else PNone.

(** The unpacking and the assignments of [update_authorizer_info], from
    [map(authorizer_info.get, ...)] to the line before
    [return self.save_if_modified()], in the order of the source. *)
Definition assign_authorizer_info (authorizer_info authorization_info : pyval)
  : M unit :=
  let* service_type_info := lift (py_get authorizer_info "service_type_info") in
  let* verify_type_info := lift (py_get authorizer_info "verify_type_info") in
  let* nick_name := lift (py_get authorizer_info "nick_name") in
  let* signature := lift (py_get authorizer_info "signature") in
  let* head_img := lift (py_get authorizer_info "head_img") in
  let* qrcode_url := lift (py_get authorizer_info "qrcode_url") in
  let* principal_name := lift (py_get authorizer_info "principal_name") in
  let* user_name := lift (py_get authorizer_info "user_name") in
  let* alias := lift (py_get authorizer_info "alias") in
  let* business_info := lift (py_get authorizer_info "business_info") in
  let* mini_program_info := lift (py_get authorizer_info "MiniProgramInfo") in
  assign "authorized" (PBool true) ;;
  (let* v := lift (py_get authorization_info "func_info") in
   assign "func_info" (PStr (repr v))) ;;
  assign "authorizer_info" (PStr (repr authorizer_info)) ;;
  (let* v := lift (get_if service_type_info "id") in
   assign "service_type" v) ;;
  (let* v := lift (get_if verify_type_info "id") in
   assign "verify_type" v) ;;
  (let* v := lift (_nullable_strip nick_name) in assign "nick_name" v) ;;
  (let* v := lift (_nullable_strip signature) in assign "signature" v) ;;
  (let* v := lift (_nullable_strip head_img) in assign "head_img" v) ;;
  (let* v := lift (_nullable_strip qrcode_url) in assign "qrcode_url" v) ;;
  (let* v := lift (_nullable_strip principal_name) in
   assign "principal_name" v) ;;
  (let* v := lift (_nullable_strip user_name) in assign "user_name" v) ;;
  (let* v := lift (_nullable_strip alias) in assign "alias" v) ;;
  assign "business_info" (repr_if business_info) ;;
  assign "mini_program_info" (repr_if mini_program_info).

(** [update_authorizer_info]: a bare [return] gives [None]. *)
Definition update_authorizer_info : M self_or_none :=
  try_except
    (let* cat := get_component_access_token in
     if negb (truthy cat) then ret NoneRet else
     let* appid := self_attr "appid" in
     let* resp_json :=
       requests_post
         "https://api.weixin.qq.com/cgi-bin/component/api_get_authorizer_info"
         [("component_access_token", cat)]
         [("component_appid", app_id); ("authorizer_appid", appid)] in
     let* authorizer_info := lift (py_get resp_json "authorizer_info") in
     let* authorization_info := lift (py_get resp_json "authorization_info") in
     if negb (truthy authorizer_info && truthy authorization_info)
     then ret NoneRet else
     assign_authorizer_info authorizer_info authorization_info ;;
     save_if_modified)
    (fun e => logger_error e ;; ret NoneRet).

(** [get_access_token]: no exception is caught here. *)
Definition get_access_token : M pyval :=
  let* appid := self_attr "appid" in
  let key := "wx_authorizer:" ++ py_str appid ++ ":access_token" in
  let* cached := redis_get key in
  match cached with
  | Some (String _ _ as access_token) => ret (PStr access_token)
  | _ =>
      let* cat := get_component_access_token in
      if negb (truthy cat) then ret PNone else
      let* stored := self_attr "refresh_token" in
      let* resp_json :=
        requests_post
          "https://api.weixin.qq.com/cgi-bin/component/api_authorizer_token"
          [("component_access_token", cat)]
          [("component_appid", app_id); ("authorizer_appid", appid);
           ("authorizer_refresh_token", stored)] in
      let* access_token := lift (py_get resp_json "authorizer_access_token") in
      let* expires_in := lift (py_get resp_json "expires_in") in
      let* refresh_token := lift (py_get resp_json "authorizer_refresh_token") in
      if negb (py_all [access_token; expires_in; refresh_token])
      then ret PNone else
      update_refresh_token refresh_token ;;
      let* n := lift (py_int expires_in) in
      redis_set key (py_str access_token) (n - 600) ;;
      ret access_token
  end.

(** [get_jsapi_ticket] and [get_card_api_ticket] are the same method up to
    the suffix of the cache key and the [type] parameter of the request. *)
Definition get_ticket (suffix type : string) : M pyval :=
  let* appid := self_attr "appid" in
  let key := "wx_authorizer:" ++ py_str appid ++ ":" ++ suffix in
  let* cached := redis_get key in
  match cached with
  | Some (String _ _ as ticket) => ret (PStr ticket)
  | _ =>
      let* access_token := get_access_token in
      if negb (truthy access_token) then ret PNone else
      let* resp_json :=
        requests_get "https://api.weixin.qq.com/cgi-bin/ticket/getticket"
          [("access_token", access_token); ("type", PStr type)] in
      let* ticket := lift (py_get resp_json "ticket") in
      let* expires_in := lift (py_get resp_json "expires_in") in
      if negb (truthy ticket && truthy expires_in) then ret PNone else
      let* n := lift (py_int expires_in) in
      redis_set key (py_str ticket) (n - 600) ;;
      ret ticket
  end.

Definition get_jsapi_ticket : M pyval := get_ticket "jsapi_ticket" "jsapi".

Definition get_card_api_ticket : M pyval :=
  get_ticket "card_api_ticket" "wx_card".

(** [generate_card_sign(data)]: [data] maps parameter names to byte
    strings; joining raises [TypeError] when the ticket is not a string. *)
Definition generate_card_sign (data : gmap string string) : M pyval :=
  let* card_api_ticket := get_card_api_ticket in
  if negb (truthy card_api_ticket) then ret PNone else
  match card_api_ticket with
  | PStr ticket =>
      let items := (values data ++ [ticket])%list in
      ret (PStr (sha1_hexdigest (join (sort items))))
  | _ => raise TypeError
  end.

End Authorizer.

(** ** Vocabulary of the statements *)

(** Every character of the string satisfies the test. *)
Fixpoint string_forall (p : ascii -> bool) (s : string) : bool :=
  match s with
  | EmptyString => true
  | String c r => p c && string_forall p r
  end.

(** The characters of a decimal numeral: the ten digits and the minus sign. *)
Definition is_decimal_char (c : ascii) : bool :=
  let n := nat_of_ascii c in
  (n =? 45)%nat || ((48 <=? n)%nat && (n <=? 57)%nat).

(** The instance [cls.get] builds from a stored row. *)
Definition loaded (cls : model_class) (pk : Z) (row : gmap string pyval)
  : instance :=
  {| inst_cls := cls; inst_id := pk; inst_data := row; inst_dirty := ∅ |}.

(** The writes among the events of a trace. *)
Definition is_db_write (e : event) : bool :=
  match e with EvDbUpdate _ _ _ => true | _ => false end.

Definition db_writes (t : list event) : list event := List.filter is_db_write t.

(** The platform requests and component-token fetches of a trace. *)
Definition is_fetch (e : event) : bool :=
  match e with EvComponentToken | EvRequest _ => true | _ => false end.

Definition fetches (t : list event) : list event := List.filter is_fetch t.

(** The cache writes of a trace. *)
Definition is_redis_set (e : event) : bool :=
  match e with EvRedisSet _ _ _ => true | _ => false end.

Definition redis_sets (t : list event) : list event :=
  List.filter is_redis_set t.

(** The instance after [self.f = v] and
    [self.update_time = datetime.datetime.now()], the clock reading [t]. *)
Definition touch (f : string) (v : pyval) (t : Z) (o : instance) : instance :=
  setattr (setattr o f v) "update_time" (PTime t).

(** The column [f] of the row stored under [key], if both exist. *)
Definition stored_field (d : gmap (string * Z) (gmap string pyval))
    (key : string * Z) (f : string) : option pyval :=
  d !! key ≫= (fun row => row !! f).

(** The request [update_authorizer_info] posts for the record [o]. *)
Definition authorizer_info_request (app_id cat : pyval) (o : instance)
  : request :=
  {| req_method := POST;
     req_url :=
       "https://api.weixin.qq.com/cgi-bin/component/api_get_authorizer_info";
     req_params := [("component_access_token", cat)];
     req_data := [("component_appid", app_id);
                  ("authorizer_appid", getattr o "appid")] |}.

(** The request [get_access_token] posts for the record [o]. *)
Definition authorizer_token_request (app_id cat : pyval) (o : instance)
  : request :=
  {| req_method := POST;
     req_url := "https://api.weixin.qq.com/cgi-bin/component/api_authorizer_token";
     req_params := [("component_access_token", cat)];
     req_data := [("component_appid", app_id);
                  ("authorizer_appid", getattr o "appid");
                  ("authorizer_refresh_token", getattr o "refresh_token")] |}.

(** The request [get_jsapi_ticket] and [get_card_api_ticket] send. *)
Definition ticket_request (access_token : pyval) (type : string) : request :=
  {| req_method := GET;
     req_url := "https://api.weixin.qq.com/cgi-bin/ticket/getticket";
     req_params := [("access_token", access_token); ("type", PStr type)];
     req_data := [] |}.

(** The fields [update_authorizer_info] assigns, in the order of the
    assignments. *)
Definition profile_fields : list string :=
  ["authorized"; "func_info"; "authorizer_info"; "service_type";
   "verify_type"; "nick_name"; "signature"; "head_img"; "qrcode_url";
   "principal_name"; "user_name"; "alias"; "business_info";
   "mini_program_info"].

(** A run of assignments [o.f = v], the first of the list first. *)
Definition setattrs (o : instance) (l : list (string * pyval)) : instance :=
  fold_left (fun o' kv => setattr o' kv.1 kv.2) l o.

(** The names of [sorted_field_names] on which the instance and the stored
    row disagree: what [modified_fields] returns. *)
Definition differing (o : instance) (row : gmap string pyval) : list string :=
  List.filter
    (fun f => py_ne (getattr o f) (getattr (loaded (inst_cls o) (inst_id o) row) f))
    (sorted_field_names (inst_cls o)).

(** The cache keys of a record. *)
Definition cache_key (repr : pyval -> string) (o : instance) (suffix : string)
  : string :=
  "wx_authorizer:" ++ py_str repr (getattr o "appid") ++ ":" ++ suffix.

(** The cache has nothing usable under the key: no live entry, or an empty
    string, which [if access_token:] takes for absent. *)
Definition cache_miss (s : state) (key : string) : Prop :=
  cached s key = None \/ cached s key = Some "".

(** A key of a decoded JSON object is missing, or bound to [null]. *)
Definition missing (d : list (string * pyval)) (k : string) : Prop :=
  default PNone (assoc k d) = PNone.

(** A list of byte strings in byte-wise lexicographic order. *)
Definition sorted_bytes (l : list string) : Prop :=
  StronglySorted (fun a b => String.leb a b = true) l.

(** One computation that may raise, then another on its result. *)
Definition and_then {A B : Type} (x : outcome A) (k : A -> outcome B)
  : outcome B :=
  match x with
  | Ret a => k a
  | Raise e => Raise e
  end.

(** What the answer of the platform, with its parts [authorizer_info] and
    [authorization_info], yields for the record, field by field: the flag,
    the two descriptions as printed, the two type codes, the seven strings
    stripped and the two optional descriptions.  It raises when some part
    of the answer does not have the shape [update_authorizer_info] reads. *)
Definition profile_values (repr : pyval -> string)
    (authorizer_info authorization_info : pyval)
  : outcome (list (string * pyval)) :=
  let get := py_get authorizer_info in
  and_then (py_get authorization_info "func_info") (fun func_info =>
  and_then (get "service_type_info") (fun service_type_info =>
  and_then (get_if service_type_info "id") (fun service_type =>
  and_then (get "verify_type_info") (fun verify_type_info =>
  and_then (get_if verify_type_info "id") (fun verify_type =>
  and_then (and_then (get "nick_name") _nullable_strip) (fun nick_name =>
  and_then (and_then (get "signature") _nullable_strip) (fun signature =>
  and_then (and_then (get "head_img") _nullable_strip) (fun head_img =>
  and_then (and_then (get "qrcode_url") _nullable_strip) (fun qrcode_url =>
  and_then (and_then (get "principal_name") _nullable_strip)
    (fun principal_name =>
  and_then (and_then (get "user_name") _nullable_strip) (fun user_name =>
  and_then (and_then (get "alias") _nullable_strip) (fun alias =>
  and_then (get "business_info") (fun business_info =>
  and_then (get "MiniProgramInfo") (fun mini_program_info =>
  Ret [("authorized", PBool true);
       ("func_info", PStr (repr func_info));
       ("authorizer_info", PStr (repr authorizer_info));
       ("service_type", service_type);
       ("verify_type", verify_type);
       ("nick_name", nick_name);
       ("signature", signature);
       ("head_img", head_img);
       ("qrcode_url", qrcode_url);
       ("principal_name", principal_name);
       ("user_name", user_name);
       ("alias", alias);
       ("business_info", repr_if repr business_info);
       ("mini_program_info", repr_if repr mini_program_info)])))))))))))))).

(** ** Sample data *)

(** A reversible codec standing in for [utils.aes_util]: a version prefix
    in front of the plaintext; anything else does not decrypt. *)
Definition sample_encrypt (plain : string) : string := "v1." ++ plain.

Definition sample_decrypt (token : string) : outcome string :=
  match token with
  | String "v" (String "1" (String "." plain)) => Ret plain
  | _ => Raise DecodeError
  end.

Definition sample_repr (v : pyval) : string := "<repr>".

Definition sample_digest (s : string) : string := "sha1(" ++ s ++ ")".

(** A platform that answers the token and ticket endpoints with the given
    [expires_in], the profile endpoint with a small profile, and fails on
    any other address. *)
Definition sample_platform (expires_in : pyval) (r : request) : outcome pyval :=
  if String.eqb (req_url r)
       "https://api.weixin.qq.com/cgi-bin/component/api_authorizer_token"
  then Ret (PDict [("authorizer_access_token", PStr "tok");
                   ("expires_in", expires_in);
                   ("authorizer_refresh_token", PStr "r0")])
  else if String.eqb (req_url r)
            "https://api.weixin.qq.com/cgi-bin/ticket/getticket"
  then Ret (PDict [("ticket", PStr "tkt"); ("expires_in", expires_in)])
  else if String.eqb (req_url r)
            "https://api.weixin.qq.com/cgi-bin/component/api_get_authorizer_info"
  then Ret (PDict
         [("authorizer_info",
           PDict [("nick_name", PStr " Shop ");
                  ("service_type_info", PDict [("id", PInt 2)]);
                  ("verify_type_info", PDict [("id", PInt 0)]);
                  ("user_name", PStr "gh_1")]);
          ("authorization_info", PDict [("func_info", PList [PInt 1])])])
  else Raise RequestException.

Definition sample_admin_row : gmap string pyval :=
  list_to_map [("uuid", PStr "u-7"); ("create_time", PTime 1);
               ("update_time", PTime 2); ("show", PBool true);
               ("weight", PInt 0); ("name", PStr "root");
               ("password", PStr "pbkdf2"); ("authority", PInt 0)].

(** A stored authorizer with the given flag and nick name, whose other
    profile fields are those [sample_platform] answers. *)
Definition sample_wx_row (authorized : bool) (nick_name : string)
  : gmap string pyval :=
  list_to_map [("uuid", PStr "u-3"); ("create_time", PTime 1);
               ("update_time", PTime 2); ("show", PBool true);
               ("weight", PInt 0); ("authorized", PBool authorized);
               ("appid", PStr "wx1"); ("refresh_token", PStr "r0");
               ("func_info", PStr "<repr>"); ("authorizer_info", PStr "<repr>");
               ("service_type", PInt 2); ("verify_type", PInt 0);
               ("nick_name", PStr nick_name); ("user_name", PStr "gh_1")].

(** A state whose receiver was just loaded from its stored row; the
    database answers, [time.time()] reads 1700000000.5 and
    [datetime.datetime.now()] reads 1000. *)
Definition sample_state (cls : model_class) (pk : Z)
    (row : gmap string pyval) (cache : gmap string (string * Z)) : state :=
  {| self_ := loaded cls pk row;
     db := {[ (db_table cls, pk) := row ]};
     db_ok := true;
     redis := cache;
     time_time := 3400000001 # 2;
     datetime_now := 1000;
     trace := [] |}.

(** The profile [sample_platform] answers, and its two parts. *)
Definition sample_authorizer_info : pyval :=
  PDict [("nick_name", PStr " Shop ");
         ("service_type_info", PDict [("id", PInt 2)]);
         ("verify_type_info", PDict [("id", PInt 0)]);
         ("user_name", PStr "gh_1")].

Definition sample_authorization_info : pyval :=
  PDict [("func_info", PList [PInt 1])].

Definition sample_profile : pyval :=
  PDict [("authorizer_info", sample_authorizer_info);
         ("authorization_info", sample_authorization_info)].

(** An authorized record with the given stored nick name, and an empty
    cache. *)
Definition sample_wx_state (nick_name : string) : state :=
  sample_state WXAuthorizer 3 (sample_wx_row true nick_name) ∅.

(** The values the sample profile yields. *)
Definition sample_profile_values : list (string * pyval) :=
  [("authorized", PBool true); ("func_info", PStr "<repr>");
   ("authorizer_info", PStr "<repr>"); ("service_type", PInt 2);
   ("verify_type", PInt 0); ("nick_name", PStr "Shop");
   ("signature", PNone); ("head_img", PNone); ("qrcode_url", PNone);
   ("principal_name", PNone); ("user_name", PStr "gh_1"); ("alias", PNone);
   ("business_info", PNone); ("mini_program_info", PNone)].

(** An authorized record in sync with its stored row, with the given cache. *)
Definition sample_cached_state (cache : gmap string (string * Z)) : state :=
  sample_state WXAuthorizer 3 (sample_wx_row true "Shop") cache.

(** A cache holding a live access token of the sample record. *)
Definition sample_token_cache : gmap string (string * Z) :=
  {[ "wx_authorizer:wx1:access_token" := ("tok", 100) ]}.

(** What [sample_platform] answers to the token request. *)
Definition sample_token_answer (expires_in : pyval) : pyval :=
  PDict [("authorizer_access_token", PStr "tok");
         ("expires_in", expires_in);
         ("authorizer_refresh_token", PStr "r0")].

(** What [sample_platform] answers to a ticket request. *)
Definition sample_ticket_answer (expires_in : pyval) : pyval :=
  PDict [("ticket", PStr "tkt"); ("expires_in", expires_in)].

(** A cache holding a live card ticket of the sample record. *)
Definition sample_card_ticket_cache : gmap string (string * Z) :=
  {[ "wx_authorizer:wx1:card_api_ticket" := ("tkt", 100) ]}.

(** The parameters of an add-card call, and the same values under other
    names. *)
Definition sample_add_card_params : gmap string string :=
  {[ "cardId" := "p1"; "timestamp" := "1700000000"; "nonce_str" := "abc" ]}.

Definition sample_renamed_params : gmap string string :=
  {[ "a" := "1700000000"; "b" := "p1"; "c" := "abc" ]}.


(** A request to the ticket endpoint. *)
Definition is_ticket_request (e : event) : bool :=
  match e with
  | EvRequest r =>
      String.eqb (req_url r) "https://api.weixin.qq.com/cgi-bin/ticket/getticket"
  | _ => false
  end.

(** Whatever the state and the outcome, a run of [m] only adds events to
    the trace, and each event it adds satisfies [P]. *)
Definition emits_only (P : event -> Prop) {A : Type} (m : M A) : Prop :=
  forall s r s', m s = (r, s') ->
    exists evs, trace s' = (evs ++ trace s)%list /\ Forall P evs.

(** ** More of BaseModel and Admin *)

(** [set_show]: the field is assigned and saved, whatever it held; the
    update time is not stamped. *)
Definition set_show (show : pyval) : M self_or_none :=
  try_except
    (assign "show" show ;; save ;; ret Self)
    (fun e => logger_error e ;; ret NoneRet).

(** [set_weight] *)
Definition set_weight (weight : pyval) : M self_or_none :=
  try_except
    (assign "weight" weight ;; save ;; ret Self)
    (fun e => logger_error e ;; ret NoneRet).

(** [Admin.login] *)
Definition login (ip : pyval) : M self_or_none :=
  try_except
    ((let* t := now in assign "last_login_time" t) ;;
     assign "last_login_ip" ip ;;
     save ;;
     ret Self)
    (fun e => logger_error e ;; ret NoneRet).

Section Passwords.

(** [werkzeug.security]: the hash made for a password at this call, and the
    check of a password against a hash. *)
Variable generate_password_hash : string -> string.
Variable check_password_hash : string -> string -> bool.

(** [Admin.change_password] *)
Definition change_password (password : string) : M self_or_none :=
  try_except
    (assign "password" (PStr (generate_password_hash password)) ;;
     (let* t := now in assign "update_time" t) ;;
     save ;;
     ret Self)
    (fun e => logger_error e ;; ret NoneRet).

(** [Admin.check_password]: the stored hash is a string; the check of
    anything else raises. *)
Definition check_password (password : string) : M bool :=
  let* stored := self_attr "password" in
  match stored with
  | PStr pwhash => ret (check_password_hash pwhash password)
  | _ => raise AttributeError
  end.

End Passwords.

(** ** More of WXAuthorizer *)

Section AuthorizerApi.

Variable repr : pyval -> string.
Variable sha1_hexdigest : string -> string.
Variable app_id : pyval.
Variable component_access_token : pyval.
Variable platform : request -> outcome pyval.

(** What [utils.key_util.generate_random_key(n)] returns at this call. *)
Variable generate_random_key : Z -> string.

(** [update_func_info] *)
Definition update_func_info (func_info : pyval) : M self_or_none :=
  try_except
    (let* stored := self_attr "func_info" in
     (if py_ne stored (PStr (repr func_info)) then
        assign "func_info" (PStr (repr func_info)) ;;
        (let* t := now in assign "update_time" t) ;;
        save
      else ret tt) ;;
     ret Self)
    (fun e => logger_error e ;; ret NoneRet).

(** [get_user_info]: the decoded answer is returned unless it carries an
    error code; falling off the end returns [None]. *)
Definition get_user_info (openid : pyval) : M pyval :=
  let* access_token :=
    get_access_token repr app_id component_access_token platform in
  if negb (truthy access_token) then ret PNone else
  let* info :=
    requests_get platform "https://api.weixin.qq.com/cgi-bin/user/info"
      [("access_token", access_token); ("openid", openid);
       ("lang", PStr "zh_CN")] in
  let* errcode := lift (py_get info "errcode") in
  if negb (truthy errcode) then ret info else ret PNone.

(** [send_template_message]: [url] and [miniprogram] are sent when they are
    given. *)
Definition send_template_message
    (openid template_id msg_data url miniprogram : pyval) : M pyval :=
  let* access_token :=
    get_access_token repr app_id component_access_token platform in
  if negb (truthy access_token) then ret PNone else
  let data := [("touser", PStr (py_str repr openid));
               ("template_id", PStr (py_str repr template_id));
               ("data", msg_data)] in
  let data := if truthy url
              then (data ++ [("url", PStr (py_str repr url))])%list
              else data in
  let data := if truthy miniprogram
              then (data ++ [("miniprogram", miniprogram)])%list
              else data in
  requests_post platform
    "https://api.weixin.qq.com/cgi-bin/message/template/send"
    [("access_token", access_token)] data.

(** [modify_card_stock]: the change of stock is an integer; it is sent as
    an increase when it is not negative, and as a reduction by its opposite
    otherwise. *)
Definition modify_card_stock (card_id : pyval) (increase_stock_value : Z)
  : M pyval :=
  let* access_token :=
    get_access_token repr app_id component_access_token platform in
  if negb (truthy access_token) then ret PNone else
  let data := [("card_id", PStr (py_str repr card_id))] in
  let data := if 0 <=? increase_stock_value
              then (data ++ [("increase_stock_value",
                              PInt increase_stock_value)])%list
              else (data ++ [("reduce_stock_value",
                              PInt (- increase_stock_value))])%list in
  requests_post platform "https://api.weixin.qq.com/card/modifystock"
    [("access_token", access_token)] data.

(** [str(int(time.time()))] *)
Definition timestamp : M string :=
  fun s => (Ret (str_of_int (int_of_float (time_time s))), s).

(** A dict of strings with one more entry, whose value may be [None]. *)
Definition with_entry (params : gmap string string) (k : string) (v : pyval)
  : gmap string pyval :=
  <[k := v]> (PStr <$> params).

(** [generate_add_card_params]: the signature is computed from the dict as
    it is before the signature is put into it. *)
Definition generate_add_card_params (card_id code openid : pyval)
  : M (gmap string pyval) :=
  let* t := timestamp in
  let params : gmap string string :=
    {[ "cardId" := py_str repr card_id; "timestamp" := t;
       "nonce_str" := generate_random_key 16 ]} in
  let params := if truthy code
                then <["code" := py_str repr code]> params else params in
  let params := if truthy openid
                then <["openid" := py_str repr openid]> params else params in
  let* signature :=
    generate_card_sign repr sha1_hexdigest app_id component_access_token
      platform params in
  ret (with_entry params "signature" signature).

(** [generate_choose_card_params]: [signType] is put into the dict after
    the signature has been computed. *)
Definition generate_choose_card_params (shop_id card_type card_id : pyval)
  : M (gmap string pyval) :=
  let* appid := self_attr "appid" in
  let* t := timestamp in
  let params : gmap string string :=
    {[ "appId" := py_str repr appid; "timestamp" := t;
       "nonceStr" := generate_random_key 16 ]} in
  let params := if truthy shop_id
                then <["shopId" := py_str repr shop_id]> params else params in
  let params := if truthy card_type
                then <["cardType" := py_str repr card_type]> params
                else params in
  let params := if truthy card_id
                then <["cardId" := py_str repr card_id]> params else params in
  let* card_sign :=
    generate_card_sign repr sha1_hexdigest app_id component_access_token
      platform params in
  ret (<["signType" := PStr "SHA1"]> (with_entry params "cardSign" card_sign)).

End AuthorizerApi.

(** ** WXUser *)

(** The class of WeChat users.  The foreign key [wx_authorizer] is held as
    the key of the authorizer it points to. *)
Definition WXUser : model_class := {|
  db_table := "wx_user";
  sorted_field_names :=
    BaseModel_fields ++
    ["wx_authorizer"; "openid"; "unionid"; "nickname"; "sex"; "country";
     "province"; "city"; "headimgurl"; "subscribe"; "subscribe_time";
     "language"; "remark"; "tagid_list"]
|}.

(** The keyword arguments of [update_wx_user] other than [subscribe]. *)
Record wx_user_info : Type := {
  unionid : pyval;
  nickname : pyval;
  sex : pyval;
  country : pyval;
  province : pyval;
  city : pyval;
  headimgurl : pyval;
  subscribe_time : pyval;
  language : pyval;
  remark : pyval;
  tagid_list : pyval
}.

(** [map(int, items)], eager, stopping at the first item that does not
    read as an integer. *)
Fixpoint map_int (items : list string) : outcome (list Z) :=
  match items with
  | [] => Ret []
  | x :: items' =>
      match int_of_str x with
      | Raise e => Raise e
      | Ret n =>
          match map_int items' with
          | Raise e => Raise e
          | Ret ns => Ret (n :: ns)
          end
      end
  end.

Section WXUserMethods.

Variable repr : pyval -> string.

(** [','.join(map(str, tagid_list)) if tagid_list else None]: a list gives
    its items, a string its characters, a dict its keys; any other truthy
    value cannot be iterated. *)
Definition join_tagid_list (tagid_list : pyval) : outcome pyval :=
  if truthy tagid_list then
    match tagid_list with
    | PList l => Ret (PStr (String.concat "," (map (py_str repr) l)))
    | PStr s =>
        Ret (PStr (String.concat ","
                     (map (fun c => String c EmptyString)
                        (list_ascii_of_string s))))
    | PDict d => Ret (PStr (String.concat "," (map fst d)))
    | _ => Raise TypeError
    end
  else Ret PNone.

(** [update_wx_user]: the eight strings are stripped, in the order of the
    tuple, before any of them is assigned; nothing but [subscribe] is
    assigned when the user has unsubscribed. *)
Definition update_wx_user (subscribe : pyval) (info : wx_user_info)
  : M self_or_none :=
  try_except
    (assign "subscribe" subscribe ;;
     (if truthy subscribe then
        let* unionid' := lift (_nullable_strip (unionid info)) in
        let* nickname' := lift (_nullable_strip (nickname info)) in
        let* country' := lift (_nullable_strip (country info)) in
        let* province' := lift (_nullable_strip (province info)) in
        let* city' := lift (_nullable_strip (city info)) in
        let* headimgurl' := lift (_nullable_strip (headimgurl info)) in
        let* language' := lift (_nullable_strip (language info)) in
        let* remark' := lift (_nullable_strip (remark info)) in
        assign "unionid" unionid' ;;
        assign "nickname" nickname' ;;
        assign "sex" (sex info) ;;
        assign "country" country' ;;
        assign "province" province' ;;
        assign "city" city' ;;
        assign "headimgurl" headimgurl' ;;
        assign "subscribe_time" (subscribe_time info) ;;
        assign "language" language' ;;
        assign "remark" remark' ;;
        let* joined := lift (join_tagid_list (tagid_list info)) in
        assign "tagid_list" joined
      else ret tt) ;;
     save_if_modified)
    (fun e => logger_error e ;; ret NoneRet).

End WXUserMethods.

(** [array_tagid_list]: [split] is a method of strings. *)
Definition array_tagid_list : M (list Z) :=
  let* stored := self_attr "tagid_list" in
  if truthy stored then
    match stored with
    | PStr s => lift (map_int (split "," s))
    | _ => raise AttributeError
    end
  else ret [].

(** ** Ordering clauses of [iterator] *)

(** A class with its two class methods [_exclude_fields] and
    [_extra_attributes]; each class adds to the sets of [BaseModel]. *)
Record model_meta : Type := {
  meta_cls : model_class;
  _exclude_fields : list string;
  _extra_attributes : list string
}.

Definition BaseModel_exclude_fields : list string :=
  ["create_time"; "update_time"].

Definition BaseModel_extra_attributes : list string :=
  ["iso_create_time"; "iso_update_time"].

Definition Admin_meta : model_meta := {|
  meta_cls := Admin;
  _exclude_fields := BaseModel_exclude_fields ++ ["password"; "last_login_time"];
  _extra_attributes := BaseModel_extra_attributes ++ ["iso_last_login_time"]
|}.

Definition WXAuthorizer_meta : model_meta := {|
  meta_cls := WXAuthorizer;
  _exclude_fields :=
    BaseModel_exclude_fields ++
    ["refresh_token"; "func_info"; "authorizer_info"; "business_info";
     "mini_program_info"];
  _extra_attributes :=
    BaseModel_extra_attributes ++
    ["array_func_info"; "dict_authorizer_info"; "dict_business_info";
     "dict_mini_program_info"]
|}.

Definition WXUser_meta : model_meta := {|
  meta_cls := WXUser;
  _exclude_fields := BaseModel_exclude_fields ++ ["subscribe_time"; "tagid_list"];
  _extra_attributes :=
    BaseModel_extra_attributes ++ ["iso_subscribe_time"; "array_tagid_list"]
|}.

(** [x in xs], for strings. *)
Definition str_in (x : string) (xs : list string) : bool :=
  existsb (String.eqb x) xs.

(** [item.startswith('-')] *)
Definition startswith_minus (item : string) : bool :=
  match item with
  | String c _ => Ascii.eqb c "-"
  | EmptyString => false
  end.

(** [item.lstrip('+-')] *)
Fixpoint lstrip_signs (item : string) : string :=
  match item with
  | String c r =>
      if Ascii.eqb c "+" || Ascii.eqb c "-" then lstrip_signs r else item
  | EmptyString => EmptyString
  end.

(** What follows the first [sep] in [s], if there is one. *)
Fixpoint after_first (sep : ascii) (s : string) : option string :=
  match s with
  | String c r => if Ascii.eqb c sep then Some r else after_first sep r
  | EmptyString => None
  end.

(** [attr.split('_', 1)[-1]] *)
Definition split_once_last (attr : string) : string :=
  match after_first "_" attr with
  | Some r => r
  | None => attr
  end.

(** The loop of [iterator] over [order_by]: the clauses it collects, each
    a field name with its direction ([true] for descending). *)
Fixpoint order_by_clauses (m : model_meta) (order_by : list string)
  : list (bool * string) :=
  match order_by with
  | [] => []
  | item :: rest =>
      let desc := startswith_minus item in
      let attr := lstrip_signs item in
      if str_in attr (_exclude_fields m) then order_by_clauses m rest
      else
        let attr := if str_in attr (_extra_attributes m)
                    then split_once_last attr else attr in
        if str_in attr (sorted_field_names (meta_cls m))
        then (desc, attr) :: order_by_clauses m rest
        else order_by_clauses m rest
  end.

(** ** Vocabulary of the further statements *)

(** The method [m], run in [s], assigns [v] to the field [f] and sends
    exactly one UPDATE, which names [f] with [v] and no clean field of the
    record; no other field changes in memory; the method returns the
    record exactly when the database answers. *)
Definition writes_field (m : M self_or_none) (f : string) (v : pyval)
    (s : state) : Prop :=
  exists r s' fields,
    m s = (Ret r, s') /\
    db_writes (trace s') =
      EvDbUpdate (db_table (inst_cls (self_ s))) (inst_id (self_ s)) fields
      :: db_writes (trace s) /\
    fields !! f = Some v /\
    (forall g, g <> f -> g ∉ inst_dirty (self_ s) -> fields !! g = None) /\
    getattr (self_ s') f = v /\
    (forall g, g <> f -> getattr (self_ s') g = getattr (self_ s) g) /\
    (r = Self <-> db_ok s = true).

(** A hash scheme standing in for [werkzeug.security]. *)
Definition sample_password_hash (password : string) : string :=
  "pbkdf2$" ++ password.

Definition sample_check_password_hash (pwhash password : string) : bool :=
  String.eqb pwhash ("pbkdf2$" ++ password).

(** The three kinds of cached credential of a record. *)
Definition credential_suffix (suffix : string) : Prop :=
  suffix = "access_token" \/ suffix = "jsapi_ticket" \/
  suffix = "card_api_ticket".

(** The data of a stock request name either an increase that is not
    negative and no reduction, or a positive reduction and no increase. *)
Definition stock_data_ok (d : list (string * pyval)) : Prop :=
  (exists n, 0 <= n /\ assoc "increase_stock_value" d = Some (PInt n) /\
             assoc "reduce_stock_value" d = None) \/
  (exists n, 0 < n /\ assoc "reduce_stock_value" d = Some (PInt n) /\
             assoc "increase_stock_value" d = None).

(** An event is not a request, or is a request to the given address. *)
Definition request_to (url : string) (e : event) : Prop :=
  forall q, e = EvRequest q -> req_url q = url.

(** An event is not a request to the stock endpoint, or is one with sound
    data. *)
Definition stock_request_ok (e : event) : Prop :=
  forall q, e = EvRequest q ->
    req_url q = "https://api.weixin.qq.com/card/modifystock" ->
    stock_data_ok (req_data q).
(** An event is not a request to the template-message endpoint, or is one
    whose data name the receiver, carry the link exactly when [url] is
    given, and the mini program exactly when [miniprogram] is given. *)
Definition template_request_ok (repr : pyval -> string)
    (openid url miniprogram : pyval) (e : event) : Prop :=
  forall q, e = EvRequest q ->
    req_url q = "https://api.weixin.qq.com/cgi-bin/message/template/send" ->
    assoc "touser" (req_data q) = Some (PStr (py_str repr openid)) /\
    assoc "url" (req_data q) =
      (if truthy url then Some (PStr (py_str repr url)) else None) /\
    assoc "miniprogram" (req_data q) =
      (if truthy miniprogram then Some miniprogram else None).

(** ** Further sample data *)

(** The same state with a database that does not answer. *)
Definition offline (s : state) : state :=
  {| self_ := self_ s; db := db s; db_ok := false; redis := redis s;
     time_time := time_time s; datetime_now := datetime_now s;
     trace := trace s |}.

(** A platform whose every request fails. *)
Definition sample_down_platform (r : request) : outcome pyval :=
  Raise RequestException.

(** A platform that answers every request with the same JSON object. *)
Definition sample_constant_platform (answer : pyval) (r : request)
  : outcome pyval :=
  Ret answer.

(** The profile of a user, as the user-info endpoint answers it. *)
Definition sample_user_answer : pyval :=
  PDict [("subscribe", PInt 1); ("openid", PStr "o1");
         ("nickname", PStr "Ann")].

(** A key generator standing in for [utils.key_util]. *)
Definition sample_random_key (n : Z) : string := "abc".

(** What [generate_add_card_params] returns for card "p1", and
    [generate_choose_card_params] for no filter, with the sample ticket,
    clock and key. *)
Definition sample_add_card_result : gmap string pyval :=
  with_entry sample_add_card_params "signature"
    (PStr (sample_digest "1700000000abcp1tkt")).

Definition sample_choose_card_result : gmap string pyval :=
  <["signType" := PStr "SHA1"]>
    (with_entry
       {[ "appId" := "wx1"; "timestamp" := "1700000000"; "nonceStr" := "abc" ]}
       "cardSign" (PStr (sample_digest "1700000000abctktwx1"))).

(** A stored user of authorizer 3, and a state whose receiver was just
    loaded from it. *)
Definition sample_wx_user_row : gmap string pyval :=
  list_to_map [("uuid", PStr "u-5"); ("create_time", PTime 1);
               ("update_time", PTime 2); ("show", PBool true);
               ("weight", PInt 0); ("wx_authorizer", PInt 3);
               ("openid", PStr "o1"); ("nickname", PStr "Ann");
               ("sex", PInt 2); ("subscribe", PInt 1);
               ("subscribe_time", PInt 1600000000);
               ("tagid_list", PStr "2")].

Definition sample_wx_user_state : state :=
  sample_state WXUser 5 sample_wx_user_row ∅.

(** The profile of that user with two tags. *)
Definition sample_wx_user_info : wx_user_info :=
  {| unionid := PNone; nickname := PStr " Ann "; sex := PInt 2;
     country := PStr "CN"; province := PNone; city := PNone;
     headimgurl := PNone; subscribe_time := PInt 1600000000;
     language := PStr "zh_CN"; remark := PNone;
     tagid_list := PList [PInt 2; PInt 10] |}.

(** * Properties *)

(** ** Strings and numerals *)

Lemma string_forall_impl (p q : ascii -> bool) (s : string) :
  (forall c, p c = true -> q c = true) ->
  string_forall p s = true -> string_forall q s = true.
Proof.
  intros Hpq. induction s as [|c r IH]; simpl; [done|].
  rewrite !andb_true_iff. intros [Hc Hr]. split; auto.
Qed.

Lemma string_of_uint_decimal (d : Decimal.uint) :
  string_forall is_decimal_char (NilEmpty.string_of_uint d) = true.
Proof.
  induction d; simpl NilEmpty.string_of_uint; [reflexivity | ..];
    (change (string_forall is_decimal_char (String ?c ?r))
       with (is_decimal_char c && string_forall is_decimal_char r);
     rewrite IHd; reflexivity).
Qed.

Lemma str_of_int_decimal (z : Z) :
  string_forall is_decimal_char (str_of_int z) = true.
Proof.
  unfold str_of_int.
  assert (Hu : forall d, string_forall is_decimal_char (NilZero.string_of_uint d) = true).
  { intros d. destruct d; try reflexivity; apply (string_of_uint_decimal (_ _)). }
  destruct (Z.to_int z) as [d|d]; simpl NilZero.string_of_int; [apply Hu|].
  change (string_forall is_decimal_char (String ?c ?r))
    with (is_decimal_char c && string_forall is_decimal_char r).
  rewrite Hu. reflexivity.
Qed.

Lemma decimal_char_not_colon (c : ascii) :
  is_decimal_char c = true -> negb (Ascii.eqb c ":") = true.
Proof.
  destruct c as [[] [] [] [] [] [] [] []]; vm_compute; congruence.
Qed.

Lemma decimal_char_not_space (c : ascii) :
  is_decimal_char c = true -> negb (is_space c) = true.
Proof.
  destruct c as [[] [] [] [] [] [] [] []]; vm_compute; congruence.
Qed.

Lemma split_no_sep (sep : ascii) (s : string) :
  string_forall (fun c => negb (Ascii.eqb c sep)) s = true ->
  split sep s = [s].
Proof.
  induction s as [|c r IH]; simpl; [done|].
  rewrite andb_true_iff, negb_true_iff. intros [-> Hr].
  by rewrite (IH Hr).
Qed.

Lemma split_app_sep (sep : ascii) (a r : string) :
  string_forall (fun c => negb (Ascii.eqb c sep)) a = true ->
  split sep (a ++ String sep r) = a :: split sep r.
Proof.
  induction a as [|c a IH]; simpl.
  - intros _. by rewrite Ascii.eqb_refl.
  - rewrite andb_true_iff, negb_true_iff. intros [-> Ha].
    by rewrite (IH Ha).
Qed.

Lemma lstrip_no_space (s : string) :
  string_forall (fun c => negb (is_space c)) s = true -> lstrip s = s.
Proof.
  destruct s as [|c r]; simpl; [done|].
  rewrite andb_true_iff, negb_true_iff. by intros [-> _].
Qed.

Lemma rstrip_no_space (s : string) :
  string_forall (fun c => negb (is_space c)) s = true -> rstrip s = s.
Proof.
  induction s as [|c r IH]; simpl; [done|].
  rewrite andb_true_iff, negb_true_iff. intros [Hc Hr].
  rewrite (IH Hr), Hc. by destruct r.
Qed.

Lemma strip_no_space (s : string) :
  string_forall (fun c => negb (is_space c)) s = true -> strip s = s.
Proof.
  intros H. unfold strip. rewrite (lstrip_no_space _ H).
  by apply rstrip_no_space.
Qed.

(** A numeral that starts with a digit or a minus sign is read by the
    library's parser: the leading plus sign is the only addition. *)
Lemma int_of_str_decimal (s : string) :
  string_forall is_decimal_char s = true ->
  int_of_str s =
    match NilZero.int_of_string s with
    | Some d => Ret (Z.of_int d)
    | None => Raise ValueError
    end.
Proof.
  intros H. unfold int_of_str.
  rewrite strip_no_space
    by (eapply string_forall_impl; [apply decimal_char_not_space | done]).
  destruct s as [|c r]; [done|].
  simpl in H. apply andb_true_iff in H as [Hc _].
  destruct c as [[] [] [] [] [] [] [] []]; try reflexivity;
    vm_compute in Hc; congruence.
Qed.

(** Printing an integer and reading it back gives the integer. *)
Lemma int_of_str_str_of_int (z : Z) : int_of_str (str_of_int z) = Ret z.
Proof.
  rewrite int_of_str_decimal by apply str_of_int_decimal.
  unfold str_of_int. rewrite NilZero.isi.
  - by rewrite DecimalZ.of_to.
  - destruct z; simpl; [done | |done].
    intros [= H]. by apply DecimalPos.Unsigned.to_uint_nonnil in H.
  - destruct z; simpl; [done | done |].
    intros [= H]. by apply DecimalPos.Unsigned.to_uint_nonnil in H.
Qed.

Lemma int_gt_float_true (n : Z) (x : Q) :
  int_gt_float n x = true <-> (x < inject_Z n)%Q.
Proof.
  unfold int_gt_float. rewrite negb_true_iff.
  split.
  - intros H. apply Qnot_le_lt. intros Hle.
    apply Qle_bool_iff in Hle. congruence.
  - intros H. destruct (Qle_bool (inject_Z n) x) eqn:E; [|done].
    apply Qle_bool_iff in E. by apply Qlt_not_le in H.
Qed.

Lemma int_gt_float_false (n : Z) (x : Q) :
  int_gt_float n x = false <-> (inject_Z n <= x)%Q.
Proof.
  unfold int_gt_float. rewrite negb_false_iff. apply Qle_bool_iff.
Qed.

(** The plaintext of a token splits into its three fields. *)
Lemma token_plaintext_split (i e : Z) :
  split ":" (ADMIN_TOKEN_TAG ++ ":" ++ str_of_int i ++ ":" ++ str_of_int e) =
  [ADMIN_TOKEN_TAG; str_of_int i; str_of_int e].
Proof.
  change (ADMIN_TOKEN_TAG ++ ":" ++ str_of_int i ++ ":" ++ str_of_int e)
    with (ADMIN_TOKEN_TAG ++
          String ":" (str_of_int i ++ String ":" (str_of_int e))).
  rewrite split_app_sep by reflexivity.
  rewrite split_app_sep
    by (eapply string_forall_impl;
        [apply decimal_char_not_colon | apply str_of_int_decimal]).
  rewrite split_no_sep
    by (eapply string_forall_impl;
        [apply decimal_char_not_colon | apply str_of_int_decimal]).
  reflexivity.
Qed.

(** ** Session tokens *)

Section SessionTokenProperties.

Variable encrypt : string -> string.
Variable decrypt : string -> outcome string.
Variable ADMIN_TOKEN_VALID_DAYS : Z.

(** C1.  A token issued for an admin in state [s1] and validated in a
    state [s2] whose clock is before the expiry written into the token
    (the issuing clock, truncated, plus the validity period) yields the
    stored record with the id of the admin the token was issued for,
    provided decryption undoes encryption and the database answers and
    holds that record.  Validation leaves the state as it was. *)
Theorem token_round_trip (cls : model_class) (s1 s2 : state)
    (row : gmap string pyval) :
  (forall p, decrypt (encrypt p) = Ret p) ->
  (time_time s2 <
     inject_Z (int_of_float (time_time s1) + 86400 * ADMIN_TOKEN_VALID_DAYS))%Q ->
  db_ok s2 = true ->
  db s2 !! (db_table cls, inst_id (self_ s1)) = Some row ->
  exists token,
    generate_token encrypt ADMIN_TOKEN_VALID_DAYS s1 = (Ret token, s1) /\
    query_by_token decrypt cls token s2 =
      (Ret (Some (loaded cls (inst_id (self_ s1)) row)), s2).
Proof.
  intros Hcodec Hnow Hok Hrow. eexists. split; [reflexivity|].
  unfold query_by_token, try_except, bind, lift.
  rewrite Hcodec, token_plaintext_split.
  change (String.eqb ADMIN_TOKEN_TAG ADMIN_TOKEN_TAG) with true. cbv iota.
  rewrite int_of_str_str_of_int. unfold get_state.
  apply int_gt_float_true in Hnow. rewrite Hnow.
  unfold query_by_id, cls_get_by_id, bind, lift, get_state. simpl py_int.
  rewrite int_of_str_str_of_int, Hok, Hrow. reflexivity.
Qed.

(** C2.  Whatever plaintext a token decrypts to, validation returns
    [None], having done nothing but log the exception, when the plaintext
    does not split into exactly three colon-separated fields, when its
    first field is not the admin tag, and when its third field reads as an
    expiry that the clock has reached. *)
Theorem query_by_token_rejects (cls : model_class) (token plain : string)
    (s : state) :
  decrypt token = Ret plain ->
  (length (split ":" plain) <> 3%nat \/
   exists tag _id expires,
     split ":" plain = [tag; _id; expires] /\
     (tag <> ADMIN_TOKEN_TAG \/
      exists e, int_of_str expires = Ret e /\ (inject_Z e <= time_time s)%Q)) ->
  exists e,
    query_by_token decrypt cls token s =
      (Ret None, add_event (EvLogError e) s).
Proof.
  intros Hdec Hbad. unfold query_by_token, try_except, bind, lift.
  rewrite Hdec.
  destruct Hbad as [Hlen | (tag & _id & expires & Hsplit & Hbad)].
  - exists ValueError.
    destruct (split ":" plain) as [|a [|b [|c [|d l]]]]; try reflexivity.
    by destruct Hlen.
  - rewrite Hsplit. destruct Hbad as [Htag | (e & He & Hexp)].
    + exists AssertionError.
      apply String.eqb_neq in Htag. by rewrite Htag.
    + exists AssertionError.
      destruct (String.eqb tag ADMIN_TOKEN_TAG); [|reflexivity].
      rewrite He. unfold get_state.
      apply int_gt_float_false in Hexp. by rewrite Hexp.
Qed.

(** C9.  Validation always returns and never raises, whatever the token
    and the state.  It returns [None], having done nothing but log the
    exception, when the token does not decrypt, when the plaintext does
    not split into exactly three colon-separated fields, when its first
    field is not the admin tag, and when its third field does not read as
    an integer; it returns [None] and leaves the state unchanged when the
    token is well formed, tagged and unexpired but no stored record has
    the id its second field reads as.  Conversely, a record is returned
    only for a token that decrypts to three fields with the admin tag, an
    expiry that reads as an integer still ahead of the clock, and an id
    that reads as the key of a stored row; the record is then the one
    loaded from that row, and the state is unchanged. *)
Theorem query_by_token_total (cls : model_class) (token : string) (s : state) :
  (exists r s', query_by_token decrypt cls token s = (Ret r, s')) /\
  (forall x, decrypt token = Raise x ->
     query_by_token decrypt cls token s =
       (Ret None, add_event (EvLogError x) s)) /\
  (forall plain,
     decrypt token = Ret plain ->
     length (split ":" plain) <> 3%nat ->
     query_by_token decrypt cls token s =
       (Ret None, add_event (EvLogError ValueError) s)) /\
  (forall plain tag _id expires,
     decrypt token = Ret plain ->
     split ":" plain = [tag; _id; expires] ->
     tag <> ADMIN_TOKEN_TAG ->
     query_by_token decrypt cls token s =
       (Ret None, add_event (EvLogError AssertionError) s)) /\
  (forall plain tag _id expires x,
     decrypt token = Ret plain ->
     split ":" plain = [tag; _id; expires] ->
     tag = ADMIN_TOKEN_TAG ->
     int_of_str expires = Raise x ->
     query_by_token decrypt cls token s =
       (Ret None, add_event (EvLogError x) s)) /\
  (forall plain tag _id expires e,
     decrypt token = Ret plain ->
     split ":" plain = [tag; _id; expires] ->
     tag = ADMIN_TOKEN_TAG ->
     int_of_str expires = Ret e ->
     (time_time s < inject_Z e)%Q ->
     (forall n, int_of_str _id = Ret n -> db s !! (db_table cls, n) = None) ->
     query_by_token decrypt cls token s = (Ret None, s)) /\
  (forall o s',
     query_by_token decrypt cls token s = (Ret (Some o), s') ->
     s' = s /\
     exists plain _id expires e row,
       decrypt token = Ret plain /\
       split ":" plain = [ADMIN_TOKEN_TAG; _id; expires] /\
       int_of_str expires = Ret e /\
       (time_time s < inject_Z e)%Q /\
       int_of_str _id = Ret (inst_id o) /\
       db_ok s = true /\
       db s !! (db_table cls, inst_id o) = Some row /\
       o = loaded cls (inst_id o) row).
Proof.
  split; [|split; [|split; [|split; [|split; [|split]]]]].
  - unfold query_by_token, try_except.
    match goal with |- context [bind ?m ?k s] => destruct (bind m k s) as [[r|e] s'] end.
    + by exists r, s'.
    + by exists None, (add_event (EvLogError e) s').
  - intros x Hdec. unfold query_by_token, try_except, bind, lift.
    by rewrite Hdec.
  - intros plain Hdec Hlen. unfold query_by_token, try_except, bind, lift.
    rewrite Hdec.
    destruct (split ":" plain) as [|a [|b [|c [|d l]]]]; try reflexivity.
    by destruct Hlen.
  - intros plain tag _id expires Hdec Hsplit Htag.
    unfold query_by_token, try_except, bind, lift.
    rewrite Hdec, Hsplit. apply String.eqb_neq in Htag. by rewrite Htag.
  - intros plain tag _id expires x Hdec Hsplit -> Hexp.
    unfold query_by_token, try_except, bind, lift.
    rewrite Hdec, Hsplit.
    change (String.eqb ADMIN_TOKEN_TAG ADMIN_TOKEN_TAG) with true. cbv iota.
    by rewrite Hexp.
  - intros plain tag _id expires e Hdec Hsplit -> He Hnow Hmissing.
    unfold query_by_token, try_except, bind, lift.
    rewrite Hdec, Hsplit.
    change (String.eqb ADMIN_TOKEN_TAG ADMIN_TOKEN_TAG) with true. cbv iota.
    rewrite He. unfold get_state.
    apply int_gt_float_true in Hnow. rewrite Hnow.
    unfold query_by_id, cls_get_by_id, bind, lift, get_state. simpl py_int.
    destruct (int_of_str _id) as [n|x] eqn:Hid; [|reflexivity].
    destruct (db_ok s); [|reflexivity].
    by rewrite (Hmissing n eq_refl).
  - intros o s'. unfold query_by_token, try_except, bind, lift.
    destruct (decrypt token) as [plain|x] eqn:Hdec; [|discriminate].
    destruct (split ":" plain) as [|tag [|_id [|expires [|d l]]]] eqn:Hsplit;
      try discriminate.
    destruct (String.eqb tag ADMIN_TOKEN_TAG) eqn:Htag; [|discriminate].
    apply String.eqb_eq in Htag. subst tag.
    destruct (int_of_str expires) as [e|x] eqn:He; [|discriminate].
    unfold get_state.
    destruct (int_gt_float e (time_time s)) eqn:Hnow; [|discriminate].
    apply int_gt_float_true in Hnow.
    unfold query_by_id, cls_get_by_id, bind, lift, get_state. simpl py_int.
    destruct (int_of_str _id) as [n|x] eqn:Hid; [|discriminate].
    destruct (db_ok s) eqn:Hok; [|discriminate].
    destruct (db s !! (db_table cls, n)) as [row|] eqn:Hrow; [|discriminate].
    intros [= <- <-]. split; [reflexivity|].
    exists plain, _id, expires, e, row. simpl. by repeat split.
Qed.

End SessionTokenProperties.

(** ** Saving an instance *)

Lemma field_dict_lookup (o : instance) (f : string) :
  field_dict o !! f =
    if decide (f ∈ inst_dirty o) then inst_data o !! f else None.
Proof.
  unfold field_dict. rewrite map_lookup_filter.
  destruct (inst_data o !! f) as [v|] eqn:E; simpl.
  - case_decide; simpl.
    + by rewrite option_guard_True.
    + by rewrite option_guard_False.
  - by case_decide.
Qed.

Lemma field_dict_setattr_eq (o : instance) (f : string) (v : pyval) :
  field_dict (setattr o f v) !! f = Some v.
Proof.
  rewrite field_dict_lookup. simpl.
  rewrite decide_True by set_solver. by rewrite lookup_insert_eq.
Qed.

Lemma field_dict_setattr_ne (o : instance) (f g : string) (v : pyval) :
  f <> g ->
  field_dict (setattr o f v) !! g = field_dict o !! g.
Proof.
  intros Hne. rewrite !field_dict_lookup. simpl.
  rewrite lookup_insert_ne by done.
  destruct (decide (g ∈ inst_dirty o)).
  - rewrite decide_True by set_solver. done.
  - rewrite decide_False; [done|].
    rewrite elem_of_union, elem_of_singleton. intros [Hg|Hg]; congruence.
Qed.

Lemma field_dict_clean (o : instance) : field_dict (clean o) = ∅.
Proof.
  apply map_eq. intros f. rewrite field_dict_lookup, lookup_empty. simpl.
  rewrite decide_False by set_solver. done.
Qed.

Lemma field_dict_touch_time (f : string) (v : pyval) (t : Z) (o : instance) :
  field_dict (touch f v t o) !! "update_time" = Some (PTime t).
Proof. apply field_dict_setattr_eq. Qed.

Lemma field_dict_touch_field (f : string) (v : pyval) (t : Z) (o : instance) :
  f <> "update_time" ->
  field_dict (touch f v t o) !! f = Some v.
Proof.
  intros Hne. unfold touch.
  rewrite field_dict_setattr_ne by done. apply field_dict_setattr_eq.
Qed.

Lemma field_dict_touch_other (f g : string) (v : pyval) (t : Z) (o : instance) :
  g <> f -> g <> "update_time" -> g ∉ inst_dirty o ->
  field_dict (touch f v t o) !! g = None.
Proof.
  intros Hf Ht Hd. unfold touch.
  rewrite !field_dict_setattr_ne by done.
  rewrite field_dict_lookup. by rewrite decide_False.
Qed.

Lemma getattr_setattr_eq (o : instance) (f : string) (v : pyval) :
  f <> "id" -> getattr (setattr o f v) f = v.
Proof.
  intros Hne. unfold getattr. apply String.eqb_neq in Hne. rewrite Hne.
  simpl. by rewrite lookup_insert_eq.
Qed.

Lemma getattr_setattr_ne (o : instance) (f g : string) (v : pyval) :
  f <> g -> getattr (setattr o f v) g = getattr o g.
Proof.
  intros Hne. unfold getattr. destruct (String.eqb g "id"); [done|].
  simpl. by rewrite lookup_insert_ne.
Qed.

Lemma getattr_clean (o : instance) (f : string) :
  getattr (clean o) f = getattr o f.
Proof. reflexivity. Qed.

(** What [save] does to an instance with a dirty field. *)
Lemma save_dirty (s : state) :
  field_dict (self_ s) <> ∅ ->
  save s =
    let o := self_ s in
    let ev := EvDbUpdate (db_table (inst_cls o)) (inst_id o) (field_dict o) in
    if db_ok s
    then (Ret tt, set_self (clean o) (set_db (update_row o (db s)) (add_event ev s)))
    else (Raise DatabaseError, add_event ev s).
Proof.
  intros Hne. unfold save, bind, get_state. cbv beta iota.
  rewrite decide_False by done.
  unfold emit, modify, raise. by destruct (db_ok s).
Qed.

(** An UPDATE changes no column it does not name, in no row. *)
Lemma update_row_frame (o : instance)
    (d : gmap (string * Z) (gmap string pyval)) (key : string * Z) (f : string) :
  field_dict o !! f = None ->
  stored_field (update_row o d) key f = stored_field d key f.
Proof.
  intros Hf. unfold stored_field, update_row.
  destruct (d !! (db_table (inst_cls o), inst_id o)) as [row|] eqn:E; [|done].
  destruct (decide ((db_table (inst_cls o), inst_id o) = key)) as [<-|Hne].
  - rewrite lookup_insert_eq, E. simpl. by rewrite lookup_union_r.
  - by rewrite lookup_insert_ne.
Qed.

(** An UPDATE writes the columns it names into the row with the key. *)
Lemma update_row_written (o : instance)
    (d : gmap (string * Z) (gmap string pyval)) (f : string) (v : pyval) :
  is_Some (d !! (db_table (inst_cls o), inst_id o)) ->
  field_dict o !! f = Some v ->
  stored_field (update_row o d) (db_table (inst_cls o), inst_id o) f = Some v.
Proof.
  intros [row E] Hf. unfold stored_field, update_row. rewrite E.
  rewrite lookup_insert_eq. simpl. by apply lookup_union_Some_l.
Qed.

(** An UPDATE neither adds nor removes a row. *)
Lemma update_row_dom (o : instance)
    (d : gmap (string * Z) (gmap string pyval)) :
  dom (update_row o d) = dom d.
Proof.
  unfold update_row.
  destruct (d !! (db_table (inst_cls o), inst_id o)) as [row|] eqn:E; [|done].
  rewrite dom_insert_L. apply elem_of_dom_2 in E.
  apply subseteq_union_1_L. by apply singleton_subseteq_l.
Qed.

(** The three statements shared by [unauthorized] and
    [update_refresh_token]: assign the field, stamp the update time, save. *)
Lemma touch_and_save (f : string) (v : pyval) (s : state) :
  (assign f v ;; (let* t := now in assign "update_time" t) ;; save) s =
    let o := touch f v (datetime_now s) (self_ s) in
    let ev := EvDbUpdate (db_table (inst_cls o)) (inst_id o) (field_dict o) in
    if db_ok s
    then (Ret tt, set_self (clean o) (set_db (update_row o (db s)) (add_event ev s)))
    else (Raise DatabaseError, add_event ev (set_self o s)).
Proof.
  unfold bind at 1 2 3. unfold assign, modify, now. cbv beta iota.
  rewrite save_dirty.
  - reflexivity.
  - intros Hempty.
    pose proof (field_dict_touch_time f v (datetime_now s) (self_ s)) as Ht.
    unfold touch in Ht. simpl in *. rewrite Hempty in Ht. done.
Qed.

(** ** Revoking an authorization *)

(** C10.  [unauthorized] on a record whose flag is already false returns
    the record and changes nothing: no write, no new update time.  On a
    record whose flag is true it sends exactly one UPDATE, which names the
    flag, now false, and the update time, now the clock reading; in memory
    those two fields take these values and every other field keeps its
    value; no stored row gains or loses a column value other than those two
    and the fields that were already dirty, and no row is added or removed;
    when the database answers the record is returned and its row holds the
    new flag and update time; and a second call changes nothing more. *)
Theorem unauthorized_idempotent_frame (s : state) :
  let o := self_ s in
  let key := (db_table (inst_cls o), inst_id o) in
  (truthy (getattr o "authorized") = false ->
   unauthorized s = (Ret Self, s)) /\
  (truthy (getattr o "authorized") = true ->
   exists r s' fields,
     unauthorized s = (Ret r, s') /\
     db_writes (trace s') =
       EvDbUpdate (db_table (inst_cls o)) (inst_id o) fields
       :: db_writes (trace s) /\
     fields !! "authorized" = Some (PBool false) /\
     fields !! "update_time" = Some (PTime (datetime_now s)) /\
     getattr (self_ s') "authorized" = PBool false /\
     getattr (self_ s') "update_time" = PTime (datetime_now s) /\
     (forall f, f <> "authorized" -> f <> "update_time" ->
        getattr (self_ s') f = getattr o f) /\
     (forall k f, f <> "authorized" -> f <> "update_time" ->
        f ∉ inst_dirty o ->
        stored_field (db s') k f = stored_field (db s) k f) /\
     dom (db s') = dom (db s) /\
     (db_ok s = true -> is_Some (db s !! key) ->
        r = Self /\
        stored_field (db s') key "authorized" = Some (PBool false) /\
        stored_field (db s') key "update_time" = Some (PTime (datetime_now s))) /\
     unauthorized s' = (Ret Self, s')).
Proof.
  intros o key. split.
  - intros Hflag. unfold unauthorized, try_except.
    unfold bind at 1 2. unfold self_attr. fold o. rewrite Hflag. reflexivity.
  - intros Hflag.
    set (o' := touch "authorized" (PBool false) (datetime_now s) o).
    assert (Hrun : unauthorized s =
      match (assign "authorized" (PBool false) ;;
             (let* t := now in assign "update_time" t) ;; save) s with
      | (Ret _, s') => (Ret Self, s')
      | (Raise e, s') => (Ret NoneRet, add_event (EvLogError e) s')
      end).
    { unfold unauthorized, try_except.
      unfold bind at 1 2. unfold self_attr. fold o. rewrite Hflag.
      match goal with |- context [bind ?m ?k s] => destruct (bind m k s) as [[[]|e] s1] end;
        reflexivity. }
    rewrite touch_and_save in Hrun. cbv zeta in Hrun. fold o o' in Hrun.
    assert (Hmem : forall s', self_ s' = clean o' \/ self_ s' = o' ->
      getattr (self_ s') "authorized" = PBool false /\
      getattr (self_ s') "update_time" = PTime (datetime_now s) /\
      (forall f, f <> "authorized" -> f <> "update_time" ->
         getattr (self_ s') f = getattr o f)).
    { intros s' Hs'.
      assert (Hg : forall f, getattr (self_ s') f = getattr o' f)
        by (intros f; destruct Hs' as [-> | ->]; reflexivity).
      rewrite !Hg. unfold o', touch. split; [|split].
      - rewrite getattr_setattr_ne by done. by apply getattr_setattr_eq.
      - by apply getattr_setattr_eq.
      - intros f Hf1 Hf2. rewrite Hg. unfold o', touch.
        rewrite !getattr_setattr_ne by congruence. reflexivity. }
    assert (Hagain : forall s', self_ s' = clean o' \/ self_ s' = o' ->
      unauthorized s' = (Ret Self, s')).
    { intros s' Hs'. unfold unauthorized, try_except.
      unfold bind at 1 2. unfold self_attr.
      destruct (Hmem s' Hs') as (-> & _). reflexivity. }
    destruct (db_ok s) eqn:Hok.
    + eexists Self, _, (field_dict o'). split; [exact Hrun|].
      split; [reflexivity|].
      split; [by apply field_dict_touch_field|].
      split; [apply field_dict_touch_time|].
      destruct (Hmem (set_self (clean o')
                  (set_db (update_row o' (db s))
                     (add_event (EvDbUpdate (db_table (inst_cls o')) (inst_id o')
                                   (field_dict o')) s))))
        as (H1 & H2 & H3); [by left|].
      split; [exact H1|]. split; [exact H2|]. split; [exact H3|].
      split.
      { intros k f Hf1 Hf2 Hd. simpl. apply update_row_frame.
        by apply field_dict_touch_other. }
      split; [apply update_row_dom|].
      split.
      { intros _ Hrow. split; [done|]. simpl. split.
        - apply (update_row_written o'); [exact Hrow|].
          by apply field_dict_touch_field.
        - apply (update_row_written o'); [exact Hrow|].
          apply field_dict_touch_time. }
      apply Hagain. by left.
    + eexists NoneRet, _, (field_dict o'). split; [exact Hrun|].
      split; [reflexivity|].
      split; [by apply field_dict_touch_field|].
      split; [apply field_dict_touch_time|].
      destruct (Hmem (add_event (EvLogError DatabaseError)
                  (add_event (EvDbUpdate (db_table (inst_cls o')) (inst_id o')
                                (field_dict o')) (set_self o' s))))
        as (H1 & H2 & H3); [by right|].
      split; [exact H1|]. split; [exact H2|]. split; [exact H3|].
      split; [reflexivity|]. split; [reflexivity|].
      split; [done|].
      apply Hagain. by right.
Qed.

(** ** Rotating the refresh token *)

(** C5.  [update_refresh_token] with a value equal to the stored one
    returns the record and changes nothing: the persistence layer receives
    no call and the update time stays.  With a different value the
    persistence layer receives exactly one UPDATE, which names the refresh
    token with the new value and the update time with the clock reading;
    the record in memory holds the new value, and when the database answers
    and holds the row, so does the row. *)
Theorem update_refresh_token_rotation (refresh_token : pyval) (s : state) :
  let o := self_ s in
  let key := (db_table (inst_cls o), inst_id o) in
  (py_eqb (getattr o "refresh_token") refresh_token = true ->
   update_refresh_token refresh_token s = (Ret Self, s)) /\
  (py_eqb (getattr o "refresh_token") refresh_token = false ->
   exists r s' fields,
     update_refresh_token refresh_token s = (Ret r, s') /\
     db_writes (trace s') =
       EvDbUpdate (db_table (inst_cls o)) (inst_id o) fields
       :: db_writes (trace s) /\
     fields !! "refresh_token" = Some refresh_token /\
     fields !! "update_time" = Some (PTime (datetime_now s)) /\
     getattr (self_ s') "refresh_token" = refresh_token /\
     (db_ok s = true -> is_Some (db s !! key) ->
        r = Self /\
        stored_field (db s') key "refresh_token" = Some refresh_token)).
Proof.
  intros o key. split.
  - intros Heq. unfold update_refresh_token, try_except.
    unfold bind at 1 2. unfold self_attr, py_ne. fold o. rewrite Heq.
    reflexivity.
  - intros Hne.
    set (o' := touch "refresh_token" refresh_token (datetime_now s) o).
    assert (Hrun : update_refresh_token refresh_token s =
      match (assign "refresh_token" refresh_token ;;
             (let* t := now in assign "update_time" t) ;; save) s with
      | (Ret _, s') => (Ret Self, s')
      | (Raise e, s') => (Ret NoneRet, add_event (EvLogError e) s')
      end).
    { unfold update_refresh_token, try_except.
      unfold bind at 1 2. unfold self_attr, py_ne. fold o. rewrite Hne.
      simpl (negb _). cbv iota.
      match goal with |- context [bind ?m ?k s] => destruct (bind m k s) as [[[]|e] s1] end;
        reflexivity. }
    rewrite touch_and_save in Hrun. cbv zeta in Hrun. fold o o' in Hrun.
    assert (Hmem : getattr o' "refresh_token" = refresh_token).
    { unfold o', touch. rewrite getattr_setattr_ne by done.
      by apply getattr_setattr_eq. }
    destruct (db_ok s) eqn:Hok.
    + eexists Self, _, (field_dict o'). split; [exact Hrun|].
      split; [reflexivity|].
      split; [by apply field_dict_touch_field|].
      split; [apply field_dict_touch_time|].
      split; [exact Hmem|].
      intros _ Hrow. split; [done|]. simpl.
      apply (update_row_written o'); [exact Hrow|].
      by apply field_dict_touch_field.
    + eexists NoneRet, _, (field_dict o'). split; [exact Hrun|].
      split; [reflexivity|].
      split; [by apply field_dict_touch_field|].
      split; [apply field_dict_touch_time|].
      split; [exact Hmem|]. done.
Qed.

(** ** Saving only what changed *)

Lemma filter_raising_total (p : string -> bool) (l : list string) :
  filter_raising (fun f => Ret (p f)) l = Ret (List.filter p l).
Proof.
  induction l as [|f l IH]; simpl; [done|].
  rewrite IH. by destruct (p f).
Qed.

Lemma filter_raising_ext (p q : string -> outcome bool) (l : list string) :
  (forall f, p f = q f) -> filter_raising p l = filter_raising q l.
Proof.
  intros Hpq. induction l as [|f l IH]; simpl; [done|].
  by rewrite Hpq, IH.
Qed.

(** [modified_fields] when the database answers and holds the row. *)
Lemma modified_fields_found (s : state) (row : gmap string pyval) :
  db_ok s = true ->
  db s !! (db_table (inst_cls (self_ s)), inst_id (self_ s)) = Some row ->
  modified_fields [] s = (Ret (Some (differing (self_ s) row)), s).
Proof.
  intros Hok Hrow. unfold modified_fields, try_except.
  unfold bind at 1 2. unfold get_state. cbv beta iota zeta.
  unfold query_by_id, cls_get_by_id, bind, lift, get_state. simpl py_int.
  cbv beta iota. rewrite Hok, Hrow. unfold ret. cbv beta iota.
  erewrite filter_raising_ext.
  - rewrite filter_raising_total. reflexivity.
  - intros f. simpl. by rewrite andb_true_r.
Qed.

(** [save_if_modified] on a record that agrees with its stored row does
    nothing. *)
Lemma save_if_modified_unchanged (s : state) (row : gmap string pyval) :
  db_ok s = true ->
  db s !! (db_table (inst_cls (self_ s)), inst_id (self_ s)) = Some row ->
  differing (self_ s) row = [] ->
  save_if_modified s = (Ret Self, s).
Proof.
  intros Hok Hrow Hsame. unfold save_if_modified, try_except.
  unfold bind at 1. rewrite (modified_fields_found s row Hok Hrow), Hsame.
  reflexivity.
Qed.

(** [save_if_modified] on a record that disagrees with its stored row
    stamps the update time and sends one UPDATE of the dirty fields. *)
Lemma save_if_modified_changed (s : state) (row : gmap string pyval) :
  db_ok s = true ->
  db s !! (db_table (inst_cls (self_ s)), inst_id (self_ s)) = Some row ->
  differing (self_ s) row <> [] ->
  save_if_modified s =
    let o := setattr (self_ s) "update_time" (PTime (datetime_now s)) in
    let ev := EvDbUpdate (db_table (inst_cls o)) (inst_id o) (field_dict o) in
    (Ret Self,
     set_self (clean o) (set_db (update_row o (db s)) (add_event ev s))).
Proof.
  intros Hok Hrow Hdiff. unfold save_if_modified, try_except.
  unfold bind at 1. rewrite (modified_fields_found s row Hok Hrow).
  destruct (differing (self_ s) row) as [|f l]; [done|].
  unfold bind at 1 2. unfold now, assign, modify. cbv beta iota.
  unfold bind at 1. rewrite save_dirty.
  - cbv zeta. simpl db_ok. rewrite Hok. reflexivity.
  - intros Hempty.
    pose proof (field_dict_setattr_eq (self_ s) "update_time"
                  (PTime (datetime_now s))) as Ht.
    simpl in *. rewrite Hempty in Ht. done.
Qed.

(** The record and the row agree on every field exactly when
    [modified_fields] finds none. *)
Lemma differing_nil (o : instance) (row : gmap string pyval) :
  differing o row = [] <->
  forall f, In f (sorted_field_names (inst_cls o)) ->
    py_eqb (getattr o f) (getattr (loaded (inst_cls o) (inst_id o) row) f) = true.
Proof.
  unfold differing, py_ne.
  induction (sorted_field_names (inst_cls o)) as [|g l IH]; simpl.
  - split; [intros _ f []|done].
  - destruct (py_eqb (getattr o g) _) eqn:E; simpl.
    + rewrite IH. split.
      * intros H f [<-|Hf]; [done|by apply H].
      * intros H f Hf. apply H. by right.
    + split; [done|]. intros H. specialize (H g (or_introl eq_refl)).
      congruence.
Qed.

(** ** Running a method step by step *)

Lemma bind_run {A B} (m : M A) (k : A -> M B) (s s' : state) (a : A) :
  m s = (Ret a, s') -> bind m k s = k a s'.
Proof. intros H. unfold bind. by rewrite H. Qed.

Lemma bind_run_raise {A B} (m : M A) (k : A -> M B) (s s' : state) (e : exn) :
  m s = (Raise e, s') -> bind m k s = (Raise e, s').
Proof. intros H. unfold bind. by rewrite H. Qed.

Lemma bind_lift_inv {A B} (x : outcome A) (k : A -> M B)
    (s s' : state) (r : B) :
  bind (lift x) k s = (Ret r, s') ->
  exists v, x = Ret v /\ k v s = (Ret r, s').
Proof.
  unfold bind, lift. destruct x as [v|e]; [|done]. intros H. by exists v.
Qed.

Lemma bind_assign_inv {B} (f : string) (v : pyval) (k : unit -> M B)
    (s s' : state) (r : B) :
  bind (assign f v) k s = (Ret r, s') ->
  k tt (set_self (setattr (self_ s) f v) s) = (Ret r, s').
Proof. done. Qed.

Lemma bind_lift_assign_inv {B} (x : outcome pyval) (f : string)
    (g : pyval -> pyval) (k : unit -> M B) (s s' : state) (r : B) :
  bind (bind (lift x) (fun v => assign f (g v))) k s = (Ret r, s') ->
  exists v, x = Ret v /\
    k tt (set_self (setattr (self_ s) f (g v)) s) = (Ret r, s').
Proof.
  unfold bind, lift. destruct x as [v|e]; [|done]. intros H. by exists v.
Qed.

Lemma set_self_twice (o o' : instance) (s : state) :
  set_self o' (set_self o s) = set_self o' s.
Proof. done. Qed.

Lemma self_set_self (o : instance) (s : state) : self_ (set_self o s) = o.
Proof. done. Qed.

(** ** Runs of assignments *)

Lemma setattrs_snoc (o : instance) (l : list (string * pyval))
    (f : string) (v : pyval) :
  setattrs o (l ++ [(f, v)]) = setattr (setattrs o l) f v.
Proof. unfold setattrs. by rewrite fold_left_app. Qed.

Lemma setattrs_cls (o : instance) (l : list (string * pyval)) :
  inst_cls (setattrs o l) = inst_cls o.
Proof.
  induction l as [|[f v] l IH] using rev_ind; [done|].
  by rewrite setattrs_snoc.
Qed.

Lemma setattrs_id (o : instance) (l : list (string * pyval)) :
  inst_id (setattrs o l) = inst_id o.
Proof.
  induction l as [|[f v] l IH] using rev_ind; [done|].
  by rewrite setattrs_snoc.
Qed.

(** A field that is not assigned keeps its value. *)
Lemma getattr_setattrs_other (o : instance) (l : list (string * pyval))
    (f : string) :
  ~ In f (map fst l) -> getattr (setattrs o l) f = getattr o f.
Proof.
  induction l as [|[g v] l IH] using rev_ind; [done|].
  rewrite map_app, in_app_iff. simpl. intros Hnot.
  rewrite setattrs_snoc, getattr_setattr_ne by tauto.
  apply IH. tauto.
Qed.

(** A field that is assigned is dirty and holds a value. *)
Lemma setattrs_assigned (o : instance) (l : list (string * pyval))
    (f : string) :
  In f (map fst l) ->
  f ∈ inst_dirty (setattrs o l) /\ is_Some (inst_data (setattrs o l) !! f).
Proof.
  induction l as [|[g v] l IH] using rev_ind; [done|].
  rewrite map_app, in_app_iff, setattrs_snoc. simpl.
  destruct (decide (g = f)) as [->|Hne].
  - intros _. split.
    + apply elem_of_union_l. by apply elem_of_singleton.
    + rewrite lookup_insert_eq. by eexists.
  - intros [Hin|[Heq|[]]]; [|done].
    destruct (IH Hin) as [Hd Hv]. split.
    + by apply elem_of_union_r.
    + by rewrite lookup_insert_ne.
Qed.

(** What [save] sends for an assigned field is the value the record holds. *)
Lemma field_dict_setattrs (o : instance) (l : list (string * pyval))
    (f : string) :
  In f (map fst l) -> f <> "id" ->
  field_dict (setattrs o l) !! f = Some (getattr (setattrs o l) f).
Proof.
  intros Hin Hid. destruct (setattrs_assigned o l f Hin) as [Hd [v Hv]].
  rewrite field_dict_lookup, decide_True by done.
  unfold getattr. apply String.eqb_neq in Hid. by rewrite Hid, Hv.
Qed.

(** ** Synchronising the authorizer profile *)

Lemma and_then_inv {A B : Type} (x : outcome A) (k : A -> outcome B) (b : B) :
  and_then x k = Ret b -> exists a, x = Ret a /\ k a = Ret b.
Proof. destruct x as [a|e]; [by exists a | discriminate]. Qed.

Lemma profile_fields_NoDup : NoDup profile_fields.
Proof. apply (bool_decide_unpack _). vm_compute. reflexivity. Qed.

Lemma profile_fields_not_id : ~ In "id" profile_fields.
Proof.
  unfold profile_fields. simpl. intros H.
  repeat (destruct H as [H|H]; [discriminate H|]). done.
Qed.

(** Among assignments to distinct fields, each field reads as the value
    assigned to it. *)
Lemma getattr_setattrs_in (o : instance) (l : list (string * pyval))
    (f : string) (v : pyval) :
  NoDup (map fst l) -> In (f, v) l -> f <> "id" ->
  getattr (setattrs o l) f = v.
Proof.
  intros Hnd Hin Hid. revert o.
  induction l as [|[g w] l IH]; intros o; [destruct Hin|].
  change (setattrs o ((g, w) :: l)) with (setattrs (setattr o g w) l).
  simpl in Hnd. apply NoDup_cons in Hnd as [Hg Hnd].
  destruct Hin as [[= -> ->]|Hin].
  - rewrite getattr_setattrs_other.
    + by apply getattr_setattr_eq.
    + intros H. apply Hg. by apply list_elem_of_In.
  - by apply IH.
Qed.

Lemma bind_then {A B} (m : M A) (k : A -> M B) (s s' : state) (a : A)
    (r : outcome B * state) :
  m s = (Ret a, s') -> k a s' = r -> bind m k s = r.
Proof. intros H <-. unfold bind. by rewrite H. Qed.

Section ProfileSync.

Variable repr : pyval -> string.
Variable app_id : pyval.
Variable component_access_token : pyval.
Variable platform : request -> outcome pyval.

(** The assignments go through exactly with the values the answer yields,
    and change nothing else of the state. *)
Lemma profile_values_assigned (ai azi : pyval) (vals : list (string * pyval))
    (s : state) :
  profile_values repr ai azi = Ret vals ->
  map fst vals = profile_fields /\
  assign_authorizer_info repr ai azi s =
    (Ret tt, set_self (setattrs (self_ s) vals) s).
Proof.
  unfold profile_values. intros H.
  repeat match type of H with
         | and_then (and_then _ _) _ = Ret _ =>
             let E := fresh "E" in
             apply and_then_inv in H as (? & E & H);
             apply and_then_inv in E as (? & ? & E)
         | and_then _ _ = Ret _ =>
             apply and_then_inv in H as (? & ? & H)
         end.
  injection H as <-. split; [reflexivity|].
  unfold assign_authorizer_info.
  repeat
    (eapply bind_then;
     [ first [ reflexivity
             | unfold lift;
               match goal with E : ?x = Ret _ |- context [?x] => rewrite E end;
               reflexivity
             | unfold bind at 1; unfold lift;
               match goal with E : ?x = Ret _ |- context [?x] => rewrite E end;
               reflexivity ]
     | cbv beta; rewrite ?self_set_self, ?set_self_twice ]).
  reflexivity.
Qed.

(** With a component token, a decoded answer holding both parts of the
    profile and assignments that go through, [update_authorizer_info] ends
    in [save_if_modified] on the assigned record. *)
Lemma update_authorizer_info_run (s s1 : state) (resp ai azi : pyval) :
  let r := authorizer_info_request app_id component_access_token (self_ s) in
  truthy component_access_token = true ->
  platform r = Ret resp ->
  py_get resp "authorizer_info" = Ret ai ->
  py_get resp "authorization_info" = Ret azi ->
  truthy ai = true -> truthy azi = true ->
  assign_authorizer_info repr ai azi
    (add_event (EvRequest r) (add_event EvComponentToken s)) = (Ret tt, s1) ->
  update_authorizer_info repr app_id component_access_token platform s =
    match save_if_modified s1 with
    | (Ret a, s') => (Ret a, s')
    | (Raise e, s') => (Ret NoneRet, add_event (EvLogError e) s')
    end.
Proof.
  intros r Hcat Hresp Hai Hazi Tai Tazi Hassign.
  unfold update_authorizer_info, try_except.
  rewrite (bind_run _ _ s (add_event EvComponentToken s) component_access_token)
    by reflexivity.
  rewrite Hcat. simpl (negb _). cbv iota.
  rewrite (bind_run _ _ _ (add_event EvComponentToken s)
             (getattr (self_ s) "appid")) by reflexivity.
  rewrite (bind_run _ _ _ (add_event (EvRequest r) (add_event EvComponentToken s))
             resp).
  2:{ unfold requests_post, bind, emit, modify, lift. fold r.
      cbv beta iota. fold (authorizer_info_request app_id component_access_token (self_ s)).
      fold r. by rewrite Hresp. }
  rewrite Hai. rewrite (bind_run _ _ _ _ ai) by reflexivity.
  rewrite Hazi. rewrite (bind_run _ _ _ _ azi) by reflexivity.
  rewrite Tai, Tazi. simpl (negb _). cbv iota.
  rewrite (bind_run _ _ _ _ _ Hassign).
  destruct (save_if_modified s1) as [[a|e] s']; reflexivity.
Qed.

(** C8.  Take a record for which the platform answers a profile of the
    shape the method reads, a database that answers and the stored row of
    the record; [vals] are the values the answer yields, the flag
    [authorized = True] among them.  If every one of these values equals
    the stored one, and the record agrees with its stored row on its other
    fields, [update_authorizer_info] returns the record without any write:
    the database, the writes of the trace and the update time are as
    before.  If one of the values, or another field of the record, differs
    from the stored one, exactly one UPDATE is sent; it names the update
    time, set to the clock reading, and every field of the answer with the
    value the answer yields, and the stored row then holds these values. *)
Theorem update_authorizer_info_writes (s : state) (resp ai azi : pyval)
    (vals : list (string * pyval)) (row : gmap string pyval) :
  let o := self_ s in
  let key := (db_table (inst_cls o), inst_id o) in
  let r := authorizer_info_request app_id component_access_token o in
  let stored := loaded (inst_cls o) (inst_id o) row in
  let s1 := set_self (setattrs o vals)
              (add_event (EvRequest r) (add_event EvComponentToken s)) in
  truthy component_access_token = true ->
  platform r = Ret resp ->
  py_get resp "authorizer_info" = Ret ai ->
  py_get resp "authorization_info" = Ret azi ->
  truthy ai = true -> truthy azi = true ->
  profile_values repr ai azi = Ret vals ->
  db_ok s = true ->
  db s !! key = Some row ->
  ((forall f v, In (f, v) vals -> py_eqb v (getattr stored f) = true) ->
   (forall f, In f (sorted_field_names (inst_cls o)) ->
      ~ In f profile_fields ->
      py_eqb (getattr o f) (getattr stored f) = true) ->
   update_authorizer_info repr app_id component_access_token platform s =
     (Ret Self, s1) /\
   db s1 = db s /\
   db_writes (trace s1) = db_writes (trace s) /\
   getattr (self_ s1) "update_time" = getattr o "update_time") /\
  ((exists f v, In (f, v) vals /\ In f (sorted_field_names (inst_cls o)) /\
      py_eqb v (getattr stored f) = false) \/
   (exists f, In f (sorted_field_names (inst_cls o)) /\
      ~ In f profile_fields /\
      py_eqb (getattr o f) (getattr stored f) = false) ->
   exists s' fields,
     update_authorizer_info repr app_id component_access_token platform s =
       (Ret Self, s') /\
     db_writes (trace s') =
       EvDbUpdate (db_table (inst_cls o)) (inst_id o) fields
       :: db_writes (trace s) /\
     fields !! "update_time" = Some (PTime (datetime_now s)) /\
     (forall g v, In (g, v) vals ->
        fields !! g = Some v /\ stored_field (db s') key g = Some v)).
Proof.
  intros o key r stored s1 Hcat Hresp Hai Hazi Tai Tazi Hvals Hok Hrow.
  set (s0 := add_event (EvRequest r) (add_event EvComponentToken s)) in *.
  destruct (profile_values_assigned ai azi vals s0 Hvals) as [Hl Hassign].
  change (set_self (setattrs (self_ s0) vals) s0) with s1 in Hassign.
  pose proof (update_authorizer_info_run s s1 resp ai azi
                Hcat Hresp Hai Hazi Tai Tazi Hassign) as Hrun.
  set (o1 := setattrs o vals) in *.
  assert (Hcls : inst_cls o1 = inst_cls o) by apply setattrs_cls.
  assert (Hid : inst_id o1 = inst_id o) by apply setattrs_id.
  assert (Hrow1 : db s1 !! (db_table (inst_cls (self_ s1)), inst_id (self_ s1))
                  = Some row).
  { simpl. by rewrite Hcls, Hid. }
  assert (Hok1 : db_ok s1 = true) by done.
  assert (Hget : forall g v, In (g, v) vals -> getattr o1 g = v).
  { intros g v Hg. apply getattr_setattrs_in; [|exact Hg|].
    - rewrite Hl. apply profile_fields_NoDup.
    - apply (in_map fst) in Hg. rewrite Hl in Hg. simpl in Hg.
      intros ->. by apply profile_fields_not_id in Hg. }
  split.
  - intros Hsame Hrest.
    rewrite (save_if_modified_unchanged _ row Hok1 Hrow1) in Hrun.
    + split; [exact Hrun|]. split; [reflexivity|]. split; [reflexivity|].
      apply getattr_setattrs_other. rewrite Hl. clear.
      unfold profile_fields. simpl. intros H.
      repeat (destruct H as [H|H]; [discriminate H|]). done.
    + apply differing_nil. simpl. rewrite Hcls, Hid. intros f Hf.
      destruct (in_dec string_dec f profile_fields) as [Hin|Hout].
      * rewrite <- Hl in Hin. apply in_map_iff in Hin as ([g v] & <- & Hgv).
        simpl. rewrite (Hget g v Hgv). by apply Hsame.
      * unfold o1. rewrite getattr_setattrs_other by (by rewrite Hl).
        by apply Hrest.
  - intros Hdiff.
    rewrite (save_if_modified_changed _ row Hok1 Hrow1) in Hrun.
    2:{ intros Hnil. pose proof (proj1 (differing_nil o1 row) Hnil) as Hall.
        simpl in Hall. fold o1 in Hall. rewrite Hcls, Hid in Hall.
        fold stored in Hall.
        destruct Hdiff as [(f & v & Hfv & Hf & Hne) | (f & Hf & Hout & Hne)].
        - specialize (Hall f Hf). rewrite (Hget f v Hfv) in Hall. congruence.
        - specialize (Hall f Hf). unfold o1 in Hall.
          rewrite getattr_setattrs_other in Hall by (by rewrite Hl).
          congruence. }
    cbv zeta in Hrun. simpl self_ in Hrun. simpl datetime_now in Hrun.
    simpl db in Hrun.
    set (o2 := setattr o1 "update_time" (PTime (datetime_now s))) in *.
    eexists _, (field_dict o2). split; [exact Hrun|].
    split; [simpl; by rewrite Hcls, Hid|].
    split; [apply field_dict_setattr_eq|].
    intros g v Hgv.
    assert (Hg : In g profile_fields).
    { rewrite <- Hl. by apply (in_map fst) in Hgv. }
    assert (Hg1 : In g (map fst vals)) by (by rewrite Hl).
    assert (Hgid : g <> "id").
    { intros ->. by apply profile_fields_not_id in Hg. }
    assert (Hgt : "update_time" <> g).
    { intros <-. clear -Hg. unfold profile_fields in Hg. simpl in Hg.
      repeat (destruct Hg as [Hg|Hg]; [discriminate Hg|]). done. }
    assert (Hfd : field_dict o2 !! g = Some v).
    { unfold o2. rewrite field_dict_setattr_ne by done.
      rewrite <- (Hget g v Hgv). by apply field_dict_setattrs. }
    split; [exact Hfd|]. simpl.
    assert (Hkey : key = (db_table (inst_cls o2), inst_id o2)).
    { unfold key. simpl. by rewrite Hcls, Hid. }
    rewrite Hkey. apply update_row_written; [|exact Hfd].
    rewrite <- Hkey. by eexists.
Qed.

End ProfileSync.

(** ** The events of a run *)

Section Emits.

Variable P : event -> Prop.

Lemma emits_reader {A} (f : state -> outcome A) :
  emits_only P (fun s => (f s, s)).
Proof. intros s r s' [= <- <-]. by exists []. Qed.

Lemma emits_ret {A} (a : A) : emits_only P (ret a).
Proof. apply (emits_reader (fun _ => Ret a)). Qed.

Lemma emits_raise {A} (e : exn) : emits_only P (@raise A e).
Proof. apply (emits_reader (fun _ => Raise e)). Qed.

Lemma emits_lift {A} (o : outcome A) : emits_only P (lift o).
Proof. apply (emits_reader (fun _ => o)). Qed.

Lemma emits_modify (f : state -> state) :
  (forall s, trace (f s) = trace s) -> emits_only P (modify f).
Proof. intros Hf s r s' [= <- <-]. exists []. by rewrite Hf. Qed.

Lemma emits_emit (e : event) : P e -> emits_only P (emit e).
Proof.
  intros He s r s' [= <- <-]. exists [e]. split; [done|]. by constructor.
Qed.

Lemma emits_bind {A B} (m : M A) (k : A -> M B) :
  emits_only P m -> (forall a, emits_only P (k a)) -> emits_only P (bind m k).
Proof.
  intros Hm Hk s r s' Hrun. unfold bind in Hrun.
  destruct (m s) as [[a|e] s1] eqn:E.
  - destruct (Hm _ _ _ E) as (evs1 & Ht1 & HP1).
    destruct (Hk a _ _ _ Hrun) as (evs2 & Ht2 & HP2).
    exists (evs2 ++ evs1)%list. split.
    + by rewrite Ht2, Ht1, app_assoc.
    + by apply Forall_app.
  - injection Hrun as <- <-. by apply (Hm _ _ _ E).
Qed.

Lemma emits_try_except {A} (m : M A) (h : exn -> M A) :
  emits_only P m -> (forall e, emits_only P (h e)) ->
  emits_only P (try_except m h).
Proof.
  intros Hm Hh s r s' Hrun. unfold try_except in Hrun.
  destruct (m s) as [[a|e] s1] eqn:E.
  - injection Hrun as <- <-. by apply (Hm _ _ _ E).
  - destruct (Hm _ _ _ E) as (evs1 & Ht1 & HP1).
    destruct (Hh e _ _ _ Hrun) as (evs2 & Ht2 & HP2).
    exists (evs2 ++ evs1)%list. split.
    + by rewrite Ht2, Ht1, app_assoc.
    + by apply Forall_app.
Qed.

End Emits.

(** One step of a proof that a method emits only events of a kind: by the
    shape of the method. *)
Ltac emits_step :=
  first
    [ apply emits_ret | apply emits_raise | apply emits_lift
    | apply emits_reader
    | apply emits_emit; reflexivity
    | apply emits_modify; reflexivity
    | apply emits_bind; [|intros ?]
    | apply emits_try_except; [|intros ?]
    | match goal with
      | |- emits_only _ (if ?b then _ else _) => destruct b
      | |- emits_only _ (match ?x with _ => _ end) => destruct x
      end ].

Lemma save_no_ticket :
  emits_only (fun e => is_ticket_request e = false) save.
Proof. unfold save. repeat emits_step. Qed.

Lemma update_refresh_token_no_ticket (refresh_token : pyval) :
  emits_only (fun e => is_ticket_request e = false)
    (update_refresh_token refresh_token).
Proof.
  unfold update_refresh_token, logger_error, assign, now, self_attr.
  repeat first [apply save_no_ticket | emits_step].
Qed.

(** ** The credential chain *)

Section Broker.

Variable repr : pyval -> string.
Variable app_id : pyval.
Variable component_access_token : pyval.
Variable platform : request -> outcome pyval.

Local Abbreviation get_access_token' :=
  (get_access_token repr app_id component_access_token platform).
Local Abbreviation get_ticket' :=
  (get_ticket repr app_id component_access_token platform).

(** [update_refresh_token] never raises. *)
Lemma update_refresh_token_returns (refresh_token : pyval) (s : state) :
  exists r s', update_refresh_token refresh_token s = (Ret r, s').
Proof.
  unfold update_refresh_token, try_except.
  match goal with |- context [bind ?m ?k s] => destruct (bind m k s) as [[r|e] s'] end.
  - by exists r, s'.
  - by exists NoneRet, (add_event (EvLogError e) s').
Qed.

(** The first two statements of [get_access_token]: build the key and look
    it up. *)
Local Ltac lookup_access_token s :=
  unfold get_access_token;
  rewrite (bind_run _ _ s s (getattr (self_ s) "appid")) by reflexivity;
  erewrite (bind_run _ _ s s); [|unfold redis_get; reflexivity];
  change ("wx_authorizer:" ++ py_str repr (getattr (self_ s) "appid") ++
          ":access_token")
    with (cache_key repr (self_ s) "access_token").

(** A cache hit: the cached token is returned and nothing else happens. *)
Lemma get_access_token_hit (s : state) (token : string) :
  cached s (cache_key repr (self_ s) "access_token") = Some token ->
  token <> "" ->
  get_access_token' s = (Ret (PStr token), s).
Proof.
  intros Hhit Hne. lookup_access_token s.
  rewrite Hhit. by destruct token.
Qed.

(** A cache miss with no component token: nothing is fetched or cached. *)
Lemma get_access_token_no_component (s : state) :
  cache_miss s (cache_key repr (self_ s) "access_token") ->
  truthy component_access_token = false ->
  get_access_token' s = (Ret PNone, add_event EvComponentToken s).
Proof.
  intros Hmiss Hcat. lookup_access_token s.
  destruct Hmiss as [Hc | Hc]; rewrite Hc;
    (rewrite (bind_run _ _ s (add_event EvComponentToken s)
                component_access_token) by reflexivity;
     by rewrite Hcat).
Qed.

(** What [update_refresh_token] leaves alone: the cache, the cache writes
    and the fetches of the trace, and the appid of the record. *)
Lemma update_refresh_token_frame (refresh_token : pyval) (s : state) :
  exists r s',
    update_refresh_token refresh_token s = (Ret r, s') /\
    redis s' = redis s /\
    redis_sets (trace s') = redis_sets (trace s) /\
    fetches (trace s') = fetches (trace s) /\
    getattr (self_ s') "appid" = getattr (self_ s) "appid".
Proof.
  destruct (py_eqb (getattr (self_ s) "refresh_token") refresh_token) eqn:E.
  - exists Self, s. split; [|done].
    unfold update_refresh_token, try_except.
    unfold bind at 1 2. unfold self_attr, py_ne. by rewrite E.
  - assert (Hrun : update_refresh_token refresh_token s =
      match (assign "refresh_token" refresh_token ;;
             (let* t := now in assign "update_time" t) ;; save) s with
      | (Ret _, s') => (Ret Self, s')
      | (Raise e, s') => (Ret NoneRet, add_event (EvLogError e) s')
      end).
    { unfold update_refresh_token, try_except.
      unfold bind at 1 2. unfold self_attr, py_ne. rewrite E.
      simpl (negb _). cbv iota.
      match goal with |- context [bind ?m ?k s] => destruct (bind m k s) as [[[]|e] s1] end;
        reflexivity. }
    rewrite touch_and_save in Hrun. cbv zeta in Hrun.
    assert (Happid : getattr (touch "refresh_token" refresh_token
                               (datetime_now s) (self_ s)) "appid" =
                     getattr (self_ s) "appid").
    { unfold touch. by rewrite !getattr_setattr_ne. }
    destruct (db_ok s); eexists _, _; (split; [exact Hrun|]); simpl;
      by rewrite ?getattr_clean, Happid.
Qed.

(** From a cache miss to the answer of the platform. *)
Local Ltac fetch_access_token s Hmiss Hcat Hresp :=
  lookup_access_token s;
  let r := constr:(authorizer_token_request app_id component_access_token
                     (self_ s)) in
  let s2 := constr:(add_event (EvRequest r) (add_event EvComponentToken s)) in
  destruct Hmiss as [Hmiss | Hmiss]; rewrite Hmiss;
  (rewrite (bind_run _ _ s (add_event EvComponentToken s)
              component_access_token) by reflexivity;
   rewrite Hcat; simpl (negb _); cbv iota;
   rewrite (bind_run _ _ _ (add_event EvComponentToken s)
              (getattr (self_ s) "refresh_token")) by reflexivity;
   erewrite (bind_run _ _ _ s2);
   [|unfold requests_post, bind, emit, modify, lift; cbv beta iota zeta;
     change (platform _) with (platform r); rewrite Hresp; reflexivity]).

(** A cache miss answered with a JSON object that lacks a required key:
    nothing is cached or written. *)
Lemma get_access_token_partial (s : state) (d : list (string * pyval)) :
  let r := authorizer_token_request app_id component_access_token (self_ s) in
  cache_miss s (cache_key repr (self_ s) "access_token") ->
  truthy component_access_token = true ->
  platform r = Ret (PDict d) ->
  missing d "authorizer_access_token" \/ missing d "expires_in" \/
    missing d "authorizer_refresh_token" ->
  get_access_token' s =
    (Ret PNone, add_event (EvRequest r) (add_event EvComponentToken s)).
Proof.
  intros r Hmiss Hcat Hresp Hpart. subst r.
  assert (Hall : py_all [default PNone (assoc "authorizer_access_token" d);
                         default PNone (assoc "expires_in" d);
                         default PNone (assoc "authorizer_refresh_token" d)]
                 = false).
  { unfold missing in Hpart. unfold py_all. simpl.
    destruct Hpart as [-> | [-> | ->]]; simpl;
      rewrite ?andb_false_r; reflexivity. }
  fetch_access_token s Hmiss Hcat Hresp;
    (cbn [py_get];
     do 3 (erewrite bind_run; [|reflexivity]);
     unfold py_all in *; cbn [forallb] in *;
     by rewrite Hall).
Qed.

(** A cache miss answered in full: the refresh token is rotated, then the
    access token is cached for [expires_in - 600] seconds and returned. *)
Lemma get_access_token_fetched (s : state) (resp access_token expires_in
    refresh_token : pyval) (n : Z) :
  let r := authorizer_token_request app_id component_access_token (self_ s) in
  let key := cache_key repr (self_ s) "access_token" in
  cache_miss s key ->
  truthy component_access_token = true ->
  platform r = Ret resp ->
  py_get resp "authorizer_access_token" = Ret access_token ->
  py_get resp "expires_in" = Ret expires_in ->
  py_get resp "authorizer_refresh_token" = Ret refresh_token ->
  py_all [access_token; expires_in; refresh_token] = true ->
  py_int expires_in = Ret n ->
  exists u s3,
    update_refresh_token refresh_token
      (add_event (EvRequest r) (add_event EvComponentToken s)) = (Ret u, s3) /\
    get_access_token' s =
      (Ret access_token,
       set_redis (<[key := (py_str repr access_token, n - 600)]> (redis s3))
         (add_event (EvRedisSet key (py_str repr access_token) (n - 600)) s3)).
Proof.
  intros r key Hmiss Hcat Hresp Hat Hei Hrt Hall Hn. subst r key.
  destruct (update_refresh_token_returns refresh_token
              (add_event
                 (EvRequest (authorizer_token_request app_id
                               component_access_token (self_ s)))
                 (add_event EvComponentToken s)))
    as (u & s3 & Hrot).
  exists u, s3. split; [exact Hrot|].
  fetch_access_token s Hmiss Hcat Hresp;
    (rewrite Hat, Hei, Hrt;
     do 3 (erewrite bind_run; [|reflexivity]);
     unfold py_all in *; cbn [forallb] in *;
     rewrite Hall; simpl (negb _); cbv iota;
     erewrite bind_run; [|exact Hrot];
     rewrite Hn; erewrite bind_run; [|reflexivity];
     reflexivity).
Qed.

(** The first two statements of a ticket method. *)
Local Ltac lookup_ticket s suffix :=
  unfold get_ticket;
  rewrite (bind_run _ _ s s (getattr (self_ s) "appid")) by reflexivity;
  erewrite (bind_run _ _ s s); [|unfold redis_get; reflexivity];
  change ("wx_authorizer:" ++ py_str repr (getattr (self_ s) "appid") ++
          ":" ++ suffix)
    with (cache_key repr (self_ s) suffix).

(** A ticket found in the cache is returned and nothing else happens. *)
Lemma get_ticket_hit (suffix type : string) (s : state) (ticket : string) :
  cached s (cache_key repr (self_ s) suffix) = Some ticket ->
  ticket <> "" ->
  get_ticket' suffix type s = (Ret (PStr ticket), s).
Proof.
  intros Hhit Hne. lookup_ticket s suffix.
  rewrite Hhit. by destruct ticket.
Qed.

(** Without an access token no ticket is asked for: the method stops in the
    state [get_access_token] left. *)
Lemma get_ticket_no_access_token (suffix type : string) (s s1 : state)
    (access_token : pyval) :
  cache_miss s (cache_key repr (self_ s) suffix) ->
  get_access_token' s = (Ret access_token, s1) ->
  truthy access_token = false ->
  get_ticket' suffix type s = (Ret PNone, s1).
Proof.
  intros Hmiss Hat Hfalsy. lookup_ticket s suffix.
  destruct Hmiss as [Hmiss | Hmiss]; rewrite Hmiss;
    (erewrite bind_run; [|exact Hat]; by rewrite Hfalsy).
Qed.

(** From a cache miss, through the access token, to the answer of the
    ticket endpoint. *)
Local Ltac fetch_ticket s suffix Hmiss Hat Htruthy Hresp :=
  lookup_ticket s suffix;
  destruct Hmiss as [Hmiss | Hmiss]; rewrite Hmiss;
  (erewrite bind_run; [|exact Hat];
   rewrite Htruthy; simpl (negb _); cbv iota;
   erewrite bind_run;
   [|unfold requests_get, bind, emit, modify, lift; cbv beta iota zeta;
     match type of Hresp with
     | platform ?r = _ => change (platform _) with (platform r)
     end;
     rewrite Hresp; reflexivity]).

(** A ticket answer that lacks a required key: nothing is cached. *)
Lemma get_ticket_partial (suffix type : string) (s s1 : state)
    (access_token : pyval) (d : list (string * pyval)) :
  cache_miss s (cache_key repr (self_ s) suffix) ->
  get_access_token' s = (Ret access_token, s1) ->
  truthy access_token = true ->
  platform (ticket_request access_token type) = Ret (PDict d) ->
  missing d "ticket" \/ missing d "expires_in" ->
  get_ticket' suffix type s =
    (Ret PNone, add_event (EvRequest (ticket_request access_token type)) s1).
Proof.
  intros Hmiss Hat Htruthy Hresp Hpart.
  assert (Hboth : truthy (default PNone (assoc "ticket" d)) &&
                  truthy (default PNone (assoc "expires_in" d)) = false).
  { unfold missing in Hpart. destruct Hpart as [-> | ->]; simpl;
      rewrite ?andb_false_r; reflexivity. }
  fetch_ticket s suffix Hmiss Hat Htruthy Hresp;
    (cbn [py_get];
     do 2 (erewrite bind_run; [|reflexivity]);
     by rewrite Hboth).
Qed.

(** A ticket answer in full: the ticket is cached for [expires_in - 600]
    seconds and returned. *)
Lemma get_ticket_fetched (suffix type : string) (s s1 : state)
    (access_token resp ticket expires_in : pyval) (n : Z) :
  let key := cache_key repr (self_ s) suffix in
  let s2 := add_event (EvRequest (ticket_request access_token type)) s1 in
  cache_miss s key ->
  get_access_token' s = (Ret access_token, s1) ->
  truthy access_token = true ->
  platform (ticket_request access_token type) = Ret resp ->
  py_get resp "ticket" = Ret ticket ->
  py_get resp "expires_in" = Ret expires_in ->
  truthy ticket = true -> truthy expires_in = true ->
  py_int expires_in = Ret n ->
  get_ticket' suffix type s =
    (Ret ticket,
     set_redis (<[key := (py_str repr ticket, n - 600)]> (redis s2))
       (add_event (EvRedisSet key (py_str repr ticket) (n - 600)) s2)).
Proof.
  intros key s2 Hmiss Hat Htruthy Hresp Hticket Hei Tt Te Hn. subst key s2.
  fetch_ticket s suffix Hmiss Hat Htruthy Hresp;
    (rewrite Hticket, Hei;
     do 2 (erewrite bind_run; [|reflexivity]);
     rewrite Tt, Te; simpl (negb _); cbv iota;
     rewrite Hn; erewrite bind_run; [|reflexivity];
     reflexivity).
Qed.

(** [get_access_token] sends nothing to the ticket endpoint, however it
    ends. *)
Lemma get_access_token_no_ticket :
  emits_only (fun e => is_ticket_request e = false) get_access_token'.
Proof.
  unfold get_access_token, get_component_access_token, requests_post,
    redis_get, redis_set, self_attr.
  repeat first [apply update_refresh_token_no_ticket | emits_step].
Qed.

(** C3, as the code has it.  A fetched credential is cached with a time
    to live of [expires_in - 600] seconds, whatever its sign: for an access
    token answered in full, and for a ticket answered in full, exactly one
    cache write is made, under the key of the credential, with that time to
    live, and the cache then holds the credential with it. *)
Theorem refresh_ahead_ttl :
  (forall (s : state) (resp access_token expires_in refresh_token : pyval)
          (n : Z),
     let r := authorizer_token_request app_id component_access_token (self_ s) in
     let key := cache_key repr (self_ s) "access_token" in
     cache_miss s key ->
     truthy component_access_token = true ->
     platform r = Ret resp ->
     py_get resp "authorizer_access_token" = Ret access_token ->
     py_get resp "expires_in" = Ret expires_in ->
     py_get resp "authorizer_refresh_token" = Ret refresh_token ->
     py_all [access_token; expires_in; refresh_token] = true ->
     py_int expires_in = Ret n ->
     exists s',
       get_access_token' s = (Ret access_token, s') /\
       redis_sets (trace s') =
         EvRedisSet key (py_str repr access_token) (n - 600)
         :: redis_sets (trace s) /\
       redis s' !! key = Some (py_str repr access_token, n - 600)) /\
  (forall (suffix type : string) (s s1 : state)
          (access_token resp ticket expires_in : pyval) (n : Z),
     let key := cache_key repr (self_ s) suffix in
     cache_miss s key ->
     get_access_token' s = (Ret access_token, s1) ->
     truthy access_token = true ->
     platform (ticket_request access_token type) = Ret resp ->
     py_get resp "ticket" = Ret ticket ->
     py_get resp "expires_in" = Ret expires_in ->
     truthy ticket = true -> truthy expires_in = true ->
     py_int expires_in = Ret n ->
     exists s',
       get_ticket' suffix type s = (Ret ticket, s') /\
       redis_sets (trace s') =
         EvRedisSet key (py_str repr ticket) (n - 600)
         :: redis_sets (trace s1) /\
       redis s' !! key = Some (py_str repr ticket, n - 600)).
Proof.
  split.
  - intros s resp access_token expires_in refresh_token n r key
      Hmiss Hcat Hresp Hat Hei Hrt Hall Hn.
    destruct (get_access_token_fetched s resp access_token expires_in
                refresh_token n Hmiss Hcat Hresp Hat Hei Hrt Hall Hn)
      as (u & s3 & Hrot & Hrun).
    destruct (update_refresh_token_frame refresh_token
                (add_event (EvRequest r) (add_event EvComponentToken s)))
      as (u' & s3' & Hrot' & _ & Hsets & _).
    fold r in Hrot. rewrite Hrot in Hrot'. injection Hrot' as <- <-.
    eexists. split; [exact Hrun|]. split.
    + simpl. by rewrite Hsets.
    + simpl. apply lookup_insert_eq.
  - intros suffix type s s1 access_token resp ticket expires_in n key
      Hmiss Hat Htruthy Hresp Hticket Hei Tt Te Hn.
    eexists. split.
    + by apply (get_ticket_fetched suffix type s s1 access_token resp ticket
                  expires_in n).
    + split; [reflexivity|]. simpl. apply lookup_insert_eq.
Qed.

(** C6.  The credential chain answers absent, without raising, when a
    dependency is absent or a required key is missing.  From a cache miss:
    [get_access_token] returns [None] having only asked for the component
    token when that token is absent, and having only asked for it and posted
    the token request when the JSON object answered lacks one of the three
    required keys; in both cases the cache and the database are untouched.
    A ticket method returns [None] in the very state [get_access_token] left
    when the access token is absent, and no request to the ticket endpoint
    has been added to the trace; it returns [None] having only sent the
    ticket request, with nothing cached, when the JSON object answered lacks
    the ticket or its expiry. *)
Theorem credential_chain_absent :
  (forall s : state,
     cache_miss s (cache_key repr (self_ s) "access_token") ->
     truthy component_access_token = false ->
     get_access_token' s = (Ret PNone, add_event EvComponentToken s)) /\
  (forall (s : state) (d : list (string * pyval)),
     let r := authorizer_token_request app_id component_access_token (self_ s) in
     cache_miss s (cache_key repr (self_ s) "access_token") ->
     truthy component_access_token = true ->
     platform r = Ret (PDict d) ->
     missing d "authorizer_access_token" \/ missing d "expires_in" \/
       missing d "authorizer_refresh_token" ->
     get_access_token' s =
       (Ret PNone, add_event (EvRequest r) (add_event EvComponentToken s))) /\
  (forall (suffix type : string) (s s1 : state) (access_token : pyval),
     cache_miss s (cache_key repr (self_ s) suffix) ->
     get_access_token' s = (Ret access_token, s1) ->
     truthy access_token = false ->
     get_ticket' suffix type s = (Ret PNone, s1) /\
     (forall e, In e (trace s1) -> is_ticket_request e = true ->
                In e (trace s))) /\
  (forall (suffix type : string) (s s1 : state) (access_token : pyval)
          (d : list (string * pyval)),
     cache_miss s (cache_key repr (self_ s) suffix) ->
     get_access_token' s = (Ret access_token, s1) ->
     truthy access_token = true ->
     platform (ticket_request access_token type) = Ret (PDict d) ->
     missing d "ticket" \/ missing d "expires_in" ->
     get_ticket' suffix type s =
       (Ret PNone,
        add_event (EvRequest (ticket_request access_token type)) s1)).
Proof.
  split; [|split; [|split]].
  - apply get_access_token_no_component.
  - apply get_access_token_partial.
  - intros suffix type s s1 access_token Hmiss Hat Hfalsy. split.
    + by apply (get_ticket_no_access_token suffix type s s1 access_token).
    + intros e Hin Hticket.
      destruct (get_access_token_no_ticket _ _ _ Hat) as (evs & Htrace & Hevs).
      rewrite Htrace in Hin. apply in_app_iff in Hin as [Hin|Hin]; [|done].
      rewrite Forall_forall in Hevs.
      apply list_elem_of_In, Hevs in Hin. congruence.
  - apply get_ticket_partial.
Qed.

(** C7.  When the cache holds a non-empty access token under the key of
    the record, [get_access_token] returns it and leaves the state as it
    was: no component-token fetch, no platform request, no write.  And
    when a call from a cache miss fetches a token that lives longer than
    600 seconds, it asks for the component token once and posts one token
    request, and the call that follows returns the cached token and leaves
    the state as it was. *)
Theorem get_access_token_cached :
  (forall (s : state) (token : string),
     cached s (cache_key repr (self_ s) "access_token") = Some token ->
     token <> "" ->
     get_access_token' s = (Ret (PStr token), s)) /\
  (forall (s : state) (resp access_token expires_in refresh_token : pyval)
          (n : Z),
     let r := authorizer_token_request app_id component_access_token (self_ s) in
     cache_miss s (cache_key repr (self_ s) "access_token") ->
     truthy component_access_token = true ->
     platform r = Ret resp ->
     py_get resp "authorizer_access_token" = Ret access_token ->
     py_get resp "expires_in" = Ret expires_in ->
     py_get resp "authorizer_refresh_token" = Ret refresh_token ->
     py_all [access_token; expires_in; refresh_token] = true ->
     py_int expires_in = Ret n ->
     600 < n ->
     py_str repr access_token <> "" ->
     exists s',
       get_access_token' s = (Ret access_token, s') /\
       fetches (trace s') =
         EvRequest r :: EvComponentToken :: fetches (trace s) /\
       get_access_token' s' = (Ret (PStr (py_str repr access_token)), s')).
Proof.
  split; [apply get_access_token_hit|].
  intros s resp access_token expires_in refresh_token n r
    Hmiss Hcat Hresp Hat Hei Hrt Hall Hn Hlong Hne.
  destruct (get_access_token_fetched s resp access_token expires_in
              refresh_token n Hmiss Hcat Hresp Hat Hei Hrt Hall Hn)
    as (u & s3 & Hrot & Hrun).
  destruct (update_refresh_token_frame refresh_token
              (add_event (EvRequest r) (add_event EvComponentToken s)))
    as (u' & s3' & Hrot' & _ & _ & Hfetch & Happid).
  fold r in Hrot. rewrite Hrot in Hrot'. injection Hrot' as <- <-.
  eexists. split; [exact Hrun|]. split.
  - simpl. by rewrite Hfetch.
  - apply get_access_token_hit; [|exact Hne].
    unfold cached, cache_key. simpl. simpl in Happid. rewrite Happid.
    rewrite lookup_insert_eq.
    assert ((0 <? n - 600) = true) as -> by (apply Z.ltb_lt; lia).
    reflexivity.
Qed.

End Broker.

(** ** Sorting and signing *)

Lemma ascii_compare_N (a b : ascii) :
  Ascii.compare a b = N.compare (N_of_ascii a) (N_of_ascii b).
Proof. reflexivity. Qed.

Lemma string_leb_cons (a b : ascii) (x y : string) :
  String.leb (String a x) (String b y) = true <->
  (N_of_ascii a < N_of_ascii b)%N \/ (a = b /\ String.leb x y = true).
Proof.
  unfold String.leb. simpl. rewrite ascii_compare_N.
  destruct (N.compare_spec (N_of_ascii a) (N_of_ascii b)) as [E|L|G].
  - assert (a = b) as ->.
    { rewrite <- (ascii_N_embedding a), <- (ascii_N_embedding b). by rewrite E. }
    split; [by right|]. intros [H|[_ H]]; [lia|done].
  - split; [by left|done].
  - split; [done|]. intros [H|[-> _]]; lia.
Qed.

Lemma string_leb_trans (x y z : string) :
  String.leb x y = true -> String.leb y z = true -> String.leb x z = true.
Proof.
  revert y z. induction x as [|a x IH]; intros [|b y] [|c z]; try done.
  rewrite !string_leb_cons.
  intros [Hab|[-> Hxy]] [Hbc|[-> Hyz]].
  - left. lia.
  - by left.
  - by left.
  - right. split; [done|]. by apply (IH y).
Qed.

Lemma insert_sorted_perm (x : string) (l : list string) :
  Permutation (insert_sorted x l) (x :: l).
Proof.
  induction l as [|y l IH]; simpl; [done|].
  destruct (String.leb x y); [done|].
  rewrite IH. apply perm_swap.
Qed.

Lemma sort_perm (l : list string) : Permutation (sort l) l.
Proof.
  induction l as [|x l IH]; simpl; [done|].
  rewrite insert_sorted_perm. by constructor.
Qed.

Lemma insert_sorted_sorted (x : string) (l : list string) :
  sorted_bytes l -> sorted_bytes (insert_sorted x l).
Proof.
  unfold sorted_bytes. induction 1 as [|y l Hl IH Hy]; simpl.
  - repeat constructor.
  - destruct (String.leb x y) eqn:E.
    + constructor; [by constructor|]. constructor; [done|].
      eapply Forall_impl; [exact Hy|]. simpl. intros z Hz.
      by apply (string_leb_trans x y z).
    + constructor; [done|].
      apply (Permutation_Forall (Permutation_sym (insert_sorted_perm x l))).
      constructor; [|done].
      destruct (String.leb_total x y) as [H|H]; congruence.
Qed.

Lemma sort_sorted (l : list string) : sorted_bytes (sort l).
Proof.
  induction l as [|x l IH]; simpl; [constructor|].
  by apply insert_sorted_sorted.
Qed.

(** Two sorted lists with the same elements are the same list. *)
Lemma sorted_bytes_unique (l1 l2 : list string) :
  sorted_bytes l1 -> sorted_bytes l2 -> Permutation l1 l2 -> l1 = l2.
Proof.
  unfold sorted_bytes. intros H1. revert l2.
  induction H1 as [|x l1 Hl1 IH Hx]; intros l2 H2 Hperm.
  - by apply Permutation_nil in Hperm.
  - destruct H2 as [|y l2 Hl2 Hy].
    + by apply Permutation_sym, Permutation_nil in Hperm.
    + assert (x = y) as ->.
      { apply String.leb_antisym.
        - assert (Hin : In y (x :: l1))
            by (apply (Permutation_in _ (Permutation_sym Hperm)); by left).
          destruct Hin as [->|Hin].
          + destruct (String.leb_total y y); done.
          + rewrite Forall_forall in Hx. apply Hx. by apply list_elem_of_In.
        - assert (Hin : In x (y :: l2))
            by (apply (Permutation_in _ Hperm); by left).
          destruct Hin as [->|Hin].
          + destruct (String.leb_total x x); done.
          + rewrite Forall_forall in Hy. apply Hy. by apply list_elem_of_In. }
      f_equal. apply IH; [done|]. by apply Permutation_cons_inv in Hperm.
Qed.

(** Sorting forgets the order the items came in. *)
Lemma sort_permutation (l1 l2 : list string) :
  Permutation l1 l2 -> sort l1 = sort l2.
Proof.
  intros Hperm. apply sorted_bytes_unique; try apply sort_sorted.
  by rewrite !sort_perm.
Qed.

Section Signing.

Variable repr : pyval -> string.
Variable sha1_hexdigest : string -> string.
Variable app_id : pyval.
Variable component_access_token : pyval.
Variable platform : request -> outcome pyval.

(** C4.  Two parameter dicts whose values are the same up to order,
    whatever their keys, signed with the same card ticket, get the same
    signature, and that signature is the SHA-1 digest of the concatenation
    of a list that holds exactly the values and the ticket and is in
    byte-wise lexicographic order. *)
Theorem generate_card_sign_deterministic
    (data1 data2 : gmap string string) (s1 s1' s2 s2' : state)
    (ticket : string) :
  get_card_api_ticket repr app_id component_access_token platform s1 =
    (Ret (PStr ticket), s1') ->
  get_card_api_ticket repr app_id component_access_token platform s2 =
    (Ret (PStr ticket), s2') ->
  ticket <> "" ->
  Permutation (values data1) (values data2) ->
  exists items,
    Permutation items (values data1 ++ [ticket]) /\
    sorted_bytes items /\
    generate_card_sign repr sha1_hexdigest app_id component_access_token
      platform data1 s1 =
      (Ret (PStr (sha1_hexdigest (join items))), s1') /\
    generate_card_sign repr sha1_hexdigest app_id component_access_token
      platform data2 s2 =
      (Ret (PStr (sha1_hexdigest (join items))), s2').
Proof.
  intros Ht1 Ht2 Hne Hperm.
  exists (sort (values data1 ++ [ticket])).
  split; [apply sort_perm|]. split; [apply sort_sorted|].
  assert (Htruthy : truthy (PStr ticket) = true).
  { simpl. apply negb_true_iff. by apply String.eqb_neq. }
  split.
  - unfold generate_card_sign. erewrite bind_run; [|exact Ht1].
    by rewrite Htruthy.
  - unfold generate_card_sign. erewrite bind_run; [|exact Ht2].
    rewrite Htruthy. simpl (negb _). cbv iota beta. unfold ret.
    rewrite (sort_permutation (values data1 ++ [ticket])
               (values data2 ++ [ticket])); [done|].
    by apply Permutation_app_tail.
Qed.

End Signing.

(** * The statements at sample inputs *)

(** A token issued for admin 7 with a validity of 7 days validates, in the
    same state, to the stored record of admin 7. *)
Lemma token_round_trip_sample :
  let s := sample_state Admin 7 sample_admin_row ∅ in
  exists token,
    generate_token sample_encrypt 7 s = (Ret token, s) /\
    query_by_token sample_decrypt Admin token s =
      (Ret (Some (loaded Admin 7 sample_admin_row)), s).
Proof.
  apply (token_round_trip sample_encrypt sample_decrypt 7 Admin
           (sample_state Admin 7 sample_admin_row ∅)
           (sample_state Admin 7 sample_admin_row ∅) sample_admin_row).
  - intros p. reflexivity.
  - vm_compute. reflexivity.
  - reflexivity.
  - vm_compute. reflexivity.
Defined.

(** A token whose expiry, 100, lies in the past is rejected, and so is one
    with a foreign tag. *)
Lemma query_by_token_rejects_sample :
  let s := sample_state Admin 7 sample_admin_row ∅ in
  (exists e, query_by_token sample_decrypt Admin "v1.admin:7:100" s =
               (Ret None, add_event (EvLogError e) s)) /\
  (exists e, query_by_token sample_decrypt Admin "v1.user:7:1800000000" s =
               (Ret None, add_event (EvLogError e) s)).
Proof.
  split.
  - apply (query_by_token_rejects sample_decrypt Admin "v1.admin:7:100"
             "admin:7:100"); [reflexivity|].
    right. exists "admin", "7", "100". split; [reflexivity|].
    right. exists 100. split; [reflexivity|]. vm_compute. discriminate.
  - apply (query_by_token_rejects sample_decrypt Admin "v1.user:7:1800000000"
             "user:7:1800000000"); [reflexivity|].
    right. exists "user", "7", "1800000000". split; [reflexivity|].
    left. vm_compute. discriminate.
Defined.

(** A string that does not decrypt, a token whose expiry is not a number
    and a well-formed, unexpired token for admin 8, who has no record, all
    return [None]; and the token of admin 7 is the only kind that returns
    a record. *)
Lemma query_by_token_total_sample :
  let s := sample_state Admin 7 sample_admin_row ∅ in
  query_by_token sample_decrypt Admin "garbage" s =
    (Ret None, add_event (EvLogError DecodeError) s) /\
  query_by_token sample_decrypt Admin "v1.admin:7:never" s =
    (Ret None, add_event (EvLogError ValueError) s) /\
  query_by_token sample_decrypt Admin "v1.admin:8:1800000000" s = (Ret None, s) /\
  exists row,
    db s !! ("admin", 7) = Some row /\
    loaded Admin 7 sample_admin_row = loaded Admin 7 row.
Proof.
  split; [|split; [|split]].
  - apply (proj1 (proj2 (query_by_token_total sample_decrypt Admin "garbage"
                           (sample_state Admin 7 sample_admin_row ∅)))).
    reflexivity.
  - apply (proj1 (proj2 (proj2 (proj2 (proj2
             (query_by_token_total sample_decrypt Admin "v1.admin:7:never"
                (sample_state Admin 7 sample_admin_row ∅))))))
             "admin:7:never" "admin" "7" "never" ValueError).
    + reflexivity.
    + reflexivity.
    + reflexivity.
    + reflexivity.
  - apply (proj1 (proj2 (proj2 (proj2 (proj2 (proj2
             (query_by_token_total sample_decrypt Admin "v1.admin:8:1800000000"
                (sample_state Admin 7 sample_admin_row ∅)))))))
             "admin:8:1800000000" "admin" "8" "1800000000" 1800000000).
    + reflexivity.
    + reflexivity.
    + reflexivity.
    + reflexivity.
    + vm_compute. reflexivity.
    + intros n Hn. vm_compute in Hn. injection Hn as <-. vm_compute. reflexivity.
  - destruct (proj2 (proj2 (proj2 (proj2 (proj2 (proj2
                (query_by_token_total sample_decrypt Admin "v1.admin:7:1800000000"
                   (sample_state Admin 7 sample_admin_row ∅)))))))
                (loaded Admin 7 sample_admin_row)
                (sample_state Admin 7 sample_admin_row ∅))
      as (_ & plain & _id & expires & e & row & _ & _ & _ & _ & _ & _ & Hrow & Ho).
    + vm_compute. reflexivity.
    + exists row. split; [exact Hrow | exact Ho].
Defined.

(** Revoking an authorized record writes once; revoking a revoked one
    changes nothing. *)
Lemma unauthorized_sample :
  let s := sample_state WXAuthorizer 3 (sample_wx_row true "Shop") ∅ in
  let s0 := sample_state WXAuthorizer 3 (sample_wx_row false "Shop") ∅ in
  unauthorized s0 = (Ret Self, s0) /\
  exists r s' fields,
    unauthorized s = (Ret r, s') /\
    db_writes (trace s') = [EvDbUpdate "wx_authorizer" 3 fields] /\
    fields !! "authorized" = Some (PBool false) /\
    fields !! "update_time" = Some (PTime 1000) /\
    unauthorized s' = (Ret Self, s').
Proof.
  split.
  - apply (proj1 (unauthorized_idempotent_frame
                    (sample_state WXAuthorizer 3 (sample_wx_row false "Shop") ∅))).
    vm_compute. reflexivity.
  - destruct (proj2 (unauthorized_idempotent_frame
                       (sample_state WXAuthorizer 3 (sample_wx_row true "Shop") ∅)))
      as (r & s' & fields & Hrun & Hw & Hf1 & Hf2 & _ & _ & _ & _ & _ & _ & Hagain).
    + vm_compute. reflexivity.
    + exists r, s', fields. repeat split; assumption.
Defined.

(** Rotating to the stored refresh token changes nothing; rotating to a new
    one writes it once. *)
Lemma update_refresh_token_sample :
  let s := sample_state WXAuthorizer 3 (sample_wx_row true "Shop") ∅ in
  update_refresh_token (PStr "r0") s = (Ret Self, s) /\
  exists r s' fields,
    update_refresh_token (PStr "r1") s = (Ret r, s') /\
    db_writes (trace s') = [EvDbUpdate "wx_authorizer" 3 fields] /\
    fields !! "refresh_token" = Some (PStr "r1").
Proof.
  split.
  - apply (proj1 (update_refresh_token_rotation (PStr "r0")
                    (sample_state WXAuthorizer 3 (sample_wx_row true "Shop") ∅))).
    vm_compute. reflexivity.
  - destruct (proj2 (update_refresh_token_rotation (PStr "r1")
                       (sample_state WXAuthorizer 3 (sample_wx_row true "Shop") ∅)))
      as (r & s' & fields & Hrun & Hw & Hf1 & _).
    + vm_compute. reflexivity.
    + exists r, s', fields. repeat split; assumption.
Defined.

(** A profile answer equal to the stored profile of an authorized record
    writes nothing; the same answer against a stored nick name "Old" writes
    once, and the row then holds the new nick name. *)
Lemma update_authorizer_info_sample :
  let sync := update_authorizer_info sample_repr (PStr "app") (PStr "cat")
                (sample_platform (PInt 7200)) in
  let s := sample_wx_state "Shop" in
  let t := sample_wx_state "Old" in
  (exists s1, sync s = (Ret Self, s1) /\ db s1 = db s /\
              db_writes (trace s1) = [] /\
              getattr (self_ s1) "update_time" = PTime 2) /\
  (exists t' fields,
     sync t = (Ret Self, t') /\
     db_writes (trace t') = [EvDbUpdate "wx_authorizer" 3 fields] /\
     fields !! "update_time" = Some (PTime 1000) /\
     fields !! "nick_name" = Some (PStr "Shop") /\
     stored_field (db t') ("wx_authorizer", 3) "nick_name" = Some (PStr "Shop")).
Proof.
  split.
  - destruct (update_authorizer_info_writes sample_repr (PStr "app") (PStr "cat")
                (sample_platform (PInt 7200)) (sample_wx_state "Shop")
                sample_profile sample_authorizer_info
                sample_authorization_info sample_profile_values
                (sample_wx_row true "Shop"))
      as [Hsame _].
    + reflexivity.
    + vm_compute; reflexivity.
    + reflexivity.
    + reflexivity.
    + reflexivity.
    + reflexivity.
    + vm_compute; reflexivity.
    + reflexivity.
    + vm_compute; reflexivity.
    + destruct Hsame as (H1 & H2 & H3 & H4).
      * intros f v Hin. simpl in Hin.
        repeat (destruct Hin as [[= <- <-]|Hin]; [vm_compute; reflexivity|]).
        destruct Hin.
      * intros f Hf _. simpl in Hf.
        repeat (destruct Hf as [<-|Hf]; [vm_compute; reflexivity|]).
        destruct Hf.
      * eexists. split; [exact H1|].
        split; [exact H2|]. split; [exact H3|]. exact H4.
  - destruct (update_authorizer_info_writes sample_repr (PStr "app") (PStr "cat")
                (sample_platform (PInt 7200)) (sample_wx_state "Old")
                sample_profile sample_authorizer_info
                sample_authorization_info sample_profile_values
                (sample_wx_row true "Old"))
      as [_ Hdiff].
    + reflexivity.
    + vm_compute; reflexivity.
    + reflexivity.
    + reflexivity.
    + reflexivity.
    + reflexivity.
    + vm_compute; reflexivity.
    + reflexivity.
    + vm_compute; reflexivity.
    + destruct Hdiff as (t' & fields & H1 & H2 & H3 & H4).
      * left. exists "nick_name", (PStr "Shop").
        split; [simpl; tauto|]. split; [simpl; tauto|]. vm_compute. reflexivity.
      * exists t', fields. split; [exact H1|]. split; [exact H2|].
        split; [exact H3|].
        destruct (H4 "nick_name" (PStr "Shop")) as [Hf Hs]; [simpl; tauto|].
        split; [exact Hf | exact Hs].
Defined.

(** C8 as stated fails.  A revoked record whose stored profile is the one
    the platform answers: every profile value the answer yields equals the
    stored one, yet one UPDATE is sent, which names the flag, and the
    stored update time moves from 2 to 1000. *)
Lemma update_authorizer_info_revoked_writes :
  let s := sample_state WXAuthorizer 3 (sample_wx_row false "Shop") ∅ in
  let run := update_authorizer_info sample_repr (PStr "app") (PStr "cat")
               (sample_platform (PInt 7200)) s in
  profile_values sample_repr sample_authorizer_info sample_authorization_info =
    Ret sample_profile_values /\
  (forall f v, In (f, v) sample_profile_values -> f <> "authorized" ->
     py_eqb v (getattr (loaded WXAuthorizer 3 (sample_wx_row false "Shop")) f)
       = true) /\
  fst run = Ret Self /\
  (exists fields,
     db_writes (trace (snd run)) = [EvDbUpdate "wx_authorizer" 3 fields] /\
     fields !! "authorized" = Some (PBool true)) /\
  stored_field (db s) ("wx_authorizer", 3) "update_time" = Some (PTime 2) /\
  stored_field (db (snd run)) ("wx_authorizer", 3) "update_time" =
    Some (PTime 1000).
Proof.
  split; [vm_compute; reflexivity|].
  split.
  { intros f v Hin Hf. simpl in Hin.
    destruct Hin as [[= <- <-]|Hin]; [by destruct Hf|].
    repeat (destruct Hin as [[= <- <-]|Hin]; [vm_compute; reflexivity|]).
    destruct Hin. }
  split; [vm_compute; reflexivity|].
  split.
  { eexists. split; [vm_compute; reflexivity|]. vm_compute. reflexivity. }
  split; vm_compute; reflexivity.
Qed.

(** With [expires_in = 3600] the access token and the ticket are cached for
    3000 seconds. *)
Lemma refresh_ahead_ttl_sample :
  let s := sample_wx_state "Shop" in
  let t := sample_cached_state sample_token_cache in
  (exists s',
     get_access_token sample_repr (PStr "app") (PStr "cat")
       (sample_platform (PInt 3600)) s = (Ret (PStr "tok"), s') /\
     redis_sets (trace s') =
       [EvRedisSet "wx_authorizer:wx1:access_token" "tok" 3000] /\
     redis s' !! "wx_authorizer:wx1:access_token" = Some ("tok", 3000)) /\
  (exists t',
     get_jsapi_ticket sample_repr (PStr "app") (PStr "cat")
       (sample_platform (PInt 3600)) t = (Ret (PStr "tkt"), t') /\
     redis_sets (trace t') =
       [EvRedisSet "wx_authorizer:wx1:jsapi_ticket" "tkt" 3000]).
Proof.
  split.
  - destruct (proj1 (refresh_ahead_ttl sample_repr (PStr "app") (PStr "cat")
                       (sample_platform (PInt 3600)))
                (sample_wx_state "Shop") (sample_token_answer (PInt 3600))
                (PStr "tok") (PInt 3600) (PStr "r0") 3600)
      as (s' & Hrun & Hsets & Hcache).
    + left. vm_compute. reflexivity.
    + reflexivity.
    + vm_compute. reflexivity.
    + reflexivity.
    + reflexivity.
    + reflexivity.
    + reflexivity.
    + reflexivity.
    + exists s'. split; [exact Hrun|]. split.
      * rewrite Hsets. vm_compute. reflexivity.
      * assert (Hk : cache_key sample_repr (self_ (sample_wx_state "Shop"))
                       "access_token" = "wx_authorizer:wx1:access_token")
          by (vm_compute; reflexivity).
        rewrite Hk in Hcache. rewrite Hcache. reflexivity.
  - destruct (proj2 (refresh_ahead_ttl sample_repr (PStr "app") (PStr "cat")
                       (sample_platform (PInt 3600)))
                "jsapi_ticket" "jsapi"
                (sample_cached_state sample_token_cache)
                (sample_cached_state sample_token_cache)
                (PStr "tok") (sample_ticket_answer (PInt 3600))
                (PStr "tkt") (PInt 3600) 3600)
      as (t' & Hrun & Hsets & _).
    + left. vm_compute. reflexivity.
    + vm_compute. reflexivity.
    + reflexivity.
    + vm_compute. reflexivity.
    + reflexivity.
    + reflexivity.
    + reflexivity.
    + reflexivity.
    + reflexivity.
    + exists t'. split; [exact Hrun|].
      rewrite Hsets. vm_compute. reflexivity.
Defined.

(** C3 as stated fails.  With [expires_in = 300] the access token is
    cached with a time to live of -300 seconds, not 0. *)
Lemma refresh_ahead_ttl_not_floored :
  let s := sample_wx_state "Shop" in
  let run := get_access_token sample_repr (PStr "app") (PStr "cat")
               (sample_platform (PInt 300)) s in
  fst run = Ret (PStr "tok") /\
  redis_sets (trace (snd run)) =
    [EvRedisSet "wx_authorizer:wx1:access_token" "tok" (-300)] /\
  redis (snd run) !! "wx_authorizer:wx1:access_token" = Some ("tok", -300) /\
  -300 <> Z.max 0 (300 - 600).
Proof.
  split; [vm_compute; reflexivity|].
  split; [vm_compute; reflexivity|].
  split; [vm_compute; reflexivity|].
  vm_compute. discriminate.
Qed.

(** No component token, a token answer without [expires_in], no access
    token, a ticket answer without [expires_in]: each time the method
    returns [None]. *)
Lemma credential_chain_absent_sample :
  let s := sample_wx_state "Shop" in
  let t := sample_cached_state sample_token_cache in
  let r := authorizer_token_request (PStr "app") (PStr "cat") (self_ s) in
  get_access_token sample_repr (PStr "app") PNone (sample_platform (PInt 3600)) s =
    (Ret PNone, add_event EvComponentToken s) /\
  get_access_token sample_repr (PStr "app") (PStr "cat") (sample_platform PNone) s =
    (Ret PNone, add_event (EvRequest r) (add_event EvComponentToken s)) /\
  get_jsapi_ticket sample_repr (PStr "app") PNone (sample_platform (PInt 3600)) s =
    (Ret PNone, add_event EvComponentToken s) /\
  get_card_api_ticket sample_repr (PStr "app") (PStr "cat") (sample_platform PNone) t =
    (Ret PNone, add_event (EvRequest (ticket_request (PStr "tok") "wx_card")) t).
Proof.
  split; [|split; [|split]].
  - apply (proj1 (credential_chain_absent sample_repr (PStr "app") PNone
                    (sample_platform (PInt 3600)))).
    + left. vm_compute. reflexivity.
    + reflexivity.
  - apply (proj1 (proj2 (credential_chain_absent sample_repr (PStr "app")
                           (PStr "cat") (sample_platform PNone)))
             (sample_wx_state "Shop")
             [("authorizer_access_token", PStr "tok"); ("expires_in", PNone);
              ("authorizer_refresh_token", PStr "r0")]).
    + left. vm_compute. reflexivity.
    + reflexivity.
    + vm_compute. reflexivity.
    + right. left. reflexivity.
  - apply (proj1 (proj2 (proj2 (credential_chain_absent sample_repr (PStr "app")
                                  PNone (sample_platform (PInt 3600)))))
             "jsapi_ticket" "jsapi" (sample_wx_state "Shop")
             (add_event EvComponentToken (sample_wx_state "Shop")) PNone).
    + left. vm_compute. reflexivity.
    + vm_compute. reflexivity.
    + reflexivity.
  - apply (proj2 (proj2 (proj2 (credential_chain_absent sample_repr (PStr "app")
                                  (PStr "cat") (sample_platform PNone))))
             "card_api_ticket" "wx_card"
             (sample_cached_state sample_token_cache)
             (sample_cached_state sample_token_cache) (PStr "tok")
             [("ticket", PStr "tkt"); ("expires_in", PNone)]).
    + left. vm_compute. reflexivity.
    + vm_compute. reflexivity.
    + reflexivity.
    + vm_compute. reflexivity.
    + right. reflexivity.
Defined.

(** A cached token is returned as it is; a fetched one is returned again
    by the next call, from the cache. *)
Lemma get_access_token_cached_sample :
  let s := sample_wx_state "Shop" in
  let t := sample_cached_state sample_token_cache in
  let get := get_access_token sample_repr (PStr "app") (PStr "cat")
               (sample_platform (PInt 3600)) in
  get t = (Ret (PStr "tok"), t) /\
  exists s',
    get s = (Ret (PStr "tok"), s') /\
    fetches (trace s') =
      [EvRequest (authorizer_token_request (PStr "app") (PStr "cat") (self_ s));
       EvComponentToken] /\
    get s' = (Ret (PStr "tok"), s').
Proof.
  split.
  - apply (proj1 (get_access_token_cached sample_repr (PStr "app") (PStr "cat")
                    (sample_platform (PInt 3600)))).
    + vm_compute. reflexivity.
    + vm_compute. discriminate.
  - apply (proj2 (get_access_token_cached sample_repr (PStr "app") (PStr "cat")
                    (sample_platform (PInt 3600)))
             (sample_wx_state "Shop") (sample_token_answer (PInt 3600))
             (PStr "tok") (PInt 3600) (PStr "r0") 3600).
    + left. vm_compute. reflexivity.
    + reflexivity.
    + vm_compute. reflexivity.
    + reflexivity.
    + reflexivity.
    + reflexivity.
    + reflexivity.
    + reflexivity.
    + reflexivity.
    + vm_compute. discriminate.
Defined.

(** The parameters of an add-card call and the same values under other
    names sign alike. *)
Lemma generate_card_sign_sample :
  let s := sample_cached_state sample_card_ticket_cache in
  let sign := generate_card_sign sample_repr sample_digest (PStr "app")
                (PStr "cat") (sample_platform (PInt 3600)) in
  exists items,
    Permutation items (values sample_add_card_params ++ ["tkt"]) /\
    sorted_bytes items /\
    sign sample_add_card_params s = (Ret (PStr (sample_digest (join items))), s) /\
    sign sample_renamed_params s = (Ret (PStr (sample_digest (join items))), s).
Proof.
  apply (generate_card_sign_deterministic sample_repr sample_digest (PStr "app")
           (PStr "cat") (sample_platform (PInt 3600))
           sample_add_card_params sample_renamed_params
           (sample_cached_state sample_card_ticket_cache)
           (sample_cached_state sample_card_ticket_cache)
           (sample_cached_state sample_card_ticket_cache)
           (sample_cached_state sample_card_ticket_cache) "tkt").
  - vm_compute. reflexivity.
  - vm_compute. reflexivity.
  - vm_compute. discriminate.
  - vm_compute.
    change (["p1"] ++ ["abc"; "1700000000"] ≡ₚ ["abc"; "1700000000"] ++ ["p1"]).
    apply Permutation_app_comm.
Defined.

(** * Further properties *)

(** ** Stripping *)

Lemma lstrip_clean (s : string) :
  match lstrip s with
  | EmptyString => True
  | String c _ => is_space c = false
  end.
Proof.
  induction s as [|c r IH]; simpl; [done|].
  destruct (is_space c) eqn:E; [done|]. by simpl.
Qed.

Lemma rstrip_idempotent (s : string) : rstrip (rstrip s) = rstrip s.
Proof.
  induction s as [|c r IH]; simpl; [done|].
  destruct (rstrip r) as [|c' r'] eqn:E.
  - destruct (is_space c) eqn:Ec; simpl; [done|]. by rewrite Ec.
  - simpl. simpl in IH. by rewrite IH.
Qed.

Lemma rstrip_head (c : ascii) (r : string) :
  is_space c = false -> exists r', rstrip (String c r) = String c r'.
Proof.
  intros Hc. simpl. destruct (rstrip r) as [|c' r'].
  - rewrite Hc. by eexists.
  - by eexists.
Qed.

Lemma strip_idempotent (s : string) : strip (strip s) = strip s.
Proof.
  unfold strip. pose proof (lstrip_clean s) as Hclean.
  destruct (lstrip s) as [|c r]; [done|].
  destruct (rstrip_head c r Hclean) as [r' Hr]. rewrite Hr.
  simpl lstrip. rewrite Hclean. rewrite <- Hr. apply rstrip_idempotent.
Qed.

(** X1.  Whatever [_nullable_strip] returns is [None] or a non-empty
    string with no white space at either end, and is left as it is by a
    second application. *)
Theorem nullable_strip_normal (s v : pyval) :
  _nullable_strip s = Ret v ->
  (v = PNone \/ exists y, v = PStr y /\ y <> "" /\ strip y = y) /\
  _nullable_strip v = Ret v.
Proof.
  unfold _nullable_strip. destruct (truthy s) eqn:Ts.
  - destruct s as [| | |x| | |]; try discriminate.
    destruct (String.eqb (strip x) "") eqn:E; intros [= <-].
    + by split; [left|].
    + apply String.eqb_neq in E as Hne. split.
      * right. exists (strip x). split; [done|]. split; [done|].
        apply strip_idempotent.
      * simpl. rewrite (proj2 (String.eqb_neq _ _) Hne). simpl.
        rewrite strip_idempotent. by rewrite E.
  - intros [= <-]. by split; [left|].
Qed.

(** ** Comparing with the stored row *)

(** [query_by_id] on the key of the receiver when the database does not
    answer or has no such row. *)
Lemma query_by_id_absent (s : state) :
  db_ok s = false \/
    db s !! (db_table (inst_cls (self_ s)), inst_id (self_ s)) = None ->
  query_by_id (inst_cls (self_ s)) (PInt (inst_id (self_ s))) s = (Ret None, s).
Proof.
  intros H. unfold query_by_id, cls_get_by_id, bind, lift, get_state.
  simpl py_int. cbv beta iota.
  destruct (db_ok s); [|done].
  destruct H as [H|H]; [done|]. by rewrite H.
Qed.

Lemma filter_raising_first_raises (p : string -> outcome bool)
    (f : string) (l : list string) (e : exn) :
  p f = Raise e -> filter_raising p (f :: l) = Raise e.
Proof. intros H. simpl. by rewrite H. Qed.

(** X2.  When the database does not answer, or no longer holds the row of
    the record, [save_if_modified] logs one [AttributeError], sends no
    write, and still returns the record: the pending changes are dropped in
    silence. *)
Theorem save_if_modified_row_missing (s : state) :
  sorted_field_names (inst_cls (self_ s)) <> [] ->
  db_ok s = false \/
    db s !! (db_table (inst_cls (self_ s)), inst_id (self_ s)) = None ->
  modified_fields [] s = (Ret None, add_event (EvLogError AttributeError) s) /\
  save_if_modified s = (Ret Self, add_event (EvLogError AttributeError) s).
Proof.
  intros Hfields Habsent.
  assert (Hm : modified_fields [] s =
                 (Ret None, add_event (EvLogError AttributeError) s)).
  { unfold modified_fields, try_except.
    unfold bind at 1 2. unfold get_state. cbv beta iota zeta.
    rewrite (query_by_id_absent s Habsent).
    destruct (sorted_field_names (inst_cls (self_ s))) as [|f l]; [done|].
    unfold bind, lift. by rewrite (filter_raising_first_raises _ f l AttributeError). }
  split; [exact Hm|].
  unfold save_if_modified, try_except. unfold bind at 1. by rewrite Hm.
Qed.

Lemma filter_raising_filter (p : string -> bool) (q : string -> outcome bool)
    (l : list string) :
  (forall f, q f = Ret (p f)) ->
  filter_raising q l = Ret (List.filter p l).
Proof.
  intros Hq. rewrite (filter_raising_ext q (fun f => Ret (p f))) by done.
  apply filter_raising_total.
Qed.

(** X3.  When the database answers and holds the row, [modified_fields]
    returns exactly the fields of the class that are not excluded and
    whose value in memory differs from the stored one, and changes
    nothing. *)
Theorem modified_fields_exclude (exclude : list string) (s : state)
    (row : gmap string pyval) :
  let o := self_ s in
  db_ok s = true ->
  db s !! (db_table (inst_cls o), inst_id o) = Some row ->
  exists l,
    modified_fields exclude s = (Ret (Some l), s) /\
    forall f,
      In f l <->
      In f (sorted_field_names (inst_cls o)) /\ ~ In f exclude /\
      py_eqb (getattr o f) (getattr (loaded (inst_cls o) (inst_id o) row) f)
        = false.
Proof.
  intros o Hok Hrow.
  exists (List.filter
            (fun f => py_ne (getattr o f)
                        (getattr (loaded (inst_cls o) (inst_id o) row) f) &&
                      negb (existsb (String.eqb f) exclude))
            (sorted_field_names (inst_cls o))).
  split.
  - unfold modified_fields, try_except.
    unfold bind at 1 2. unfold get_state. cbv beta iota zeta.
    unfold query_by_id, cls_get_by_id, bind, lift, get_state. simpl py_int.
    cbv beta iota. fold o. rewrite Hok, Hrow. unfold ret. cbv beta iota.
    by erewrite filter_raising_filter.
  - intros f. rewrite filter_In, andb_true_iff, negb_true_iff.
    unfold py_ne. rewrite negb_true_iff.
    assert (Hex : existsb (String.eqb f) exclude = false <-> ~ In f exclude).
    { rewrite <- Bool.not_true_iff_false, existsb_exists. split.
      - intros H Hin. apply H. exists f. split; [done|]. apply String.eqb_refl.
      - intros H (g & Hg & Heq). apply String.eqb_eq in Heq as ->. done. }
    rewrite Hex. tauto.
Qed.

(** ** Assign and save *)

Lemma save_after_setattr (o : instance) (f : string) (v : pyval) (s : state) :
  save (set_self (setattr o f v) s) =
    let o' := setattr o f v in
    let ev := EvDbUpdate (db_table (inst_cls o')) (inst_id o') (field_dict o') in
    if db_ok s
    then (Ret tt, set_self (clean o') (set_db (update_row o' (db s)) (add_event ev s)))
    else (Raise DatabaseError, add_event ev (set_self o' s)).
Proof.
  rewrite save_dirty.
  - reflexivity.
  - intros Hempty. pose proof (field_dict_setattr_eq o f v) as Hf.
    simpl in *. rewrite Hempty in Hf. done.
Qed.

(** A method that assigns one field and saves. *)
Lemma assign_and_save (f : string) (v : pyval) (s : state) :
  f <> "id" ->
  writes_field
    (try_except (assign f v ;; save ;; ret Self)
       (fun e => logger_error e ;; ret NoneRet)) f v s.
Proof.
  intros Hid. unfold writes_field, try_except.
  unfold bind at 1 2. unfold assign, modify. cbv beta iota.
  rewrite save_after_setattr. cbv zeta.
  set (o' := setattr (self_ s) f v).
  assert (Hother : forall g, g <> f -> g ∉ inst_dirty (self_ s) ->
                     field_dict o' !! g = None).
  { intros g Hg Hd. unfold o'. rewrite field_dict_setattr_ne by congruence.
    rewrite field_dict_lookup. by rewrite decide_False. }
  assert (Hget : getattr o' f = v) by (by apply getattr_setattr_eq).
  assert (Hframe : forall g, g <> f -> getattr o' g = getattr (self_ s) g).
  { intros g Hg. unfold o'. by rewrite getattr_setattr_ne by congruence. }
  destruct (db_ok s) eqn:Hok.
  - eexists Self, _, (field_dict o'). split; [reflexivity|].
    split; [reflexivity|]. split; [apply field_dict_setattr_eq|].
    split; [exact Hother|]. split; [exact Hget|]. split; [exact Hframe|]. done.
  - eexists NoneRet, _, (field_dict o'). split; [reflexivity|].
    split; [reflexivity|]. split; [apply field_dict_setattr_eq|].
    split; [exact Hother|]. split; [exact Hget|]. split; [exact Hframe|].
    split; intros; discriminate.
Qed.

(** X4.  [set_show] and [set_weight] send one UPDATE of their field each
    time they are called, also when the value is the one already held, and
    leave every other field, the update time among them, as it was. *)
Theorem set_show_set_weight_write (v : pyval) (s : state) :
  writes_field (set_show v) "show" v s /\
  writes_field (set_weight v) "weight" v s.
Proof. split; by apply assign_and_save. Qed.

(** ** Admin *)

(** X5.  [login] sends one UPDATE that names the login time, set to the
    clock reading, and the login address; no clean field is written, no
    other field changes in memory, the update time among them; the record
    is returned exactly when the database answers. *)
Theorem login_records (ip : pyval) (s : state) :
  let o := self_ s in
  exists r s' fields,
    login ip s = (Ret r, s') /\
    db_writes (trace s') =
      EvDbUpdate (db_table (inst_cls o)) (inst_id o) fields
      :: db_writes (trace s) /\
    fields !! "last_login_time" = Some (PTime (datetime_now s)) /\
    fields !! "last_login_ip" = Some ip /\
    (forall g, g <> "last_login_time" -> g <> "last_login_ip" ->
       g ∉ inst_dirty o -> fields !! g = None) /\
    getattr (self_ s') "last_login_time" = PTime (datetime_now s) /\
    getattr (self_ s') "last_login_ip" = ip /\
    (forall g, g <> "last_login_time" -> g <> "last_login_ip" ->
       getattr (self_ s') g = getattr o g) /\
    (r = Self <-> db_ok s = true).
Proof.
  intros o. unfold login, try_except.
  unfold bind at 1 2 3 4. unfold now, assign, modify. cbv beta iota.
  rewrite self_set_self, set_self_twice.
  change (datetime_now (set_self _ s)) with (datetime_now s).
  fold o. rewrite save_after_setattr. cbv zeta.
  set (o1 := setattr o "last_login_time" (PTime (datetime_now s))).
  set (o2 := setattr o1 "last_login_ip" ip).
  assert (H1 : field_dict o2 !! "last_login_time" = Some (PTime (datetime_now s))).
  { unfold o2. rewrite field_dict_setattr_ne by done.
    apply field_dict_setattr_eq. }
  assert (H2 : field_dict o2 !! "last_login_ip" = Some ip)
    by apply field_dict_setattr_eq.
  assert (H3 : forall g, g <> "last_login_time" -> g <> "last_login_ip" ->
                 g ∉ inst_dirty o -> field_dict o2 !! g = None).
  { intros g Hg1 Hg2 Hd. unfold o2, o1.
    rewrite !field_dict_setattr_ne by congruence.
    rewrite field_dict_lookup. by rewrite decide_False. }
  assert (H4 : getattr o2 "last_login_time" = PTime (datetime_now s)).
  { unfold o2. rewrite getattr_setattr_ne by done. by apply getattr_setattr_eq. }
  assert (H5 : getattr o2 "last_login_ip" = ip) by (by apply getattr_setattr_eq).
  assert (H6 : forall g, g <> "last_login_time" -> g <> "last_login_ip" ->
                 getattr o2 g = getattr o g).
  { intros g Hg1 Hg2. unfold o2, o1.
    by rewrite !getattr_setattr_ne by congruence. }
  destruct (db_ok s) eqn:Hok.
  - eexists Self, _, (field_dict o2). split; [reflexivity|].
    split; [reflexivity|]. repeat (split; [assumption|]). done.
  - eexists NoneRet, _, (field_dict o2). split; [reflexivity|].
    split; [reflexivity|]. repeat (split; [assumption|]).
    split; intros; discriminate.
Qed.

Section PasswordProperties.

Variable generate_password_hash : string -> string.
Variable check_password_hash : string -> string -> bool.

(** X6.  Provided a password checks against the hash made for it,
    [change_password] leaves a record that accepts the new password,
    whether or not the write went through; it sends one UPDATE, which
    names the password with the hash and the update time with the clock
    reading. *)
Theorem change_password_then_check (password : string) (s : state) :
  (forall p, check_password_hash (generate_password_hash p) p = true) ->
  exists r s' fields,
    change_password generate_password_hash password s = (Ret r, s') /\
    db_writes (trace s') =
      EvDbUpdate (db_table (inst_cls (self_ s))) (inst_id (self_ s)) fields
      :: db_writes (trace s) /\
    fields !! "password" = Some (PStr (generate_password_hash password)) /\
    fields !! "update_time" = Some (PTime (datetime_now s)) /\
    check_password check_password_hash password s' = (Ret true, s').
Proof.
  intros Hhash.
  set (h := PStr (generate_password_hash password)).
  set (o' := touch "password" h (datetime_now s) (self_ s)).
  unfold change_password, try_except. fold h.
  unfold bind at 1 2 3 4. unfold now, assign, modify. cbv beta iota.
  rewrite self_set_self, set_self_twice.
  change (datetime_now (set_self _ s)) with (datetime_now s).
  change (setattr (setattr (self_ s) "password" h) "update_time"
            (PTime (datetime_now s))) with o'.
  unfold o' at 1, touch. rewrite save_after_setattr. cbv zeta.
  fold (touch "password" h (datetime_now s) (self_ s)). fold o'.
  assert (Hpw : getattr o' "password" = h).
  { unfold o', touch. rewrite getattr_setattr_ne by done.
    by apply getattr_setattr_eq. }
  assert (Hcheck : forall s', getattr (self_ s') "password" = h ->
            check_password check_password_hash password s' = (Ret true, s')).
  { intros s' Hs'. unfold check_password, bind, self_attr.
    rewrite Hs'. unfold h, ret. by rewrite Hhash. }
  destruct (db_ok s); eexists _, _, (field_dict o');
    (split; [reflexivity|]); (split; [reflexivity|]);
    (split; [by apply field_dict_touch_field|]);
    (split; [apply field_dict_touch_time|]);
    apply Hcheck; exact Hpw.
Qed.

End PasswordProperties.

Section TokenSubject.

Variable encrypt : string -> string.
Variable decrypt : string -> outcome string.
Variable ADMIN_TOKEN_VALID_DAYS : Z.

(** X7.  Provided decryption undoes encryption, a token issued for one
    admin never validates to another: in any state, validation returns
    either [None] or a record of the class asked for whose id is the id
    the token was issued for. *)
Theorem token_names_its_subject (cls : model_class) (s1 s2 s' : state)
    (token : string) (r : option instance) :
  (forall p, decrypt (encrypt p) = Ret p) ->
  generate_token encrypt ADMIN_TOKEN_VALID_DAYS s1 = (Ret token, s1) ->
  query_by_token decrypt cls token s2 = (Ret r, s') ->
  r = None \/
  exists o, r = Some o /\ inst_id o = inst_id (self_ s1) /\ inst_cls o = cls.
Proof.
  intros Hcodec Hgen. unfold generate_token, bind, get_state, ret in Hgen.
  injection Hgen as <-.
  unfold query_by_token, try_except, bind, lift.
  rewrite Hcodec, token_plaintext_split.
  change (String.eqb ADMIN_TOKEN_TAG ADMIN_TOKEN_TAG) with true. cbv iota.
  rewrite int_of_str_str_of_int. unfold get_state.
  destruct (int_gt_float _ _).
  - unfold query_by_id, cls_get_by_id, bind, lift, get_state. simpl py_int.
    rewrite int_of_str_str_of_int.
    destruct (db_ok s2); [|intros [= <- _]; by left].
    destruct (db s2 !! _) as [row|]; intros [= <- _]; [|by left].
    right. by eexists.
  - intros [= <- _]. by left.
Qed.

End TokenSubject.

(** ** Updating the granted functions *)

Lemma py_eqb_str_inv (v : pyval) (x : string) :
  py_eqb v (PStr x) = true -> v = PStr x.
Proof.
  destruct v; simpl; try discriminate.
  intros H. apply String.eqb_eq in H. by subst.
Qed.

Section FuncInfo.

Variable repr : pyval -> string.

(** X8.  After a call of [update_func_info], a call with the same
    argument on the record as it then is changes nothing, in whatever state
    of the database: also when the first call failed to write, in which
    case the stored row keeps its old value and the method has returned
    [None]. *)
Theorem update_func_info_repeat (func_info : pyval) (s s' : state)
    (r : self_or_none) :
  update_func_info repr func_info s = (Ret r, s') ->
  (forall t, self_ t = self_ s' ->
     update_func_info repr func_info t = (Ret Self, t)) /\
  (db_ok s = false ->
   py_eqb (getattr (self_ s) "func_info") (PStr (repr func_info)) = false ->
   r = NoneRet /\ db s' = db s).
Proof.
  intros Hrun.
  assert (Hstay : forall t,
    getattr (self_ t) "func_info" = PStr (repr func_info) ->
    update_func_info repr func_info t = (Ret Self, t)).
  { intros t Ht. unfold update_func_info, try_except.
    unfold bind at 1 2. unfold self_attr, py_ne. rewrite Ht. simpl.
    by rewrite String.eqb_refl. }
  destruct (py_eqb (getattr (self_ s) "func_info") (PStr (repr func_info)))
    eqn:E.
  - assert (s' = s /\ r = Self) as [-> ->].
    { rewrite (Hstay s) in Hrun by (by apply py_eqb_str_inv).
      by injection Hrun as <- <-. }
    split; [|done]. intros t Ht. apply Hstay. rewrite Ht.
    by apply py_eqb_str_inv.
  - set (v := PStr (repr func_info)) in *.
    set (o' := touch "func_info" v (datetime_now s) (self_ s)).
    assert (Hrun' : update_func_info repr func_info s =
      match (assign "func_info" v ;;
             (let* t := now in assign "update_time" t) ;; save) s with
      | (Ret _, s1) => (Ret Self, s1)
      | (Raise e, s1) => (Ret NoneRet, add_event (EvLogError e) s1)
      end).
    { unfold update_func_info, try_except. fold v.
      unfold bind at 1 2. unfold self_attr, py_ne. rewrite E.
      simpl (negb _). cbv iota.
      match goal with |- context [bind ?m ?k s] => destruct (bind m k s) as [[[]|e] s1] end;
        reflexivity. }
    rewrite touch_and_save in Hrun'. cbv zeta in Hrun'. fold o' in Hrun'.
    rewrite Hrun' in Hrun.
    assert (Hmem : getattr o' "func_info" = v).
    { unfold o', touch. rewrite getattr_setattr_ne by done.
      by apply getattr_setattr_eq. }
    destruct (db_ok s); injection Hrun as <- <-.
    + split; [|done]. intros t Ht. apply Hstay. by rewrite Ht.
    + split; [|done]. intros t Ht. apply Hstay. by rewrite Ht.
Qed.

End FuncInfo.

(** ** Failures that escape the credential chain *)

Section BrokerFailures.

Variable repr : pyval -> string.
Variable app_id : pyval.
Variable component_access_token : pyval.
Variable platform : request -> outcome pyval.

(** From a cache miss with a component token to the token request. *)
Local Ltac post_token_request s Hmiss Hcat :=
  unfold get_access_token;
  rewrite (bind_run _ _ s s (getattr (self_ s) "appid")) by reflexivity;
  erewrite (bind_run _ _ s s); [|unfold redis_get; reflexivity];
  change ("wx_authorizer:" ++ py_str repr (getattr (self_ s) "appid") ++
          ":access_token")
    with (cache_key repr (self_ s) "access_token");
  destruct Hmiss as [Hmiss | Hmiss]; rewrite Hmiss;
  (rewrite (bind_run _ _ s (add_event EvComponentToken s)
              component_access_token) by reflexivity;
   rewrite Hcat; simpl (negb _); cbv iota;
   rewrite (bind_run _ _ _ (add_event EvComponentToken s)
              (getattr (self_ s) "refresh_token")) by reflexivity).

(** X9.  [get_access_token] catches nothing.  From a cache miss with a
    component token, a failure of the token request escapes as the
    exception it raised, with nothing cached and nothing written; and when
    the answer is complete but its [expires_in] is not a number, the
    conversion error escapes after the refresh token has been rotated and
    with the access token left uncached. *)
Theorem get_access_token_raises (s : state) :
  let r := authorizer_token_request app_id component_access_token (self_ s) in
  let s2 := add_event (EvRequest r) (add_event EvComponentToken s) in
  cache_miss s (cache_key repr (self_ s) "access_token") ->
  truthy component_access_token = true ->
  (forall e, platform r = Raise e ->
     get_access_token repr app_id component_access_token platform s =
       (Raise e, s2)) /\
  (forall resp access_token expires_in refresh_token e,
     platform r = Ret resp ->
     py_get resp "authorizer_access_token" = Ret access_token ->
     py_get resp "expires_in" = Ret expires_in ->
     py_get resp "authorizer_refresh_token" = Ret refresh_token ->
     py_all [access_token; expires_in; refresh_token] = true ->
     py_int expires_in = Raise e ->
     exists u s3,
       update_refresh_token refresh_token s2 = (Ret u, s3) /\
       get_access_token repr app_id component_access_token platform s =
         (Raise e, s3) /\
       redis s3 = redis s).
Proof.
  intros r s2 Hmiss Hcat. subst r s2. split.
  - intros e Hresp.
    post_token_request s Hmiss Hcat;
      (erewrite bind_run_raise; [reflexivity|];
       unfold requests_post, bind, emit, modify, lift; cbv beta iota zeta;
       change (platform _)
         with (platform (authorizer_token_request app_id
                           component_access_token (self_ s)));
       by rewrite Hresp).
  - intros resp access_token expires_in refresh_token e
      Hresp Hat Hei Hrt Hall Hn.
    destruct (update_refresh_token_frame refresh_token
                (add_event
                   (EvRequest (authorizer_token_request app_id
                                 component_access_token (self_ s)))
                   (add_event EvComponentToken s)))
      as (u & s3 & Hrot & Hredis & _).
    exists u, s3. split; [exact Hrot|]. split; [|exact Hredis].
    post_token_request s Hmiss Hcat;
      (erewrite bind_run;
       [|unfold requests_post, bind, emit, modify, lift; cbv beta iota zeta;
         change (platform _)
           with (platform (authorizer_token_request app_id
                             component_access_token (self_ s)));
         rewrite Hresp; reflexivity];
       rewrite Hat, Hei, Hrt;
       do 3 (erewrite bind_run; [|reflexivity]);
       unfold py_all in *; cbn [forallb] in *;
       rewrite Hall; simpl (negb _); cbv iota;
       erewrite bind_run; [|exact Hrot];
       rewrite Hn; reflexivity).
Qed.

End BrokerFailures.

(** ** Cache keys *)

Lemma append_inj_tail (a b t : string) : a ++ t = b ++ t -> a = b.
Proof.
  intros H.
  assert (Hl : list_ascii_of_string (a ++ t) = list_ascii_of_string (b ++ t))
    by (by rewrite H).
  assert (Happ : forall x y, list_ascii_of_string (x ++ y) =
                  (list_ascii_of_string x ++ list_ascii_of_string y)%list).
  { intros x y. induction x as [|c x IH]; simpl; [done|]. by rewrite IH. }
  rewrite !Happ in Hl. apply app_inv_tail in Hl.
  rewrite <- (string_of_list_ascii_of_string a),
          <- (string_of_list_ascii_of_string b). by rewrite Hl.
Qed.

Lemma list_ascii_of_append (x y : string) :
  list_ascii_of_string (x ++ y) =
  (list_ascii_of_string x ++ list_ascii_of_string y)%list.
Proof. induction x as [|c x IH]; simpl; [done|]. by rewrite IH. Qed.

(** Equal strings read backwards are equal lists, the endings first. *)
Lemma append_eq_backwards (a b t u : string) :
  a ++ t = b ++ u ->
  (rev (list_ascii_of_string t) ++ rev (list_ascii_of_string a))%list =
  (rev (list_ascii_of_string u) ++ rev (list_ascii_of_string b))%list.
Proof.
  intros H. rewrite <- !rev_app_distr, <- !list_ascii_of_append.
  by rewrite H.
Qed.

(** X10.  The cache key of a credential determines the tenant and the
    kind of credential: two records share a key for two of the three kinds
    only when their appids print alike and the kinds are the same, so the
    entries of different tenants, and the three entries of one tenant,
    never collide. *)
Theorem cache_key_injective (repr : pyval -> string) (o1 o2 : instance)
    (suffix1 suffix2 : string) :
  credential_suffix suffix1 -> credential_suffix suffix2 ->
  cache_key repr o1 suffix1 = cache_key repr o2 suffix2 ->
  py_str repr (getattr o1 "appid") = py_str repr (getattr o2 "appid") /\
  suffix1 = suffix2.
Proof.
  intros H1 H2. unfold cache_key.
  generalize (py_str repr (getattr o1 "appid")) as a.
  generalize (py_str repr (getattr o2 "appid")) as b.
  intros b a Hkey. simpl in Hkey. injection Hkey as Hkey.
  assert (Hsame : forall t, a ++ t = b ++ t -> a = b)
    by (intros t; apply append_inj_tail).
  destruct H1 as [-> | [-> | ->]], H2 as [-> | [-> | ->]];
    try (split; [by apply (Hsame _ Hkey)|reflexivity]);
    pose proof (append_eq_backwards a b _ _ Hkey) as Hrev; simpl in Hrev;
    discriminate Hrev.
Qed.

(** ** Calls of the platform API *)

Lemma emits_only_impl (P Q : event -> Prop) {A} (m : M A) :
  (forall e, P e -> Q e) -> emits_only P m -> emits_only Q m.
Proof.
  intros HPQ Hm s r s' Hrun. destruct (Hm s r s' Hrun) as (evs & Ht & HP).
  exists evs. split; [done|]. eapply Forall_impl; [exact HP|]. exact HPQ.
Qed.

Lemma bind_ret_inv {A B} (m : M A) (k : A -> M B) (s s' : state) (r : B) :
  bind m k s = (Ret r, s') ->
  exists a s1, m s = (Ret a, s1) /\ k a s1 = (Ret r, s').
Proof.
  unfold bind. destruct (m s) as [[a|e] s1]; [|done].
  intros H. by exists a, s1.
Qed.

(** One step of a proof that a method sends requests to one address
    only. *)
Ltac requests_step :=
  first
    [ apply emits_ret | apply emits_raise | apply emits_lift
    | apply emits_reader
    | apply emits_emit; intros ? [= <-]; reflexivity
    | apply emits_emit; intros ? [=]
    | apply emits_modify; reflexivity
    | apply emits_bind; [|intros ?]
    | apply emits_try_except; [|intros ?]
    | match goal with
      | |- emits_only _ (if ?b then _ else _) => destruct b
      | |- emits_only _ (match ?x with _ => _ end) => destruct x
      end ].

Lemma save_requests (url : string) : emits_only (request_to url) save.
Proof. unfold save. repeat requests_step. Qed.

Lemma update_refresh_token_requests (url : string) (v : pyval) :
  emits_only (request_to url) (update_refresh_token v).
Proof.
  unfold update_refresh_token, logger_error, assign, now, self_attr.
  repeat first [apply save_requests | requests_step].
Qed.

Section ApiCalls.

Variable repr : pyval -> string.
Variable app_id : pyval.
Variable component_access_token : pyval.
Variable platform : request -> outcome pyval.

(** [get_access_token] sends requests to the token endpoint only. *)
Lemma get_access_token_requests :
  emits_only
    (request_to "https://api.weixin.qq.com/cgi-bin/component/api_authorizer_token")
    (get_access_token repr app_id component_access_token platform).
Proof.
  unfold get_access_token, get_component_access_token, requests_post,
    redis_get, redis_set, self_attr.
  repeat first [apply update_refresh_token_requests | requests_step].
Qed.

(** X11.  Whatever [get_user_info] returns is [None] or a JSON object
    whose error code is absent or falsy: an error answer of the platform is
    never handed to the caller. *)
Theorem get_user_info_no_error_object (openid v : pyval) (s s' : state) :
  get_user_info repr app_id component_access_token platform openid s =
    (Ret v, s') ->
  v = PNone \/ exists c, py_get v "errcode" = Ret c /\ truthy c = false.
Proof.
  unfold get_user_info. intros H.
  apply bind_ret_inv in H as (access_token & s1 & _ & H).
  destruct (truthy access_token); simpl in H; [|injection H as <- _; by left].
  apply bind_ret_inv in H as (info & s2 & _ & H).
  apply bind_lift_inv in H as (c & Hc & H).
  destruct (truthy c) eqn:Tc; simpl in H; injection H as <- _.
  - by left.
  - right. by exists c.
Qed.

(** X12.  Every request [modify_card_stock] sends to the stock endpoint
    names an increase that is not negative, or a positive reduction, and
    never both: the sign of the change is carried by the name of the entry,
    not by its value. *)
Theorem modify_card_stock_amounts (card_id : pyval) (increase_stock_value : Z) :
  emits_only stock_request_ok
    (modify_card_stock repr app_id component_access_token platform
       card_id increase_stock_value).
Proof.
  unfold modify_card_stock. apply emits_bind.
  - eapply emits_only_impl; [|apply get_access_token_requests].
    intros e He q -> Hurl. specialize (He q eq_refl).
    rewrite He in Hurl. discriminate Hurl.
  - intros access_token. destruct (truthy access_token); simpl;
      [|apply emits_ret].
    unfold requests_post. apply emits_bind; [|intros ?; apply emits_lift].
    apply emits_emit. intros q [= <-] _. simpl.
    unfold stock_data_ok.
    destruct (0 <=? increase_stock_value) eqn:E; simpl.
    + left. exists increase_stock_value. apply Z.leb_le in E. done.
    + right. exists (- increase_stock_value). apply Z.leb_gt in E.
      split; [lia|done].
Qed.

(** X13.  Every request [send_template_message] sends to the template
    endpoint names the receiver, carries the link exactly when a link is
    given and the mini program exactly when one is given: an absent or
    empty option is left out, not sent empty. *)
Theorem send_template_message_options
    (openid template_id msg_data url miniprogram : pyval) :
  emits_only (template_request_ok repr openid url miniprogram)
    (send_template_message repr app_id component_access_token platform
       openid template_id msg_data url miniprogram).
Proof.
  unfold send_template_message. apply emits_bind.
  - eapply emits_only_impl; [|apply get_access_token_requests].
    intros e He q -> Hurl. specialize (He q eq_refl).
    rewrite He in Hurl. discriminate Hurl.
  - intros access_token. destruct (truthy access_token); simpl;
      [|apply emits_ret].
    unfold requests_post. apply emits_bind; [|intros ?; apply emits_lift].
    apply emits_emit. intros q [= <-] _. simpl.
    destruct (truthy url), (truthy miniprogram); simpl; done.
Qed.

(** X14.  Without an access token the API methods do nothing of their
    own: each returns [None] in the very state [get_access_token] left. *)
Theorem api_calls_need_access_token (s s1 : state) (access_token : pyval)
    (openid template_id msg_data url miniprogram card_id : pyval)
    (increase_stock_value : Z) :
  get_access_token repr app_id component_access_token platform s =
    (Ret access_token, s1) ->
  truthy access_token = false ->
  get_user_info repr app_id component_access_token platform openid s =
    (Ret PNone, s1) /\
  send_template_message repr app_id component_access_token platform
    openid template_id msg_data url miniprogram s = (Ret PNone, s1) /\
  modify_card_stock repr app_id component_access_token platform
    card_id increase_stock_value s = (Ret PNone, s1).
Proof.
  intros Hat Hfalsy.
  unfold get_user_info, send_template_message, modify_card_stock.
  rewrite !(bind_run _ _ _ _ _ Hat), Hfalsy. done.
Qed.

End ApiCalls.

(** ** Signed card parameters *)

Lemma with_entry_lookup (params : gmap string string) (k : string) (v : pyval) :
  with_entry params k v !! k = Some v.
Proof. unfold with_entry. apply lookup_insert_eq. Qed.

Lemma with_entry_delete (params : gmap string string) (k : string) (v : pyval) :
  params !! k = None ->
  delete k (with_entry params k v) = PStr <$> params.
Proof.
  intros Hk. unfold with_entry. rewrite delete_insert_eq.
  apply delete_id. by rewrite lookup_fmap, Hk.
Qed.

Section CardParams.

Variable repr : pyval -> string.
Variable sha1_hexdigest : string -> string.
Variable app_id : pyval.
Variable component_access_token : pyval.
Variable platform : request -> outcome pyval.
Variable generate_random_key : Z -> string.

Local Abbreviation generate_card_sign' :=
  (generate_card_sign repr sha1_hexdigest app_id component_access_token
     platform).
Local Abbreviation generate_add_card_params' :=
  (generate_add_card_params repr sha1_hexdigest app_id component_access_token
     platform generate_random_key).
Local Abbreviation generate_choose_card_params' :=
  (generate_choose_card_params repr sha1_hexdigest app_id
     component_access_token platform generate_random_key).

(** X15.  The signature [generate_add_card_params] returns is the card
    signature of exactly the other entries of the dict it returns: the
    card id, the time stamp, the nonce, and the code and the openid when
    they are given and only then. *)
Theorem generate_add_card_params_signed (card_id code openid : pyval)
    (s s' : state) (result : gmap string pyval) :
  generate_add_card_params' card_id code openid s = (Ret result, s') ->
  exists params signature,
    generate_card_sign' params s = (Ret signature, s') /\
    result !! "signature" = Some signature /\
    delete "signature" result = PStr <$> params /\
    params !! "cardId" = Some (py_str repr card_id) /\
    params !! "timestamp" = Some (str_of_int (int_of_float (time_time s))) /\
    params !! "nonce_str" = Some (generate_random_key 16) /\
    params !! "code" =
      (if truthy code then Some (py_str repr code) else None) /\
    params !! "openid" =
      (if truthy openid then Some (py_str repr openid) else None).
Proof.
  unfold generate_add_card_params. intros H.
  rewrite (bind_run _ _ s s (str_of_int (int_of_float (time_time s)))) in H
    by reflexivity.
  apply bind_ret_inv in H as (signature & s1 & Hsign & H).
  injection H as <- <-.
  eexists _, signature. split; [exact Hsign|].
  split; [apply with_entry_lookup|].
  destruct (truthy code), (truthy openid);
    (split; [apply with_entry_delete; by simplify_map_eq|]);
    by simplify_map_eq.
Qed.

(** X16.  [generate_choose_card_params] signs the dict before [signType]
    is put into it: the [cardSign] it returns is the card signature of the
    returned entries other than [cardSign] and [signType], and [signType]
    is ["SHA1"]. *)
Theorem generate_choose_card_params_signed (shop_id card_type card_id : pyval)
    (s s' : state) (result : gmap string pyval) :
  generate_choose_card_params' shop_id card_type card_id s = (Ret result, s') ->
  exists params card_sign,
    generate_card_sign' params s = (Ret card_sign, s') /\
    result !! "cardSign" = Some card_sign /\
    result !! "signType" = Some (PStr "SHA1") /\
    delete "signType" (delete "cardSign" result) = PStr <$> params /\
    params !! "appId" = Some (py_str repr (getattr (self_ s) "appid")).
Proof.
  unfold generate_choose_card_params. intros H.
  rewrite (bind_run _ _ s s (getattr (self_ s) "appid")) in H by reflexivity.
  rewrite (bind_run _ _ s s (str_of_int (int_of_float (time_time s)))) in H
    by reflexivity.
  apply bind_ret_inv in H as (card_sign & s1 & Hsign & H).
  injection H as <- <-.
  eexists _, card_sign. split; [exact Hsign|].
  split; [rewrite lookup_insert_ne by done; apply with_entry_lookup|].
  split; [apply lookup_insert_eq|].
  assert (Hdel : forall (m : gmap string pyval),
            delete "signType" (delete "cardSign" (<["signType" := PStr "SHA1"]> m))
            = delete "signType" (delete "cardSign" m)).
  { intros m. apply map_eq. intros k.
    destruct (decide (k = "signType")) as [->|H1]; [by rewrite !lookup_delete_eq|].
    rewrite !(lookup_delete_ne _ "signType") by done.
    destruct (decide (k = "cardSign")) as [->|H2]; [by rewrite !lookup_delete_eq|].
    rewrite !(lookup_delete_ne _ "cardSign") by done.
    by rewrite lookup_insert_ne. }
  rewrite Hdel.
  destruct (truthy shop_id), (truthy card_type), (truthy card_id);
    (split;
     [rewrite with_entry_delete by (by simplify_map_eq);
      apply delete_id; rewrite lookup_fmap; by simplify_map_eq|]);
    by simplify_map_eq.
Qed.

(** X17.  When no card ticket is to be had, the two methods still return
    their parameters, with [None] in the place of the signature. *)
Theorem card_params_without_ticket (s s1 : state) (ticket : pyval)
    (card_id code openid shop_id card_type : pyval) :
  get_card_api_ticket repr app_id component_access_token platform s =
    (Ret ticket, s1) ->
  truthy ticket = false ->
  (exists result,
     generate_add_card_params' card_id code openid s = (Ret result, s1) /\
     result !! "signature" = Some PNone /\
     result !! "cardId" = Some (PStr (py_str repr card_id))) /\
  (exists result,
     generate_choose_card_params' shop_id card_type card_id s =
       (Ret result, s1) /\
     result !! "cardSign" = Some PNone /\
     result !! "signType" = Some (PStr "SHA1")).
Proof.
  intros Hticket Hfalsy.
  assert (Hsign : forall params, generate_card_sign' params s = (Ret PNone, s1)).
  { intros params. unfold generate_card_sign.
    rewrite (bind_run _ _ _ _ _ Hticket). by rewrite Hfalsy. }
  split.
  - eexists. split.
    + unfold generate_add_card_params.
      rewrite (bind_run _ _ s s (str_of_int (int_of_float (time_time s))))
        by reflexivity.
      rewrite (bind_run _ _ _ _ _ (Hsign _)). reflexivity.
    + split; [apply with_entry_lookup|].
      unfold with_entry. rewrite lookup_insert_ne by done.
      rewrite lookup_fmap.
      destruct (truthy code), (truthy openid); by simplify_map_eq.
  - eexists. split.
    + unfold generate_choose_card_params.
      rewrite (bind_run _ _ s s (getattr (self_ s) "appid")) by reflexivity.
      rewrite (bind_run _ _ s s (str_of_int (int_of_float (time_time s))))
        by reflexivity.
      rewrite (bind_run _ _ _ _ _ (Hsign _)). reflexivity.
    + split; [|apply lookup_insert_eq].
      rewrite lookup_insert_ne by done. apply with_entry_lookup.
Qed.

End CardParams.

(** ** WeChat users *)

(** [query_by_id] returns, and leaves the state as it is. *)
Lemma query_by_id_state (cls : model_class) (_id : pyval) (s : state) :
  exists x, query_by_id cls _id s = (Ret x, s).
Proof.
  unfold query_by_id, cls_get_by_id, bind, lift, get_state.
  destruct (py_int _id) as [n|e]; [|by eexists].
  destruct (db_ok s); [|by eexists].
  destruct (db s !! (db_table cls, n)); by eexists.
Qed.

(** [modified_fields] returns, and touches neither the record, the
    database nor the clock. *)
Lemma modified_fields_frame (exclude : list string) (s : state) :
  exists x s1,
    modified_fields exclude s = (Ret x, s1) /\
    self_ s1 = self_ s /\ db s1 = db s /\ db_ok s1 = db_ok s /\
    datetime_now s1 = datetime_now s /\
    db_writes (trace s1) = db_writes (trace s).
Proof.
  unfold modified_fields, try_except.
  unfold bind at 1 2. unfold get_state. cbv beta iota zeta.
  destruct (query_by_id_state (inst_cls (self_ s)) (PInt (inst_id (self_ s))) s)
    as [o ->].
  unfold bind, lift.
  destruct (filter_raising _ _) as [l|e]; by eexists _, _.
Qed.

(** What [save_if_modified] can do: nothing but log, or stamp the update
    time and send one UPDATE; in memory no field but the update time
    changes, and the UPDATE names no clean field but the update time. *)
Lemma save_if_modified_frame (s : state) :
  exists r s',
    save_if_modified s = (Ret r, s') /\
    (forall f, f <> "update_time" ->
       getattr (self_ s') f = getattr (self_ s) f) /\
    (db_writes (trace s') = db_writes (trace s) \/
     exists fields,
       db_writes (trace s') =
         EvDbUpdate (db_table (inst_cls (self_ s))) (inst_id (self_ s)) fields
         :: db_writes (trace s) /\
       forall g, g <> "update_time" -> g ∉ inst_dirty (self_ s) ->
         fields !! g = None).
Proof.
  destruct (modified_fields_frame [] s)
    as (x & s1 & Hm & Hself & Hdb & Hok & Hnow & Hw).
  unfold save_if_modified, try_except. unfold bind at 1. rewrite Hm.
  assert (Hquiet : exists r s',
    (Ret Self, s1) = (Ret r, s') /\
    (forall f, f <> "update_time" -> getattr (self_ s') f = getattr (self_ s) f) /\
    (db_writes (trace s') = db_writes (trace s) \/
     exists fields,
       db_writes (trace s') =
         EvDbUpdate (db_table (inst_cls (self_ s))) (inst_id (self_ s)) fields
         :: db_writes (trace s) /\
       forall g, g <> "update_time" -> g ∉ inst_dirty (self_ s) ->
         fields !! g = None)).
  { exists Self, s1. split; [done|]. rewrite Hself. split; [done|]. by left. }
  destruct x as [[|f l]|]; [exact Hquiet| |exact Hquiet].
  unfold bind at 1 2 3. unfold now, assign, modify. cbv beta iota.
  rewrite save_after_setattr. cbv zeta. rewrite Hself, Hnow.
  set (o' := setattr (self_ s) "update_time" (PTime (datetime_now s))).
  assert (Hframe : forall g, g <> "update_time" ->
            getattr o' g = getattr (self_ s) g).
  { intros g Hg. unfold o'. by rewrite getattr_setattr_ne by congruence. }
  assert (Hclean : forall g, g <> "update_time" -> g ∉ inst_dirty (self_ s) ->
            field_dict o' !! g = None).
  { intros g Hg Hd. unfold o'. rewrite field_dict_setattr_ne by congruence.
    rewrite field_dict_lookup. by rewrite decide_False. }
  destruct (db_ok s1); eexists _, _; (split; [reflexivity|]);
    (split; [exact Hframe|]); right; exists (field_dict o');
    (split; [simpl; by rewrite Hw|exact Hclean]).
Qed.
Lemma str_of_int_nonempty (z : Z) : str_of_int z <> "".
Proof.
  intros H. pose proof (int_of_str_str_of_int z) as Hz.
  rewrite H in Hz. discriminate Hz.
Qed.

Lemma decimal_char_not_comma (c : ascii) :
  is_decimal_char c = true -> negb (Ascii.eqb c ",") = true.
Proof.
  destruct c as [[] [] [] [] [] [] [] []]; vm_compute; congruence.
Qed.

(** Splitting a joined list gives the list back, when its items are free
    of the separator and there is at least one. *)
Lemma split_concat (sep : ascii) (l : list string) :
  l <> [] ->
  Forall (fun x => string_forall (fun c => negb (Ascii.eqb c sep)) x = true) l ->
  split sep (String.concat (String sep EmptyString) l) = l.
Proof.
  intros Hne Hl. induction Hl as [|x l Hx Hl IH]; [done|].
  destruct l as [|y l].
  - simpl. by apply split_no_sep.
  - change (String.concat (String sep "") (x :: y :: l))
      with (x ++ String sep (String.concat (String sep "") (y :: l))).
    rewrite split_app_sep by done. by rewrite IH.
Qed.

Lemma map_int_str_of_int (l : list Z) : map_int (map str_of_int l) = Ret l.
Proof.
  induction l as [|z l IH]; simpl; [done|].
  by rewrite int_of_str_str_of_int, IH.
Qed.

Section WXUserProperties.

Variable repr : pyval -> string.

(** X18.  The tag ids given to [update_wx_user] for a subscribed user come
    back from [array_tagid_list]: once the update has returned the record,
    the list read from the record is the list of integers that was given,
    the empty list included. *)
Theorem tagid_list_round_trip (ids : list Z) (subscribe : pyval)
    (info : wx_user_info) (s s' : state) :
  truthy subscribe = true ->
  tagid_list info = PList (map PInt ids) ->
  update_wx_user repr subscribe info s = (Ret Self, s') ->
  array_tagid_list s' = (Ret ids, s').
Proof.
  intros Hsub Hids Hrun.
  assert (Hbody : exists s2 joined,
            join_tagid_list repr (tagid_list info) = Ret joined /\
            getattr (self_ s2) "tagid_list" = joined /\
            save_if_modified s2 = (Ret Self, s')).
  { unfold update_wx_user, try_except in Hrun.
    match type of Hrun with
    | context [bind ?m ?k s] => destruct (bind m k s) as [[a|e] s1] eqn:E
    end; [|discriminate Hrun].
    injection Hrun as -> ->.
    apply bind_assign_inv in E. rewrite Hsub in E.
    apply bind_ret_inv in E as ([] & s2 & H & Hsave).
    do 8 (apply bind_lift_inv in H as (? & _ & H)).
    do 10 (apply bind_assign_inv in H).
    apply bind_lift_inv in H as (joined & Hj & H).
    unfold assign, modify in H. injection H as <-.
    eexists. exists joined. split; [exact Hj|]. split; [|exact Hsave].
    by apply getattr_setattr_eq. }
  destruct Hbody as (s2 & joined & Hj & Hget & Hsave).
  destruct (save_if_modified_frame s2) as (r & s'' & Hsave' & Hframe & _).
  rewrite Hsave in Hsave'. injection Hsave' as <- <-.
  assert (Hstored : getattr (self_ s') "tagid_list" = joined)
    by (by rewrite Hframe).
  unfold array_tagid_list. unfold bind at 1. unfold self_attr.
  rewrite Hstored. rewrite Hids in Hj. unfold join_tagid_list in Hj.
  destruct ids as [|z ids].
  - simpl in Hj. injection Hj as <-. reflexivity.
  - assert (Hjoined :
      joined = PStr (String.concat "," (map str_of_int (z :: ids)))).
    { change (Ret (PStr (String.concat ","
                 (map (py_str repr) (map PInt (z :: ids))))) = Ret joined) in Hj.
      rewrite map_map in Hj.
      change (fun x => py_str repr (PInt x)) with str_of_int in Hj.
      congruence. }
    rewrite Hjoined. clear Hj Hstored Hget Hjoined.
    assert (Hsplit : split "," (String.concat "," (map str_of_int (z :: ids)))
                     = map str_of_int (z :: ids)).
    { apply split_concat; [done|]. apply Forall_forall.
      intros x Hx. apply list_elem_of_In, in_map_iff in Hx as (n & <- & _).
      eapply string_forall_impl;
        [apply decimal_char_not_comma | apply str_of_int_decimal]. }
    assert (Hne : String.concat "," (map str_of_int (z :: ids)) <> "").
    { intros Hempty. rewrite Hempty in Hsplit. simpl in Hsplit.
      injection Hsplit as Hz _. symmetry in Hz.
      by apply str_of_int_nonempty in Hz. }
    apply String.eqb_neq in Hne. unfold truthy. rewrite Hne.
    simpl (negb _). cbv iota. unfold lift.
    by rewrite Hsplit, map_int_str_of_int.
Qed.

(** X19.  For a user who has unsubscribed, [update_wx_user] assigns the
    subscription flag and nothing else: whatever profile it is given, in
    memory no field changes but the flag and, when a write is made, the
    update time, and the one UPDATE it may send names no clean field but
    these two. *)
Theorem update_wx_user_unsubscribed (subscribe : pyval) (info : wx_user_info)
    (s : state) :
  truthy subscribe = false ->
  exists r s',
    update_wx_user repr subscribe info s = (Ret r, s') /\
    getattr (self_ s') "subscribe" = subscribe /\
    (forall f, f <> "subscribe" -> f <> "update_time" ->
       getattr (self_ s') f = getattr (self_ s) f) /\
    (db_writes (trace s') = db_writes (trace s) \/
     exists fields,
       db_writes (trace s') =
         EvDbUpdate (db_table (inst_cls (self_ s))) (inst_id (self_ s)) fields
         :: db_writes (trace s) /\
       forall g, g <> "subscribe" -> g <> "update_time" ->
         g ∉ inst_dirty (self_ s) -> fields !! g = None).
Proof.
  intros Hsub.
  set (s1 := set_self (setattr (self_ s) "subscribe" subscribe) s).
  destruct (save_if_modified_frame s1) as (r & s' & Hsave & Hframe & Hwrite).
  exists r, s'. split.
  { unfold update_wx_user, try_except.
    unfold bind at 1 2. unfold assign at 1. unfold modify. cbv beta iota.
    fold s1. rewrite Hsub. unfold ret at 1. cbv beta iota. by rewrite Hsave. }
  split.
  { rewrite Hframe by done. by apply getattr_setattr_eq. }
  split.
  { intros f Hf1 Hf2. rewrite Hframe by done. simpl.
    by rewrite getattr_setattr_ne by congruence. }
  destruct Hwrite as [Hw | (fields & Hw & Hclean)]; [by left|].
  right. exists fields. split; [exact Hw|].
  intros g Hg1 Hg2 Hd. apply Hclean; [done|]. simpl.
  rewrite elem_of_union, elem_of_singleton. intros [?|?]; congruence.
Qed.

End WXUserProperties.

(** ** Ordering clauses *)

Lemma str_in_In (x : string) (xs : list string) :
  str_in x xs = true <-> In x xs.
Proof.
  unfold str_in. rewrite existsb_exists. split.
  - intros (y & Hy & Heq). apply String.eqb_eq in Heq. by subst.
  - intros Hx. exists x. split; [done|]. apply String.eqb_refl.
Qed.

Lemma str_in_not_In (x : string) (xs : list string) :
  str_in x xs = false <-> ~ In x xs.
Proof.
  rewrite <- str_in_In. by destruct (str_in x xs).
Qed.

(** Each clause comes from an item of [order_by] that passed the three
    tests of the loop. *)
Lemma order_by_clauses_item (m : model_meta) (order_by : list string)
    (c : bool * string) :
  In c (order_by_clauses m order_by) ->
  exists item,
    In item order_by /\
    fst c = startswith_minus item /\
    str_in (lstrip_signs item) (_exclude_fields m) = false /\
    snd c = (if str_in (lstrip_signs item) (_extra_attributes m)
             then split_once_last (lstrip_signs item)
             else lstrip_signs item) /\
    str_in (snd c) (sorted_field_names (meta_cls m)) = true.
Proof.
  induction order_by as [|item rest IH]; simpl; [done|].
  destruct (str_in (lstrip_signs item) (_exclude_fields m)) eqn:Hex.
  { intros Hc. destruct (IH Hc) as (i & Hi & H). exists i. tauto. }
  match goal with
  | |- context [str_in ?a (sorted_field_names _)] =>
      destruct (str_in a (sorted_field_names (meta_cls m))) eqn:Hf
  end.
  - intros [<-|Hc].
    + exists item. simpl. tauto.
    + destruct (IH Hc) as (i & Hi & H). exists i. tauto.
  - intros Hc. destruct (IH Hc) as (i & Hi & H). exists i. tauto.
Qed.

(** X20.  Every ordering clause [iterator] builds names a field of the
    class.  It names an excluded field only for an item that names, after
    its signs, an extra attribute which is not itself excluded and whose
    part after the first underscore is that field: the exclusion is tested
    before the attribute is renamed. *)
Theorem order_by_clauses_fields (m : model_meta) (order_by : list string)
    (c : bool * string) :
  In c (order_by_clauses m order_by) ->
  In (snd c) (sorted_field_names (meta_cls m)) /\
  (In (snd c) (_exclude_fields m) ->
   exists item,
     In item order_by /\
     In (lstrip_signs item) (_extra_attributes m) /\
     ~ In (lstrip_signs item) (_exclude_fields m) /\
     snd c = split_once_last (lstrip_signs item)).
Proof.
  intros Hc.
  destruct (order_by_clauses_item m order_by c Hc)
    as (item & Hitem & _ & Hex & Hattr & Hf).
  split; [by apply str_in_In|].
  intros Hsecret. exists item. split; [done|].
  destruct (str_in (lstrip_signs item) (_extra_attributes m)) eqn:Hextra.
  - split; [by apply str_in_In|]. split; [by apply str_in_not_In|done].
  - apply str_in_not_In in Hex. by rewrite Hattr in Hsecret.
Qed.

(** X21.  Whatever [order_by] holds, [iterator] never orders admins by
    password nor authorizers by refresh token: the excluded fields it can
    order by are the times of admins and users, and the descriptions of
    authorizers, which their extra attributes render. *)
Theorem order_by_never_secret (order_by : list string) :
  Forall (fun c => snd c <> "password")
    (order_by_clauses Admin_meta order_by) /\
  Forall (fun c => snd c <> "refresh_token")
    (order_by_clauses WXAuthorizer_meta order_by).
Proof.
  split; apply Forall_forall; intros c Hc; apply list_elem_of_In in Hc;
    destruct (order_by_clauses_item _ order_by c Hc)
      as (item & _ & _ & Hex & Hattr & _);
    rewrite Hattr; clear Hattr.
  all: match goal with
       | |- context [str_in ?a ?l] => destruct (str_in a l) eqn:Hextra
       end.
  - apply str_in_In in Hextra. simpl in Hextra.
    repeat (destruct Hextra as [H|Hextra];
            [rewrite <- H; vm_compute; discriminate|]).
    destruct Hextra.
  - intros Heq. rewrite Heq in Hex. vm_compute in Hex. discriminate Hex.
  - apply str_in_In in Hextra. simpl in Hextra.
    repeat (destruct Hextra as [H|Hextra];
            [rewrite <- H; vm_compute; discriminate|]).
    destruct Hextra.
  - intros Heq. rewrite Heq in Hex. vm_compute in Hex. discriminate Hex.
Qed.

(** * The further properties at sample inputs *)

(** A padded name is stripped, and the stripped name is left as it is. *)
Lemma nullable_strip_sample :
  (PStr "Shop" = PNone \/
   exists y, PStr "Shop" = PStr y /\ y <> "" /\ strip y = y) /\
  _nullable_strip (PStr "Shop") = Ret (PStr "Shop").
Proof.
  apply (nullable_strip_normal (PStr " Shop ") (PStr "Shop")).
  vm_compute. reflexivity.
Defined.

(** A record renamed in memory, with a database that does not answer:
    the change is dropped and the record returned. *)
Lemma save_if_modified_row_missing_sample :
  let s := offline (set_self (setattr (self_ (sample_wx_state "Shop"))
                                "nick_name" (PStr "New"))
                      (sample_wx_state "Shop")) in
  modified_fields [] s = (Ret None, add_event (EvLogError AttributeError) s) /\
  save_if_modified s = (Ret Self, add_event (EvLogError AttributeError) s).
Proof.
  apply (save_if_modified_row_missing
           (offline (set_self (setattr (self_ (sample_wx_state "Shop"))
                                 "nick_name" (PStr "New"))
                       (sample_wx_state "Shop")))).
  - vm_compute. discriminate.
  - left. reflexivity.
Defined.

(** A record renamed and reweighted in memory: with the weight excluded,
    the nick name is the one modified field. *)
Lemma modified_fields_exclude_sample :
  let s := set_self (setattr (setattr (self_ (sample_wx_state "Shop"))
                                "nick_name" (PStr "New"))
                       "weight" (PInt 9))
             (sample_wx_state "Shop") in
  exists l,
    modified_fields ["weight"] s = (Ret (Some l), s) /\
    In "nick_name" l /\ ~ In "weight" l.
Proof.
  destruct (modified_fields_exclude ["weight"]
              (set_self (setattr (setattr (self_ (sample_wx_state "Shop"))
                                    "nick_name" (PStr "New"))
                           "weight" (PInt 9))
                 (sample_wx_state "Shop"))
              (sample_wx_row true "Shop"))
    as (l & Hrun & Hl).
  - reflexivity.
  - vm_compute. reflexivity.
  - exists l. split; [exact Hrun|]. split.
    + apply Hl. split; [vm_compute; tauto|].
      split; [simpl; intros [H|[]]; discriminate H|].
      vm_compute. reflexivity.
    + intros Hin. apply Hl in Hin as (_ & Hex & _). apply Hex. simpl. tauto.
Defined.

(** With the sample hash scheme, the admin whose password was changed to
    "s3cret" is accepted with it. *)
Lemma change_password_sample :
  let s := sample_state Admin 7 sample_admin_row ∅ in
  exists r s' fields,
    change_password sample_password_hash "s3cret" s = (Ret r, s') /\
    db_writes (trace s') = [EvDbUpdate "admin" 7 fields] /\
    fields !! "password" = Some (PStr "pbkdf2$s3cret") /\
    fields !! "update_time" = Some (PTime 1000) /\
    check_password sample_check_password_hash "s3cret" s' = (Ret true, s').
Proof.
  apply (change_password_then_check sample_password_hash
           sample_check_password_hash "s3cret"
           (sample_state Admin 7 sample_admin_row ∅)).
  intros p. apply String.eqb_refl.
Defined.

(** The token issued for admin 7 validates to the record of admin 7. *)
Lemma token_names_its_subject_sample :
  let r := Some (loaded Admin 7 sample_admin_row) in
  r = None \/ exists o, r = Some o /\ inst_id o = 7 /\ inst_cls o = Admin.
Proof.
  apply (token_names_its_subject sample_encrypt sample_decrypt 7 Admin
           (sample_state Admin 7 sample_admin_row ∅)
           (sample_state Admin 7 sample_admin_row ∅)
           (sample_state Admin 7 sample_admin_row ∅)
           "v1.admin:7:1700604800").
  - intros p. reflexivity.
  - vm_compute. reflexivity.
  - vm_compute. reflexivity.
Defined.

(** A record whose description differs from the one given, with a database
    that does not answer: the first call returns [None] and stores
    nothing, and a second call changes nothing. *)
Lemma update_func_info_sample :
  let s := offline (set_self (setattr (self_ (sample_wx_state "Shop"))
                                "func_info" (PStr "[]"))
                      (sample_wx_state "Shop")) in
  let s' := snd (update_func_info sample_repr (PList [PInt 1]) s) in
  update_func_info sample_repr (PList [PInt 1]) s' = (Ret Self, s') /\
  db s' = db s.
Proof.
  destruct (update_func_info_repeat sample_repr (PList [PInt 1])
              (offline (set_self (setattr (self_ (sample_wx_state "Shop"))
                                    "func_info" (PStr "[]"))
                          (sample_wx_state "Shop")))
              (snd (update_func_info sample_repr (PList [PInt 1])
                      (offline (set_self (setattr (self_ (sample_wx_state "Shop"))
                                            "func_info" (PStr "[]"))
                                  (sample_wx_state "Shop")))))
              NoneRet)
    as [Hagain Hfail].
  - vm_compute. reflexivity.
  - split.
    + apply Hagain. reflexivity.
    + apply Hfail; vm_compute; reflexivity.
Defined.

(** A platform that is down, and one whose [expires_in] is not a number:
    both times [get_access_token] raises. *)
Lemma get_access_token_raises_sample :
  let s := sample_wx_state "Shop" in
  let r := authorizer_token_request (PStr "app") (PStr "cat") (self_ s) in
  let s2 := add_event (EvRequest r) (add_event EvComponentToken s) in
  get_access_token sample_repr (PStr "app") (PStr "cat") sample_down_platform s =
    (Raise RequestException, s2) /\
  exists s3,
    get_access_token sample_repr (PStr "app") (PStr "cat")
      (sample_platform (PStr "soon")) s = (Raise ValueError, s3) /\
    redis s3 = redis s.
Proof.
  split.
  - apply (proj1 (get_access_token_raises sample_repr (PStr "app") (PStr "cat")
                    sample_down_platform (sample_wx_state "Shop")
                    (or_introl eq_refl) eq_refl)).
    reflexivity.
  - destruct (proj2 (get_access_token_raises sample_repr (PStr "app")
                       (PStr "cat") (sample_platform (PStr "soon"))
                       (sample_wx_state "Shop") (or_introl eq_refl) eq_refl)
                (sample_token_answer (PStr "soon")) (PStr "tok") (PStr "soon")
                (PStr "r0") ValueError)
      as (u & s3 & _ & Hrun & Hredis).
    + reflexivity.
    + reflexivity.
    + reflexivity.
    + reflexivity.
    + reflexivity.
    + vm_compute. reflexivity.
    + exists s3. split; [exact Hrun | exact Hredis].
Defined.

(** Two records of the tenant "wx1" share the access-token key. *)
Lemma cache_key_injective_sample :
  let o1 := loaded WXAuthorizer 3 (sample_wx_row true "Shop") in
  let o2 := loaded WXAuthorizer 4 (sample_wx_row false "Other") in
  py_str sample_repr (getattr o1 "appid") =
    py_str sample_repr (getattr o2 "appid") /\
  "access_token" = "access_token".
Proof.
  apply (cache_key_injective sample_repr
           (loaded WXAuthorizer 3 (sample_wx_row true "Shop"))
           (loaded WXAuthorizer 4 (sample_wx_row false "Other"))
           "access_token" "access_token").
  - left. reflexivity.
  - left. reflexivity.
  - vm_compute. reflexivity.
Defined.

(** The profile the platform answers carries no error code, and is
    returned. *)
Lemma get_user_info_sample :
  sample_user_answer = PNone \/
  exists c, py_get sample_user_answer "errcode" = Ret c /\ truthy c = false.
Proof.
  apply (get_user_info_no_error_object sample_repr (PStr "app") (PStr "cat")
           (sample_constant_platform sample_user_answer) (PStr "o1")
           sample_user_answer (sample_cached_state sample_token_cache)
           (add_event
              (EvRequest
                 {| req_method := GET;
                    req_url := "https://api.weixin.qq.com/cgi-bin/user/info";
                    req_params := [("access_token", PStr "tok");
                                   ("openid", PStr "o1");
                                   ("lang", PStr "zh_CN")];
                    req_data := [] |})
              (sample_cached_state sample_token_cache))).
  vm_compute. reflexivity.
Defined.

(** With no component token there is no access token, and the three API
    methods return [None] after the one attempt to get it. *)
Lemma api_calls_need_access_token_sample :
  let s := sample_wx_state "Shop" in
  let s1 := add_event EvComponentToken s in
  get_user_info sample_repr (PStr "app") PNone sample_down_platform
    (PStr "o1") s = (Ret PNone, s1) /\
  send_template_message sample_repr (PStr "app") PNone sample_down_platform
    (PStr "o1") (PStr "t1") (PDict []) PNone PNone s = (Ret PNone, s1) /\
  modify_card_stock sample_repr (PStr "app") PNone sample_down_platform
    (PStr "p1") 5 s = (Ret PNone, s1).
Proof.
  apply (api_calls_need_access_token sample_repr (PStr "app") PNone
           sample_down_platform (sample_wx_state "Shop")
           (add_event EvComponentToken (sample_wx_state "Shop")) PNone).
  - vm_compute. reflexivity.
  - reflexivity.
Defined.

(** The parameters for card "p1", with no code and no openid, are signed
    over the card id, the time stamp and the nonce. *)
Lemma generate_add_card_params_sample :
  let s := sample_cached_state sample_card_ticket_cache in
  exists params signature,
    generate_card_sign sample_repr sample_digest (PStr "app") (PStr "cat")
      (sample_platform (PInt 3600)) params s = (Ret signature, s) /\
    sample_add_card_result !! "signature" = Some signature /\
    delete "signature" sample_add_card_result = PStr <$> params /\
    params !! "cardId" = Some "p1" /\
    params !! "code" = None /\
    params !! "openid" = None.
Proof.
  destruct (generate_add_card_params_signed sample_repr sample_digest
              (PStr "app") (PStr "cat") (sample_platform (PInt 3600))
              sample_random_key (PStr "p1") PNone PNone
              (sample_cached_state sample_card_ticket_cache)
              (sample_cached_state sample_card_ticket_cache)
              sample_add_card_result)
    as (params & signature & H1 & H2 & H3 & H4 & _ & _ & H5 & H6).
  - vm_compute. reflexivity.
  - exists params, signature. repeat split; assumption.
Defined.

(** The parameters for listing cards, with no filter, are signed before
    the kind of signature is put into them. *)
Lemma generate_choose_card_params_sample :
  let s := sample_cached_state sample_card_ticket_cache in
  exists params card_sign,
    generate_card_sign sample_repr sample_digest (PStr "app") (PStr "cat")
      (sample_platform (PInt 3600)) params s = (Ret card_sign, s) /\
    sample_choose_card_result !! "cardSign" = Some card_sign /\
    sample_choose_card_result !! "signType" = Some (PStr "SHA1") /\
    delete "signType" (delete "cardSign" sample_choose_card_result) =
      PStr <$> params /\
    params !! "appId" = Some "wx1".
Proof.
  apply (generate_choose_card_params_signed sample_repr sample_digest
           (PStr "app") (PStr "cat") (sample_platform (PInt 3600))
           sample_random_key PNone PNone PNone
           (sample_cached_state sample_card_ticket_cache)
           (sample_cached_state sample_card_ticket_cache)
           sample_choose_card_result).
  vm_compute. reflexivity.
Defined.

(** With no component token there is no card ticket, and both methods
    return parameters whose signature is [None]. *)
Lemma card_params_without_ticket_sample :
  let s := sample_wx_state "Shop" in
  let s1 := add_event EvComponentToken s in
  (exists result,
     generate_add_card_params sample_repr sample_digest (PStr "app") PNone
       sample_down_platform sample_random_key (PStr "p1") PNone PNone s =
       (Ret result, s1) /\
     result !! "signature" = Some PNone /\
     result !! "cardId" = Some (PStr "p1")) /\
  (exists result,
     generate_choose_card_params sample_repr sample_digest (PStr "app") PNone
       sample_down_platform sample_random_key PNone PNone (PStr "p1") s =
       (Ret result, s1) /\
     result !! "cardSign" = Some PNone /\
     result !! "signType" = Some (PStr "SHA1")).
Proof.
  apply (card_params_without_ticket sample_repr sample_digest (PStr "app")
           PNone sample_down_platform sample_random_key
           (sample_wx_state "Shop")
           (add_event EvComponentToken (sample_wx_state "Shop")) PNone
           (PStr "p1") PNone PNone PNone PNone).
  - vm_compute. reflexivity.
  - reflexivity.
Defined.

(** A subscribed user updated with the tags 2 and 10 reads back 2 and 10. *)
Lemma tagid_list_round_trip_sample :
  let s' := snd (update_wx_user sample_repr (PInt 1) sample_wx_user_info
                   sample_wx_user_state) in
  getattr (self_ s') "tagid_list" = PStr "2,10" /\
  array_tagid_list s' = (Ret [2; 10], s').
Proof.
  split; [vm_compute; reflexivity|].
  apply (tagid_list_round_trip sample_repr [2; 10] (PInt 1)
           sample_wx_user_info sample_wx_user_state).
  - reflexivity.
  - reflexivity.
  - vm_compute. reflexivity.
Defined.

(** A user who unsubscribes keeps the stored nick name and tags, whatever
    profile comes with the event. *)
Lemma update_wx_user_unsubscribed_sample :
  exists r s',
    update_wx_user sample_repr (PInt 0) sample_wx_user_info
      sample_wx_user_state = (Ret r, s') /\
    getattr (self_ s') "subscribe" = PInt 0 /\
    getattr (self_ s') "nickname" = PStr "Ann" /\
    getattr (self_ s') "tagid_list" = PStr "2".
Proof.
  destruct (update_wx_user_unsubscribed sample_repr (PInt 0)
              sample_wx_user_info sample_wx_user_state)
    as (r & s' & Hrun & Hsub & Hframe & _).
  - reflexivity.
  - exists r, s'. split; [exact Hrun|]. split; [exact Hsub|].
    split; rewrite Hframe by discriminate; vm_compute; reflexivity.
Defined.

(** Ordering admins by creation time, password and name: the password is
    dropped, the creation time is reached through its rendering. *)
Lemma order_by_clauses_sample :
  order_by_clauses Admin_meta ["-iso_create_time"; "password"; "+name"] =
    [(true, "create_time"); (false, "name")] /\
  In "create_time" (sorted_field_names Admin) /\
  exists item,
    In item ["-iso_create_time"; "password"; "+name"] /\
    In (lstrip_signs item) (_extra_attributes Admin_meta) /\
    ~ In (lstrip_signs item) (_exclude_fields Admin_meta) /\
    "create_time" = split_once_last (lstrip_signs item).
Proof.
  split; [reflexivity|].
  destruct (order_by_clauses_fields Admin_meta
              ["-iso_create_time"; "password"; "+name"] (true, "create_time"))
    as [Hfield Hsecret].
  - vm_compute. tauto.
  - split; [exact Hfield|]. apply Hsecret. vm_compute. tauto.
Defined.
